(** * DonationService: the record service layer of the donation tracker

    A shallow embedding of the service module (the IIFE that exports
    [DonationService]): the master table, the three sub-tables, the
    approval workflow and the inventory query, over a model of the
    browser's [localStorage] / [sessionStorage] and event target.

    Rows are JavaScript objects and are modelled as finite maps from
    property names to JSON values; a table is the array stored under one
    storage key.

    After the service proper come its notification mailbox, the auth module
    ([registerUser], [loginUser], the administrator seed), the
    password-strength utility and the handlers of the page stores that call
    the service (food form, money form, administrator dashboard). *)

From Stdlib Require Import Ascii String.
From stdpp Require Import gmap strings list fin_maps pretty.

Open Scope string_scope.
Open Scope Z_scope.

(** ** JSON values and rows *)

(** The values a property of a persisted row can hold.  [VNum] carries an
    integer: every number this module writes is the result of [parseInt].
    [NaN] and the infinities are written by [JSON.stringify] as [null], so a
    row never holds them.  [VNum z] is a value of the language when [z] is
    a double: below 2^53 in absolute value or, beyond, an integer of 53
    significant bits.  Numbers with a fractional part are not among these
    values: as arguments, the values are [null], the booleans, the integers
    and the strings. *)
Inductive val : Type :=
  | VNull
  | VBool (b : bool)
  | VNum (z : Z)
  | VStr (s : string).

#[global] Instance val_eq_dec : EqDecision val.
Proof. solve_decision. Defined.

(** A row: own properties of a plain object.  A missing key is an absent
    ([undefined]) property; [JSON.stringify] omits properties whose value
    is [undefined], so absence is also the persisted form of [undefined]. *)
Abbreviation row := (gmap string val).
Abbreviation table := (list (gmap string val)).

(** [obj.k = v] where [v] may be [undefined] ([None]). *)
Definition assign (k : string) (v : option val) (r : row) : row :=
  match v with
  | Some x => <[k := x]> r
  | None => delete k r
  end.

(** A number as it is persisted: [NaN] and the infinities become
    [null]. *)
Definition num (n : option Z) : val :=
  match n with
  | Some z => VNum z
  | None => VNull
  end.

(** ** Storage keys *)

Definition RECORDS_KEY : string := "dms_donation_records".
Definition FOOD_KEY : string := "dms_food_donations".
Definition CLOTHES_KEY : string := "dms_clothes_donations".
Definition MONEY_KEY : string := "dms_money_donations".
Definition NOTIF_KEY : string := "dms_notifications".
Definition THANKS_KEY : string := "dms_thanks".

(** Validated target-age values. *)
Definition VALID_AGES : list Z := [10; 19; 20; 30; 45].

(** ** Strings and numbers of the host language *)

(** A string is the sequence of its UTF-16 code units, and an [ascii] is
    one code unit below 256: the strings of this development are those
    without a code unit above 255. *)

(** White space stripped by [parseInt] and [String.prototype.trim]: the
    code units below 256 of WhiteSpace and LineTerminator, that is TAB, LF,
    VT, FF, CR, SP and NBSP (U+00A0). *)
Definition is_ws (a : ascii) : bool :=
  let n := nat_of_ascii a in
  ((9 <=? n)%nat && (n <=? 13)%nat) || (n =? 32)%nat || (n =? 160)%nat.

Fixpoint skip_ws (s : string) : string :=
  match s with
  | String a s' => if is_ws a then skip_ws s' else s
  | EmptyString => EmptyString
  end.

Definition trim (s : string) : string :=
  String.rev (skip_ws (String.rev (skip_ws s))).

(** The Numbers [parseInt] can yield: [NaN], an integer that is a double,
    or an infinity. *)
Inductive number : Type :=
  | NaN
  | Finite (z : Z)
  | PosInfinity
  | NegInfinity.

#[global] Instance number_eq_dec : EqDecision number.
Proof. solve_decision. Defined.

Definition negate (x : number) : number :=
  match x with
  | NaN => NaN
  | Finite z => Finite (- z)
  | PosInfinity => NegInfinity
  | NegInfinity => PosInfinity
  end.

(** The double nearest to the integer [n] (for [0 <= n]): [n] itself below
    2^53; above, [n] rounded to 53 significant bits, ties to even;
    [Infinity] from 2^1024 - 2^970 on. *)
Definition round_to_double (n : Z) : number :=
  if n <? 2 ^ 53 then Finite n
  else
    let e := Z.log2 n - 52 in
    let q := n / 2 ^ e in
    let r := n mod 2 ^ e in
    let q' := if (2 ^ (e - 1) <? r) || ((r =? 2 ^ (e - 1)) && Z.odd q)
              then q + 1 else q in
    if q' * 2 ^ e <? 2 ^ 1024 then Finite (q' * 2 ^ e) else PosInfinity.

(** *** Number to string *)

Definition decimal_length (n : Z) : nat := String.length (pretty n).

(** The decimal with the fewest significant digits that reads back as the
    double [x] (for [2^53 <= x]), the closest one if there are two: [x]
    cut to its first [k] digits, or that plus one unit of the [k]-th
    digit, for the least [k] for which one of them rounds to [x].
    Seventeen digits always suffice. *)
Fixpoint shortest_go (fuel k : nat) (x : Z) (n : nat) : Z :=
  match fuel with
  | O => x
  | S fuel' =>
      let p := 10 ^ Z.of_nat (n - k) in
      let lo := x / p * p in
      let hi := lo + p in
      let lo_ok := bool_decide (round_to_double lo = Finite x) in
      let hi_ok := bool_decide (round_to_double hi = Finite x) in
      if lo_ok && hi_ok then
        if x - lo <? hi - x then lo
        else if hi - x <? x - lo then hi
        else if Z.even (lo / p) then lo else hi
      else if lo_ok then lo
      else if hi_ok then hi
      else shortest_go fuel' (S k) x n
  end.

Definition shortest (x : Z) : Z := shortest_go 17 1 x (decimal_length x).

Fixpoint skip_zeros (s : string) : string :=
  match s with
  | String "0" s' => skip_zeros s'
  | _ => s
  end.

(** [d.ddde+n] for a decimal [m] of more than 21 digits. *)
Definition exponent_form (m : Z) : string :=
  let all := pretty m in
  let exponent := pretty (Z.of_nat (String.length all) - 1) in
  match String.rev (skip_zeros (String.rev all)) with
  | String d "" => String d ("e+" +:+ exponent)
  | String d rest => String d ("." +:+ rest +:+ "e+" +:+ exponent)
  | EmptyString => all
  end.

(** [Number::toString] of an integer [0 <= z]: its decimal numeral below
    2^53; above, the shortest digits that read back as [z], filled up with
    zeros below 1e21 and in exponent form from 1e21 on. *)
Definition magnitude_toString (z : Z) : string :=
  if z <? 2 ^ 53 then pretty z
  else
    let m := shortest z in
    if m <? 10 ^ 21 then pretty m else exponent_form m.

Definition Number_toString (x : number) : string :=
  match x with
  | NaN => "NaN"
  | Finite z =>
      if z <? 0 then "-" +:+ magnitude_toString (- z) else magnitude_toString z
  | PosInfinity => "Infinity"
  | NegInfinity => "-Infinity"
  end.

(** [ToString] of a value, which is also its reading as a property key
    ([clothes[sub.target_age]]). *)
Definition to_key (v : val) : string :=
  match v with
  | VNull => "null"
  | VBool true => "true"
  | VBool false => "false"
  | VNum z => Number_toString (Finite z)
  | VStr s => s
  end.

(** *** String to number *)

Definition digit (a : ascii) : option Z :=
  let n := nat_of_ascii a in
  if ((48 <=? n)%nat && (n <=? 57)%nat) then Some (Z.of_nat (n - 48)) else None.

(** Longest prefix of decimal digits; [None] when there is none. *)
Fixpoint digits (acc : option Z) (s : string) : option Z :=
  match s with
  | String a s' =>
      match digit a with
      | Some d => digits (Some (10 * default 0 acc + d)) s'
      | None => acc
      end
  | EmptyString => acc
  end.

(** The Number of a digit prefix: its value rounded to a double (the
    correctly rounded one; the language lets an implementation approximate
    beyond the twentieth digit). *)
Definition of_digits (d : option Z) : number :=
  match d with
  | Some n => round_to_double n
  | None => NaN
  end.

(** The steps of [parseInt] on the input string: white space, sign,
    digits. *)
Definition parseInt_string (s : string) : number :=
  match skip_ws s with
  | String "-" s' => negate (of_digits (digits None s'))
  | String "+" s' => of_digits (digits None s')
  | s' => of_digits (digits None s')
  end.

(** [parseInt(x, 10)]: the argument is first converted to a string, so
    that a number of 1e21 or more is read in its exponent form, up to the
    point or the [e], and [null], [true] and [false] as words without a
    digit. *)
Definition Number_parseInt (x : val) : number := parseInt_string (to_key x).

(** The integer [parseInt(x, 10)] yields; [None] when it yields [NaN] or an
    infinity, which [JSON.stringify] writes as [null] alike and which no
    list of integers includes. *)
Definition parseInt (x : val) : option Z :=
  match Number_parseInt x with
  | Finite z => Some z
  | _ => None
  end.

(** [Array.prototype.includes] on a list of numbers ([NaN] is not in it). *)
Definition includes (l : list Z) (x : option Z) : bool :=
  match x with
  | Some z => bool_decide (z ∈ l)
  | None => false
  end.

(** [Array.prototype.join]. *)
Fixpoint join (sep : string) (l : list string) : string :=
  match l with
  | [] => ""
  | [x] => x
  | x :: l' => x +:+ sep +:+ join sep l'
  end.

(** ** The host: storage, clock, event target *)

(** What a [setItem] call does, seen from the service: the value is
    stored; the call returns but the value cannot be read back (the partial
    write that [_verifyCommit] looks for); or the call throws (quota). *)
Inductive write_outcome : Type := Stored | Dropped | Refused.

(** Behaviour of the storage substrate, per key. *)
Definition policy : Type := string → write_outcome.

(** The storage the browser provides when nothing goes wrong. *)
Definition reliable : policy := λ _, Stored.

(** Sources of time and randomness, indexed by the number of reads made
    so far.  [Math_random n] stands for
    [Math.random().toString(36).slice(2, 7)].  [Date_now] yields time
    values: integers that the language keeps within 8.64e15 of zero, below
    2^53, so that they print as their decimal numeral. *)
Record Clock : Type := mkClock {
  Date_now : nat → Z;
  Math_random : nat → string;
  toISOString : Z → string
}.

Record World : Type := mkWorld {
  tables : gmap string table;      (* localStorage: the five tables, parsed *)
  dms_session : option row;        (* localStorage.dms_session, parsed; None when missing or unparsable *)
  dms_thanks : option row;         (* sessionStorage.dms_thanks *)
  dispatched : list row;           (* details of the donationSuccess events raised, oldest first *)
  ticks : nat                      (* reads of the clock and of Math.random so far *)
}.

Definition set_tables (t : gmap string table) (w : World) : World :=
  mkWorld t (dms_session w) (dms_thanks w) (dispatched w) (ticks w).
Definition set_thanks (t : option row) (w : World) : World :=
  mkWorld (tables w) (dms_session w) t (dispatched w) (ticks w).
Definition push_event (r : row) (w : World) : World :=
  mkWorld (tables w) (dms_session w) (dms_thanks w) (dispatched w ++ [r]) (ticks w).
Definition tick (w : World) : World :=
  mkWorld (tables w) (dms_session w) (dms_thanks w) (dispatched w) (S (ticks w)).

(** The rows of a table as [_loadTable] reads them. *)
Definition table_of (key : string) (w : World) : table :=
  default [] (tables w !! key).

(** ** Computations: state and exceptions *)

Inductive exn : Type :=
  | RangeError (msg : string)
  | Error (msg : string)
  | QuotaExceededError
  | TypeError.

Inductive outcome (A : Type) : Type :=
  | Returns (a : A)
  | Throws (e : exn).
Arguments Returns {A} a.
Arguments Throws {A} e.

(** A call runs on a world and ends by returning or throwing; the world
    it leaves holds whatever was written before the end. *)
Definition M (A : Type) : Type := World → outcome A * World.

Definition ret {A} (a : A) : M A := λ w, (Returns a, w).
Definition throw {A} (e : exn) : M A := λ w, (Throws e, w).
Definition bind {A B} (m : M A) (k : A → M B) : M B :=
  λ w, match m w with
       | (Returns a, w') => k a w'
       | (Throws e, w') => (Throws e, w')
       end.

Declare Scope js_scope.
Delimit Scope js_scope with js.
Notation "x <- c1 ;; c2" := (bind c1 (λ x, c2))
  (at level 100, c1 at next level, right associativity) : js_scope.
Notation "c1 ;;; c2" := (bind c1 (λ _, c2))
  (at level 100, right associativity) : js_scope.
Open Scope js_scope.

(** [Array.prototype.forEach] with an accumulator for the variables the
    callback closes over. *)
Fixpoint forEach {A S : Type} (l : list A) (f : S → A → M S) (s : S) : M S :=
  match l with
  | [] => ret s
  | x :: l' => s' <- f s x ;; forEach l' f s'
  end.

(** ** Row predicates *)

(** [r.id === id] *)
Definition has_id (id : string) (r : row) : Prop := r !! "id" = Some (VStr id).
(** [r.donation_id === id] *)
Definition refers_to (id : string) (r : row) : Prop :=
  r !! "donation_id" = Some (VStr id).

#[global] Instance has_id_dec id r : Decision (has_id id r).
Proof. unfold has_id. apply _. Defined.
#[global] Instance refers_to_dec id r : Decision (refers_to id r).
Proof. unfold refers_to. apply _. Defined.

(** [Array.prototype.some] *)
Definition some {A} (P : A → Prop) `{∀ x, Decision (P x)} (l : list A) : bool :=
  bool_decide (Exists P l).

(** The object [_setThanksFlag] serializes:
    [{ committed: true, donationId, type, committedAt }]. *)
Definition thanks_flag (committedAt : string) (masterRecord : row) : row :=
  assign "committedAt" (Some (VStr committedAt))
    (assign "type" (masterRecord !! "type")
       (assign "donationId" (masterRecord !! "id")
          {[ "committed" := VBool true ]})).

(** ** The service module *)

Section Service.

Variable clk : Clock.
Variable pol : policy.

(** *** Private helpers *)

(** [Date.now()] *)
Definition now : M Z := λ w, (Returns (Date_now clk (ticks w)), tick w).

(** [Math.random().toString(36).slice(2, 7)] *)
Definition random5 : M string :=
  λ w, (Returns (Math_random clk (ticks w)), tick w).

(** [new Date().toISOString()] *)
Definition new_Date_toISOString : M string :=
  t <- now ;; ret (toISOString clk t).

(** Generic table load: [JSON.parse(localStorage.getItem(key)) || []],
    and [[]] when parsing throws. *)
Definition _loadTable (key : string) : M table :=
  λ w, (Returns (table_of key w), w).

(** Generic table save: [localStorage.setItem(key, JSON.stringify(rows))]. *)
Definition _saveTable (key : string) (rows : table) : M unit :=
  λ w, match pol key with
       | Stored => (Returns tt, set_tables (<[key := rows]> (tables w)) w)
       | Dropped => (Returns tt, w)
       | Refused => (Throws QuotaExceededError, w)
       end.

(** Convenience aliases for the master table. *)
Definition _load : M table := _loadTable RECORDS_KEY.
Definition _save (records : table) : M unit := _saveTable RECORDS_KEY records.

(** Generate a prefixed, time-ordered unique ID. *)
Definition _genId (prefix : string) : M string :=
  t <- now ;;
  r <- random5 ;;
  ret ((if decide (prefix = "") then "dr" else prefix)
         +:+ "_" +:+ pretty t +:+ "_" +:+ r).

(** Single master record by PK. *)
Definition getRecordById (id : string) : M (option row) :=
  rows <- _load ;;
  ret (snd <$> list_find (has_id id) rows).

(** Verify the relationship: master row + sub-table FK row both exist. *)
Definition _verifyCommit (donationId subTableKey : string) : M bool :=
  record <- getRecordById donationId ;;
  let masterExists := bool_decide (is_Some record) in
  subRows <- _loadTable subTableKey ;;
  let subExists := some (refers_to donationId) subRows in
  ret (masterExists && subExists).

(** Write the one-time flag to sessionStorage; a failing write is caught
    and ignored. *)
Definition _setThanksFlag (masterRecord : row) : M unit :=
  committedAt <- new_Date_toISOString ;;
  λ w, match pol THANKS_KEY with
       | Stored =>
           (Returns tt, set_thanks (Some (thanks_flag committedAt masterRecord)) w)
       | Dropped | Refused => (Returns tt, w)
       end.

(** Broadcast the global donationSuccess custom event. *)
Definition _dispatchSuccess (record : row) : M unit :=
  λ w, (Returns tt, push_event record w).

(** The master row every save path inserts: pending, not yet audited. *)
Definition new_master (id userId type createdAt : string) : row :=
  {[ "id" := VStr id;
     "userId" := VStr userId;
     "type" := VStr type;
     "createdAt" := VStr createdAt;
     "approved" := VNull;
     "donation_status" := VStr "pending" ]}.

(** *** Save methods *)

(** Path A: one row to the master table and one row to Food_Donations. *)
Definition saveFoodRecord (userId : string) (rice vegetables : val) : M row :=
  let riceQty := parseInt rice in
  let vegQty := parseInt vegetables in
  masterRows <- _load ;;
  id <- _genId "dr" ;;
  createdAt <- new_Date_toISOString ;;
  let record := new_master id userId "food" createdAt in
  _save (record :: masterRows) ;;;
  foodRows <- _loadTable FOOD_KEY ;;
  fid <- _genId "fd" ;;
  _saveTable FOOD_KEY
    ({[ "id" := VStr fid;
        "donation_id" := VStr id;
        "rice_qty" := num riceQty;
        "veg_qty" := num vegQty ]} :: foodRows) ;;;
  ok <- _verifyCommit id FOOD_KEY ;;
  (if ok then _setThanksFlag record else ret tt) ;;;
  _dispatchSuccess record ;;;
  ret record.

(** The message of the range error raised for a bad target age. *)
Definition age_error (received : option string) : exn :=
  RangeError ("target_age must be one of "
                +:+ join ", " (pretty <$> VALID_AGES)
                +:+ match received with
                    | Some s => ". Received: " +:+ s
                    | None => ""
                    end).

(** Path B: one row to the master table and one row to Clothes_Donations. *)
Definition saveApparelRecord (userId : string) (ageGroup : val) : M row :=
  let targetAge := parseInt ageGroup in
  if negb (includes VALID_AGES targetAge)
  then throw (age_error (Some (Number_toString (Number_parseInt ageGroup))))
  else
    masterRows <- _load ;;
    id <- _genId "dr" ;;
    createdAt <- new_Date_toISOString ;;
    let record := new_master id userId "apparel" createdAt in
    _save (record :: masterRows) ;;;
    clothesRows <- _loadTable CLOTHES_KEY ;;
    cid <- _genId "cd" ;;
    _saveTable CLOTHES_KEY
      ({[ "id" := VStr cid;
          "donation_id" := VStr id;
          "target_age" := num targetAge ]} :: clothesRows) ;;;
    ok <- _verifyCommit id CLOTHES_KEY ;;
    (if ok then _setThanksFlag record else ret tt) ;;;
    _dispatchSuccess record ;;;
    ret record.

(** Path C step 1: a master row and a Money_Donations row with
    [status = false].  The returned object carries [transactionId],
    attached after the master table was saved. *)
Definition createPendingMoney (userId qrPayload : string) : M row :=
  t <- now ;;
  let transactionId := "TXN-" +:+ pretty t in
  masterRows <- _load ;;
  id <- _genId "dr" ;;
  createdAt <- new_Date_toISOString ;;
  let record := new_master id userId "money" createdAt in
  _save (record :: masterRows) ;;;
  moneyRows <- _loadTable MONEY_KEY ;;
  mid <- _genId "md" ;;
  _saveTable MONEY_KEY
    ({[ "id" := VStr mid;
        "donation_id" := VStr id;
        "transaction_id" := VStr transactionId;
        "qr_payload" := VStr qrPayload;
        "status" := VBool false ]} :: moneyRows) ;;;
  ret (<["transactionId" := VStr transactionId]> record).

(** Path C step 2: flips Money_Donations.status to true and dispatches
    donationSuccess. *)
Definition completeMoney (donationId : string) : M (option row) :=
  moneyRows <- _loadTable MONEY_KEY ;;
  match list_find (refers_to donationId) moneyRows with
  | Some (i, row) =>
      _saveTable MONEY_KEY (<[i := <["status" := VBool true]> row]> moneyRows)
  | None => ret tt
  end ;;;
  record <- getRecordById donationId ;;
  match record with
  | Some r =>
      ok <- _verifyCommit donationId MONEY_KEY ;;
      (if ok then _setThanksFlag r else ret tt) ;;;
      _dispatchSuccess r
  | None => ret tt
  end ;;;
  ret record.

(** Cancel a pending Money record: removes the master row and its
    Money_Donations row. *)
Definition cancelPendingMoney (donationId : string) : M unit :=
  all <- _load ;;
  _save (filter (λ r, ¬ has_id donationId r) all) ;;;
  money <- _loadTable MONEY_KEY ;;
  _saveTable MONEY_KEY (filter (λ r, ¬ refers_to donationId r) money).

(** Legacy wrapper: creates and immediately completes a money record. *)
Definition saveMoneyRecord (userId qrPayload : string) : M row :=
  record <- createPendingMoney userId qrPayload ;;
  match record !! "id" with
  | Some (VStr id) => completeMoney id ;;; ret tt
  | _ => ret tt
  end ;;;
  ret record.

(** *** Read methods *)

Definition getRecordsByUser (userId : string) : M table :=
  rows <- _load ;;
  ret (filter (λ r, r !! "userId" = Some (VStr userId)) rows).

Definition getAllRecords : M table := _load.

Definition getFoodByDonationId (donationId : string) : M (option row) :=
  rows <- _loadTable FOOD_KEY ;;
  ret (snd <$> list_find (refers_to donationId) rows).

Definition getClothesByDonationId (donationId : string) : M (option row) :=
  rows <- _loadTable CLOTHES_KEY ;;
  ret (snd <$> list_find (refers_to donationId) rows).

Definition getMoneyByDonationId (donationId : string) : M (option row) :=
  rows <- _loadTable MONEY_KEY ;;
  ret (snd <$> list_find (refers_to donationId) rows).

(** *** Admin methods *)

(** The authorization guard of [approveRecord] and [rejectRecord]:
    [!session || session.role !== 'admin'] is false. *)
Definition is_admin (session : option row) : bool :=
  match session with
  | Some s => bool_decide (s !! "role" = Some (VStr "admin"))
  | None => false
  end.

(** [JSON.parse(localStorage.getItem('dms_session'))] under [try]. *)
Definition read_session : M (option row) := λ w, (Returns (dms_session w), w).

(** Approve a donation record. *)
Definition approveRecord (donationId : string) : M (option row) :=
  session <- read_session ;;
  if negb (is_admin session)
  then throw (Error "approveRecord: administrator session required.")
  else
    rows <- _load ;;
    match list_find (has_id donationId) rows with
    | None => ret None
    | Some (i, row) =>
        approvedAt <- new_Date_toISOString ;;
        let row := <["approved" := VBool true]> row in
        let row := <["approvedAt" := VStr approvedAt]> row in
        let row := assign "approvedBy" (session ≫= (.!! "userId")) row in
        let row := <["donation_status" := VStr "approved"]> row in
        let row := delete "rejectedAt" row in
        let row := delete "rejectedBy" row in
        _save (<[i := row]> rows) ;;;
        ret (Some row)
    end.

(** Reject a donation record. *)
Definition rejectRecord (donationId reason : string) : M (option row) :=
  session <- read_session ;;
  if negb (is_admin session)
  then throw (Error "rejectRecord: administrator session required.")
  else
    rows <- _load ;;
    match list_find (has_id donationId) rows with
    | None => ret None
    | Some (i, row) =>
        rejectedAt <- new_Date_toISOString ;;
        let row := <["approved" := VBool false]> row in
        let row := <["rejectedAt" := VStr rejectedAt]> row in
        let row := assign "rejectedBy" (session ≫= (.!! "userId")) row in
        let row := <["rejectionReason" := VStr (trim reason)]> row in
        let row := <["donation_status" := VStr "rejected"]> row in
        let row := delete "approvedAt" row in
        let row := delete "approvedBy" row in
        _save (<[i := row]> rows) ;;;
        ret (Some row)
    end.

(** Delete a donation record and its sub-table row(s); cascades across
    all three sub-tables. *)
Definition deleteRecord (donationId : string) : M unit :=
  all <- _load ;;
  _save (filter (λ r, ¬ has_id donationId r) all) ;;;
  food <- _loadTable FOOD_KEY ;;
  _saveTable FOOD_KEY (filter (λ r, ¬ refers_to donationId r) food) ;;;
  clothes <- _loadTable CLOTHES_KEY ;;
  _saveTable CLOTHES_KEY (filter (λ r, ¬ refers_to donationId r) clothes) ;;;
  money <- _loadTable MONEY_KEY ;;
  _saveTable MONEY_KEY (filter (λ r, ¬ refers_to donationId r) money).

(** Update rice / vegetable quantities of a food donation. *)
Definition updateFoodRecord (donationId : string) (rice veg : val)
  : M (option row) :=
  rows <- _loadTable FOOD_KEY ;;
  match list_find (refers_to donationId) rows with
  | None => ret None
  | Some (i, row) =>
      let row := <["rice_qty" := num (parseInt rice)]> row in
      let row := <["veg_qty" := num (parseInt veg)]> row in
      _saveTable FOOD_KEY (<[i := row]> rows) ;;;
      ret (Some row)
  end.

(** Update the target age group of an apparel donation. *)
Definition updateApparelRecord (donationId : string) (targetAge : val)
  : M (option row) :=
  let age := parseInt targetAge in
  if negb (includes VALID_AGES age)
  then throw (age_error None)
  else
    rows <- _loadTable CLOTHES_KEY ;;
    match list_find (refers_to donationId) rows with
    | None => ret None
    | Some (i, row) =>
        let row := <["target_age" := num age]> row in
        _saveTable CLOTHES_KEY (<[i := row]> rows) ;;;
        ret (Some row)
    end.

(** Update the transaction ID of a money donation. *)
Definition updateMoneyRecord (donationId transactionId : string)
  : M (option row) :=
  rows <- _loadTable MONEY_KEY ;;
  match list_find (refers_to donationId) rows with
  | None => ret None
  | Some (i, row) =>
      let row := <["transaction_id" := VStr transactionId]> row in
      _saveTable MONEY_KEY (<[i := row]> rows) ;;;
      ret (Some row)
  end.

(** *** Inventory overview *)

Record Inventory : Type := mkInventory {
  rice_kg : Z;
  veg_kg : Z;
  clothes : gmap string Z;   (* target_age → donation count *)
  money_count : Z;
  total : Z
}.

(** [sub.rice_qty || 0] as a summand.  Quantities are written by
    [saveFoodRecord] and [updateFoodRecord] only, as an integer or
    [null]; the other falsy values count as 0 too. *)
Definition qty_or_0 (v : option val) : Z :=
  match v with
  | Some (VNum z) => z
  | _ => 0
  end.

(** [sub.target_age != null] *)
Definition not_nullish (v : option val) : option val :=
  match v with
  | Some VNull | None => None
  | Some x => Some x
  end.

(** The body of the [forEach] callback of [getApprovedInventory]. *)
Definition inventory_step (acc : Inventory) (r : row) : M Inventory :=
  if decide (r !! "type" = Some (VStr "food")) then
    rows <- _loadTable FOOD_KEY ;;
    let sub : row :=
      default ∅ (snd <$> list_find (λ s, s !! "donation_id" = r !! "id") rows) in
    ret (mkInventory (rice_kg acc + qty_or_0 (sub !! "rice_qty"))
                     (veg_kg acc + qty_or_0 (sub !! "veg_qty"))
                     (clothes acc) (money_count acc) (total acc))
  else if decide (r !! "type" = Some (VStr "apparel")) then
    rows <- _loadTable CLOTHES_KEY ;;
    let sub : row :=
      default ∅ (snd <$> list_find (λ s, s !! "donation_id" = r !! "id") rows) in
    match not_nullish (sub !! "target_age") with
    | Some age =>
        let k := to_key age in
        ret (mkInventory (rice_kg acc) (veg_kg acc)
                         (<[k := default 0 (clothes acc !! k) + 1]> (clothes acc))
                         (money_count acc) (total acc))
    | None => ret acc
    end
  else if decide (r !! "type" = Some (VStr "money")) then
    ret (mkInventory (rice_kg acc) (veg_kg acc) (clothes acc)
                     (money_count acc + 1) (total acc))
  else ret acc.

(** Approved inventory totals across all sub-tables; only records with
    [approved === true] are counted. *)
Definition getApprovedInventory : M Inventory :=
  all <- _load ;;
  let records := filter (λ r, r !! "approved" = Some (VBool true)) all in
  acc <- forEach records inventory_step (mkInventory 0 0 ∅ 0 0) ;;
  ret (mkInventory (rice_kg acc) (veg_kg acc) (clothes acc) (money_count acc)
                   (Z.of_nat (length records))).

End Service.

(** * Vocabulary of the properties *)

(** The world after [n] more reads of the clock. *)
Definition ticked (n : nat) (w : World) : World :=
  mkWorld (tables w) (dms_session w) (dms_thanks w) (dispatched w) (n + ticks w).

(** The world after table [k] is loaded, changed by [f] and saved back on
    reliable storage: the read-modify-write every mutation performs. *)
Definition rewrite_table (k : string) (f : table → table) (w : World) : World :=
  set_tables (<[k := f (table_of k w)]> (tables w)) w.

(** The id [_genId] returns when the clock has been read [n] times. *)
Definition genId_at (clk : Clock) (prefix : string) (n : nat) : string :=
  (if decide (prefix = "") then "dr" else prefix)
    +:+ "_" +:+ pretty (Date_now clk n) +:+ "_" +:+ Math_random clk (S n).

(** Referential integrity of one sub-row: its [donation_id] is the id of a
    master row of the given type. *)
Definition references_master (type : string) (w : World) (sub : row) : Prop :=
  ∃ id m, refers_to id sub ∧ m ∈ table_of RECORDS_KEY w
          ∧ has_id id m ∧ m !! "type" = Some (VStr type).

(** Every sub-record references an existing master record of its type. *)
Definition referential_integrity (w : World) : Prop :=
  Forall (references_master "food" w) (table_of FOOD_KEY w)
  ∧ Forall (references_master "apparel" w) (table_of CLOTHES_KEY w)
  ∧ Forall (references_master "money" w) (table_of MONEY_KEY w).

(** The master row and the money row [createPendingMoney] writes. *)
Definition pending_id (clk : Clock) (w : World) : string :=
  genId_at clk "dr" (1 + ticks w).
Definition pending_txn (clk : Clock) (w : World) : string :=
  "TXN-" +:+ pretty (Date_now clk (ticks w)).
Definition pending_master (clk : Clock) (userId : string) (w : World) : row :=
  new_master (pending_id clk w) userId "money"
    (toISOString clk (Date_now clk (3 + ticks w))).
Definition pending_money (clk : Clock) (qrPayload : string) (w : World) : row :=
  {[ "id" := VStr (genId_at clk "md" (4 + ticks w));
     "donation_id" := VStr (pending_id clk w);
     "transaction_id" := VStr (pending_txn clk w);
     "qr_payload" := VStr qrPayload;
     "status" := VBool false ]}.

(** What [_verifyCommit] answers on a world; it only reads. *)
Definition verified (donationId subTableKey : string) (w : World) : bool :=
  bool_decide (is_Some (snd <$> list_find (has_id donationId) (table_of RECORDS_KEY w)))
  && some (refers_to donationId) (table_of subTableKey w).

(** The row [approveRecord] leaves in place of [r]. *)
Definition approved_row (approvedAt : string) (approvedBy : option val) (r : row) : row :=
  delete "rejectedBy"
    (delete "rejectedAt"
       (<["donation_status" := VStr "approved"]>
          (assign "approvedBy" approvedBy
             (<["approvedAt" := VStr approvedAt]>
                (<["approved" := VBool true]> r))))).

(** The row [rejectRecord] leaves in place of [r]. *)
Definition rejected_row (rejectedAt : string) (rejectedBy : option val)
    (reason : string) (r : row) : row :=
  delete "approvedBy"
    (delete "approvedAt"
       (<["donation_status" := VStr "rejected"]>
          (<["rejectionReason" := VStr (trim reason)]>
             (assign "rejectedBy" rejectedBy
                (<["rejectedAt" := VStr rejectedAt]>
                   (<["approved" := VBool false]> r)))))).

(** The master table with row [i] replaced. *)
Definition with_master_row (i : nat) (r : row) (w : World) : World :=
  set_tables (<[RECORDS_KEY := <[i := r]> (table_of RECORDS_KEY w)]> (tables w)) w.

(** The world a call leaves. *)
Definition after {A} (m : M A) (w : World) : World := snd (m w).

(** A field of the master row [getRecordById] yields. *)
Definition master_field (id field : string) (w : World) : option val :=
  match getRecordById id w with
  | (Returns (Some r), _) => r !! field
  | _ => None
  end.

(** A field of a sub-row found by [donation_id]. *)
Definition sub_field (key id field : string) (w : World) : option val :=
  match list_find (refers_to id) (table_of key w) with
  | Some (_, r) => r !! field
  | None => None
  end.

(** ** Fixtures *)

(** A clock that advances one millisecond per read. *)
Definition demo_clock : Clock :=
  mkClock (λ n, 1700000000000 + Z.of_nat n)
          (λ n, "k" +:+ pretty n)
          (λ t, "T" +:+ pretty t).

(** Storage that silently loses the writes to one key. *)
Definition forgets (key : string) : policy :=
  λ k, if decide (k = key) then Dropped else Stored.

Definition admin_session : row :=
  {[ "userId" := VStr "u_admin_seed"; "role" := VStr "admin" ]}.
Definition donor_session : row :=
  {[ "userId" := VStr "u_1"; "role" := VStr "user" ]}.

(** Empty storage, nothing dispatched yet. *)
Definition fresh_world (session : option row) : World :=
  mkWorld ∅ session None [] 0.

(** The food path with the food write lost. *)
Definition lossy_food_world : World :=
  after (saveFoodRecord demo_clock (forgets FOOD_KEY) "u_1" (VNum 5) (VNum 3))
    (fresh_world None).
Definition lossy_food_record : row :=
  new_master (genId_at demo_clock "dr" 0) "u_1" "food"
    (toISOString demo_clock (Date_now demo_clock 2)).

(** One food donation (rice 5, vegetables 3), one apparel donation (age
    20) and one pending money donation, entered through the service. *)
Definition seeded (session : option row) : World :=
  after (saveFoodRecord demo_clock reliable "u_1" (VNum 5) (VNum 3) ;;;
         saveApparelRecord demo_clock reliable "u_2" (VNum 20) ;;;
         createPendingMoney demo_clock reliable "u_1" "upi://pay?pa=donatehub")
    (fresh_world session).

Definition food_id : string := genId_at demo_clock "dr" 0.
Definition apparel_id : string := genId_at demo_clock "dr" 6.
Definition money_id : string := genId_at demo_clock "dr" 13.

(** The same store after an administrator approved the food and the
    apparel donation. *)
Definition stocked : World :=
  after (approveRecord demo_clock reliable food_id ;;;
         approveRecord demo_clock reliable apparel_id)
    (seeded (Some admin_session)).

(** The food sub-row of the populated store. *)
Definition seeded_food_sub : row :=
  {[ "id" := VStr (genId_at demo_clock "fd" 3);
     "donation_id" := VStr food_id;
     "rice_qty" := VNum 5;
     "veg_qty" := VNum 3 ]}.

(** The rows of the approved store. *)
Definition stocked_master (i : nat) : row :=
  default ∅ (table_of RECORDS_KEY stocked !! i).
Definition stocked_food_sub : row := default ∅ (table_of FOOD_KEY stocked !! 0%nat).
Definition stocked_apparel_sub : row :=
  default ∅ (table_of CLOTHES_KEY stocked !! 0%nat).

(** * The rest of the service, the auth module and the page stores *)

(** ** Notifications *)

(** [ToBoolean] of a property read. *)
Definition truthy (v : option val) : bool :=
  match v with
  | Some (VBool b) => b
  | Some (VNum z) => negb (z =? 0)
  | Some (VStr s) => negb (bool_decide (s = ""))
  | Some VNull | None => false
  end.

Section Notifications.

Variable clk : Clock.
Variable pol : policy.

(** Write a notification for a donor.  [userId] and [donationId] are
    passed on as they are ([None] for [undefined], which [JSON.stringify]
    leaves out); [reason] is [None] for [null] or a missing argument;
    [Math.random().toString(36).slice(2, 5)] is the first three characters
    of the five [_genId] takes. *)
Definition addNotification (userId donationId : option val) (type message : string)
    (reason : option string) : M unit :=
  notifs <- _loadTable NOTIF_KEY ;;
  t <- now clk ;;
  r <- random5 clk ;;
  createdAt <- new_Date_toISOString clk ;;
  _saveTable pol NOTIF_KEY
    (assign "userId" userId
       (assign "donationId" donationId
          {[ "id" := VStr ("n_" +:+ pretty t +:+ "_" +:+ substring 0 3 r);
             "type" := VStr type;
             "message" := VStr message;
             "reason" := match reason with
                         | Some s => if decide (s = "") then VNull else VStr (trim s)
                         | None => VNull
                         end;
             "createdAt" := VStr createdAt;
             "read" := VBool false ]}) :: notifs).

(** All notifications for a given user, most-recent first. *)
Definition getNotificationsForUser (userId : string) : M table :=
  notifs <- _loadTable NOTIF_KEY ;;
  ret (filter (λ n, n !! "userId" = Some (VStr userId)) notifs).

(** Count of unread notifications for a given user. *)
Definition getUnreadCountForUser (userId : string) : M nat :=
  notifs <- _loadTable NOTIF_KEY ;;
  ret (length (filter (λ n, n !! "userId" = Some (VStr userId)
                            ∧ truthy (n !! "read") = false) notifs)).

(** Mark a single notification as read by its ID. *)
Definition markNotificationRead (notifId : string) : M unit :=
  notifs <- _loadTable NOTIF_KEY ;;
  match list_find (has_id notifId) notifs with
  | Some (i, n) => _saveTable pol NOTIF_KEY (<[i := <["read" := VBool true]> n]> notifs)
  | None => ret tt
  end.

(** Mark all of a user's notifications as read. *)
Definition markAllNotificationsRead (userId : string) : M unit :=
  notifs <- _loadTable NOTIF_KEY ;;
  _saveTable pol NOTIF_KEY
    ((λ n, if decide (n !! "userId" = Some (VStr userId))
           then <["read" := VBool true]> n else n) <$> notifs).

End Notifications.

(** The number of unread notifications of a user in a table. *)
Definition unread (userId : string) (notifs : table) : nat :=
  length (filter (λ n, n !! "userId" = Some (VStr userId)
                       ∧ truthy (n !! "read") = false) notifs).

(** The master row and the sub-rows the food and apparel paths write,
    for a call made on world [w]. *)
Definition created_id (clk : Clock) (w : World) : string :=
  genId_at clk "dr" (ticks w).
Definition created_master (clk : Clock) (userId type : string) (w : World) : row :=
  new_master (created_id clk w) userId type
    (toISOString clk (Date_now clk (2 + ticks w))).
Definition created_food_sub (clk : Clock) (rice vegetables : val) (w : World) : row :=
  {[ "id" := VStr (genId_at clk "fd" (3 + ticks w));
     "donation_id" := VStr (created_id clk w);
     "rice_qty" := num (parseInt rice);
     "veg_qty" := num (parseInt vegetables) ]}.
Definition created_apparel_sub (clk : Clock) (ageGroup : val) (w : World) : row :=
  {[ "id" := VStr (genId_at clk "cd" (3 + ticks w));
     "donation_id" := VStr (created_id clk w);
     "target_age" := num (parseInt ageGroup) ]}.

(** ** The auth module *)

Definition AUTH_USERS_KEY : string := "dms_users".
Definition AUTH_SESSION_KEY : string := "dms_session".

(** [ToInt32] and [ToUint32] of an integer. *)
Definition to_int32 (z : Z) : Z := (z + 2 ^ 31) mod 2 ^ 32 - 2 ^ 31.
Definition to_uint32 (z : Z) : Z := z mod 2 ^ 32.

(** [pwd.charCodeAt(i)]: the code unit. *)
Definition charCode (a : ascii) : Z := Z.of_nat (nat_of_ascii a).

(** One turn of the loop of [_hashPassword]:
    [hash = ((hash << 5) + hash) ^ pwd.charCodeAt(i)].  The shift and the
    exclusive or work on 32-bit integers, the sum is a plain number. *)
Definition hash_step (hash : Z) (c : Z) : Z :=
  Z.lxor (to_int32 (to_int32 (Z.shiftl (to_int32 hash) 5) + hash)) c.

Fixpoint hash_loop (hash : Z) (pwd : string) : Z :=
  match pwd with
  | EmptyString => hash
  | String a pwd' => hash_loop (hash_step hash (charCode a)) pwd'
  end.

Definition hex_digit (d : Z) : ascii :=
  if d <? 10 then ascii_of_nat (Z.to_nat (48 + d)) else ascii_of_nat (Z.to_nat (87 + d)).

(** [n.toString(16)] for an unsigned 32-bit [n]: at most 8 digits. *)
Fixpoint hex_go (fuel : nat) (z : Z) (acc : string) : string :=
  match fuel with
  | O => acc
  | S fuel' =>
      let acc' := String (hex_digit (z mod 16)) acc in
      if z / 16 =? 0 then acc' else hex_go fuel' (z / 16) acc'
  end.
Definition toString16 (z : Z) : string := hex_go 8 z "".

(** Simple hash (not crypto). *)
Definition _hashPassword (pwd : string) : string :=
  toString16 (to_uint32 (hash_loop 5381 pwd)).

(** [String.prototype.toLowerCase]: of the code units below 256, the
    letters A to Z and the letters U+00C0 to U+00DE (the multiplication
    sign U+00D7 apart) have a lower case, 32 further on. *)
Definition lower (a : ascii) : ascii :=
  let n := nat_of_ascii a in
  if ((65 <=? n)%nat && (n <=? 90)%nat)
     || ((192 <=? n)%nat && (n <=? 222)%nat && negb (n =? 215)%nat)
  then ascii_of_nat (n + 32) else a.
Fixpoint toLowerCase (s : string) : string :=
  match s with
  | EmptyString => EmptyString
  | String a s' => String (lower a) (toLowerCase s')
  end.

(** [x || d] on a property read. *)
Definition or_else (v : option val) (d : val) : val :=
  match v with
  | Some x => if truthy v then x else d
  | None => d
  end.

Definition set_session (s : option row) (w : World) : World :=
  mkWorld (tables w) s (dms_thanks w) (dispatched w) (ticks w).

(** What [registerUser] and [loginUser] return:
    [{ success: true, user }] or [{ success: false, message }]. *)
Inductive auth_result : Type :=
  | AuthOk (user : row)
  | AuthFail (message : string).

(** The session object [_startSession] stores for a user. *)
Definition session_for (loginAt : string) (user : row) : row :=
  assign "donationsCount" (Some (or_else (user !! "donationsCount") (VNum 0)))
    (assign "totalDonated" (Some (or_else (user !! "totalDonated") (VNum 0)))
       (assign "loginAt" (Some (VStr loginAt))
          (assign "role" (Some (or_else (user !! "role") (VStr "user")))
             (assign "avatar" (user !! "avatar")
                (assign "fullName" (user !! "fullName")
                   (assign "email" (user !! "email")
                      (assign "userId" (user !! "id") ∅))))))).

Section Auth.

Variable clk : Clock.
Variable pol : policy.

Definition _loadUsers : M table := _loadTable AUTH_USERS_KEY.
Definition _saveUsers (users : table) : M unit := _saveTable pol AUTH_USERS_KEY users.

(** The default System Administrator account. *)
Definition admin_seed (joinedAt : string) : row :=
  {[ "id" := VStr "u_admin_seed";
     "fullName" := VStr "System Administrator";
     "email" := VStr "admin@donatehub.com";
     "password" := VStr (_hashPassword "Admin@123");
     "role" := VStr "admin";
     "joinedAt" := VStr joinedAt;
     "avatar" := VNull;
     "totalDonated" := VNum 0;
     "donationsCount" := VNum 0 ]}.

(** Ensures the default administrator account exists; skips silently if
    any admin user is already present. *)
Definition _seedAdminIfNeeded : M unit :=
  users <- _loadUsers ;;
  if some (λ u : row, u !! "role" = Some (VStr "admin")) users then ret tt
  else
    joinedAt <- new_Date_toISOString clk ;;
    _saveUsers (users ++ [admin_seed joinedAt]).

(** [localStorage.setItem(AUTH_SESSION_KEY, JSON.stringify(session))]. *)
Definition _startSession (user : row) : M unit :=
  loginAt <- new_Date_toISOString clk ;;
  λ w, match pol AUTH_SESSION_KEY with
       | Stored => (Returns tt, set_session (Some (session_for loginAt user)) w)
       | Dropped => (Returns tt, w)
       | Refused => (Throws QuotaExceededError, w)
       end.

Definition registerUser (fullName email password : string) : M auth_result :=
  users <- _loadUsers ;;
  let emailLower := toLowerCase (trim email) in
  match list_find (λ u : row, u !! "email" = Some (VStr emailLower)) users with
  | Some _ => ret (AuthFail "An account with this email already exists.")
  | None =>
      t <- now clk ;;
      joinedAt <- new_Date_toISOString clk ;;
      let user : row :=
        {[ "id" := VStr ("u_" +:+ pretty t);
           "fullName" := VStr (trim fullName);
           "email" := VStr emailLower;
           "password" := VStr (_hashPassword password);
           "role" := VStr "user";
           "joinedAt" := VStr joinedAt;
           "avatar" := VNull;
           "totalDonated" := VNum 0;
           "donationsCount" := VNum 0 ]} in
      _saveUsers (users ++ [user]) ;;;
      _startSession user ;;;
      ret (AuthOk user)
  end.

Definition loginUser (email password : string) : M auth_result :=
  users <- _loadUsers ;;
  let emailLow := toLowerCase (trim email) in
  match list_find (λ u : row, u !! "email" = Some (VStr emailLow)) users with
  | None => ret (AuthFail "No account found with this email.")
  | Some (_, user) =>
      if decide (user !! "password" = Some (VStr (_hashPassword password)))
      then _startSession user ;;; ret (AuthOk user)
      else ret (AuthFail "Incorrect password.")
  end.

(** [getSession]: the parsed session, [null] when parsing throws. *)
Definition getSession : M (option row) := read_session.

(** Dev utility: promote a registered account to role ['admin'];
    refused when any admin account exists.  The console output is left
    out. *)
Definition promoteToAdmin (email : string) : M bool :=
  users <- _loadUsers ;;
  if some (λ u : row, u !! "role" = Some (VStr "admin")) users then ret false
  else
    let emailLow := toLowerCase (trim email) in
    match list_find (λ u : row, u !! "email" = Some (VStr emailLow)) users with
    | None => ret false
    | Some (i, user) =>
        _saveUsers (<[i := <["role" := VStr "admin"]> user]> users) ;;;
        ret true
    end.

End Auth.

(** The hash of [_hashPassword] on unbounded integers: no wrap-around. *)
Fixpoint hash_unbounded (hash : Z) (pwd : string) : Z :=
  match pwd with
  | EmptyString => hash
  | String a pwd' => hash_unbounded (Z.lxor (hash * 33) (charCode a)) pwd'
  end.

(** Reading a hexadecimal numeral. *)
Definition hex_value (a : ascii) : Z :=
  let n := Z.of_nat (nat_of_ascii a) in
  if n <? 58 then n - 48 else n - 87.
Fixpoint from_hex (acc : Z) (s : string) : Z :=
  match s with
  | EmptyString => acc
  | String a s' => from_hex (16 * acc + hex_value a) s'
  end.

(** ** Shared utilities: password strength *)

(** [/re/.test(pwd)] for a one-character class. *)
Fixpoint string_exists (p : ascii → bool) (s : string) : bool :=
  match s with
  | EmptyString => false
  | String a s' => p a || string_exists p s'
  end.

Definition in_range (lo hi : nat) (a : ascii) : bool :=
  let n := nat_of_ascii a in ((lo <=? n)%nat && (n <=? hi)%nat).
Definition is_upper (a : ascii) : bool := in_range 65 90 a.
Definition is_lower (a : ascii) : bool := in_range 97 122 a.
Definition is_digit (a : ascii) : bool := in_range 48 57 a.
Definition is_symbol (a : ascii) : bool :=
  negb (is_upper a || is_lower a || is_digit a).

(** One point each for: 8 characters or more, an upper-case letter, a
    digit, a character that is neither letter nor digit. *)
Definition getPasswordStrength (pwd : string) : nat :=
  ((if (8 <=? String.length pwd)%nat then 1 else 0)
   + (if string_exists is_upper pwd then 1 else 0)
   + (if string_exists is_digit pwd then 1 else 0)
   + (if string_exists is_symbol pwd then 1 else 0))%nat.

Definition STRENGTH_LABELS : list string := [""; "Weak"; "Fair"; "Good"; "Strong"].

(** ** The page stores, as far as they call the service *)

(** A value in a string concatenation. *)
Definition show (v : option val) : string :=
  match v with
  | Some x => to_key x
  | None => "undefined"
  end.

(** How [foodForm.submit] ends: with field errors, with the "at least one
    non-zero quantity" toast, or with the record saved. *)
Inductive food_submit : Type :=
  | FoodErrors (riceError vegError : string)
  | FoodNothing
  | FoodSaved (record : row).

(** [isNaN(x)] and [x < 0] on a Number. *)
Definition isNaN (x : number) : bool :=
  match x with
  | NaN => true
  | _ => false
  end.
Definition below_zero (x : number) : bool :=
  match x with
  | Finite z => z <? 0
  | NegInfinity => true
  | NaN | PosInfinity => false
  end.

(** A Number handed on as an argument.  The service only takes
    [parseInt] of the argument, whose first step is [ToString]: a Number
    that is no integer, so [Infinity] here, is handed on as that string. *)
Definition number_val (x : number) : val :=
  match x with
  | Finite z => VNum z
  | _ => VStr (Number_toString x)
  end.

Section Stores.

Variable clk : Clock.
Variable pol : policy.

(** [foodForm.submit]: validation, then (after the cosmetic delay) the
    save with the parsed numbers.  [_dmsSession] is [window._dmsSession] as
    far as [submit] reads it: the [userId] of the session object, [None]
    when the global holds no object, so that reading its [userId] throws a
    [TypeError].  The form fields and the history list are view state and
    are left out. *)
Definition foodForm_submit (_dmsSession : option string) (rice vegetables : val)
  : M food_submit :=
  let r := Number_parseInt rice in
  let v := Number_parseInt vegetables in
  let riceBad := isNaN r || below_zero r in
  let vegBad := isNaN v || below_zero v in
  let riceError :=
    if riceBad then "Please enter a valid non-negative integer for Rice." else "" in
  let vegError :=
    if vegBad then "Please enter a valid non-negative integer for Vegetables." else "" in
  let valid := negb riceBad && negb vegBad in
  if valid && bool_decide (r = Finite 0) && bool_decide (v = Finite 0) then ret FoodNothing
  else if negb valid then ret (FoodErrors riceError vegError)
  else
    match _dmsSession with
    | None => throw TypeError
    | Some userId =>
        record <- saveFoodRecord clk pol userId (number_val r) (number_val v) ;;
        ret (FoodSaved record)
    end.

(** [adminDashboard.approve]: [records] is the store's snapshot of the
    master table (rows enriched by [loadAll]). *)
Definition adminDashboard_approve (records : table) (donationId : string) : M unit :=
  let record := snd <$> list_find (has_id donationId) records in
  approveRecord clk pol donationId ;;;
  match record with
  | Some r =>
      addNotification clk pol (r !! "userId") (r !! "id") "approved"
        ("Your " +:+ show (r !! "type") +:+ " donation has been approved!") None
  | None => ret tt
  end.

(** [adminDashboard.confirmReject]; returns the [rejectError] it sets
    ([None] when it goes through). *)
Definition adminDashboard_confirmReject (records : table)
    (rejectTargetId rejectReason : string) : M (option string) :=
  if decide (trim rejectReason = "")
  then ret (Some "A reason for rejection is required.")
  else
    let record := snd <$> list_find (has_id rejectTargetId) records in
    rejectRecord clk pol rejectTargetId rejectReason ;;;
    match record with
    | Some r =>
        addNotification clk pol (r !! "userId") (r !! "id") "rejected"
          ("Your " +:+ show (r !! "type") +:+ " donation was rejected.")
          (Some rejectReason)
    | None => ret tt
    end ;;;
    ret None.

(** The money form's state, without the camera handles, the spinner and
    the history list. *)
Record MoneyForm : Type := mkMoneyForm {
  state : string;                  (* idle | scanning | detected | confirmed *)
  detectedCode : option string;    (* None is null *)
  qrPayload : string;
  txnRef : option val;
  _pendingRecordId : option val    (* None is null *)
}.

(** [moneyForm._onQRDetected]: the scan loop calls it with a non-empty
    payload. *)
Definition _onQRDetected (userId payload : string) : M MoneyForm :=
  record <- createPendingMoney clk pol userId payload ;;
  ret (mkMoneyForm "detected" (Some payload) payload
         (record !! "transactionId") (record !! "id")).

(** [moneyForm.confirmTransaction] *)
Definition confirmTransaction (f : MoneyForm) : M MoneyForm :=
  if negb (truthy (VStr <$> detectedCode f)) || negb (truthy (_pendingRecordId f))
  then ret f
  else
    match _pendingRecordId f with
    | Some (VStr id) => completeMoney clk pol id ;;; ret tt
    | _ => ret tt
    end ;;;
    ret (mkMoneyForm (state f) None (qrPayload f) (txnRef f) None).

(** [moneyForm.retryScanner] *)
Definition retryScanner (f : MoneyForm) : M MoneyForm :=
  (if truthy (_pendingRecordId f)
   then match _pendingRecordId f with
        | Some (VStr id) => cancelPendingMoney pol id
        | _ => ret tt
        end
   else ret tt) ;;;
  ret (mkMoneyForm "idle" None (qrPayload f) (txnRef f) None).

(** [moneyForm.resetToIdle] *)
Definition resetToIdle (f : MoneyForm) : MoneyForm :=
  mkMoneyForm "idle" None (qrPayload f) (txnRef f) None.

End Stores.

(** A quantity the food form accepts: a Number that is neither [NaN] nor
    below zero. *)
Definition accepted_quantity (x : number) : Prop :=
  isNaN x = false ∧ below_zero x = false.

(** The notification [addNotification] writes on world [w]. *)
Definition created_notification (clk : Clock) (userId donationId : option val)
    (type message : string) (reason : option string) (w : World) : row :=
  assign "userId" userId
    (assign "donationId" donationId
       {[ "id" := VStr ("n_" +:+ pretty (Date_now clk (ticks w)) +:+ "_"
                        +:+ substring 0 3 (Math_random clk (1 + ticks w)));
          "type" := VStr type;
          "message" := VStr message;
          "reason" := match reason with
                      | Some s => if decide (s = "") then VNull else VStr (trim s)
                      | None => VNull
                      end;
          "createdAt" := VStr (toISOString clk (Date_now clk (2 + ticks w)));
          "read" := VBool false ]}).

(** ** More fixtures *)

(** The populated store with an administrator signed in. *)
Definition admin_world : World := seeded (Some admin_session).

(** The master rows of the populated store, newest first; the rows of the
    dashboard's snapshot carry their [id], [userId] and [type]. *)
Definition seeded_records : table := table_of RECORDS_KEY (seeded None).
Definition seeded_master (i : nat) : row := default ∅ (seeded_records !! i).

(** The approved store with one notification for each donor. *)
Definition notified : World :=
  after (addNotification demo_clock reliable (Some (VStr "u_1")) (Some (VStr food_id))
           "approved" "Your food donation has been approved!" None ;;;
         addNotification demo_clock reliable (Some (VStr "u_2")) (Some (VStr apparel_id))
           "approved" "Your apparel donation has been approved!" None)
    stocked.

(** A browser in which the page was loaded and one donor registered. *)
Definition registered : World :=
  after (_seedAdminIfNeeded demo_clock reliable ;;;
         registerUser demo_clock reliable " Ada Lovelace " " Ada@Example.org " "Secret#1")
    (fresh_world None).
Definition registered_user : row :=
  default ∅ (table_of AUTH_USERS_KEY registered !! 1%nat).

(** * Properties of the service *)

(** ** Worlds and tables *)

Lemma table_of_rewrite_eq k f w :
  table_of k (rewrite_table k f w) = f (table_of k w).
Proof.
  unfold rewrite_table, table_of at 1. simpl. by rewrite lookup_insert_eq.
Qed.

Lemma table_of_rewrite_ne k k' f w :
  k' ≠ k → table_of k (rewrite_table k' f w) = table_of k w.
Proof.
  intros Hk. unfold rewrite_table, table_of at 1. simpl.
  by rewrite lookup_insert_ne.
Qed.

Lemma stored_rewrite k k' f w :
  is_Some (tables (rewrite_table k' f w) !! k)
  ↔ k' = k ∨ is_Some (tables w !! k).
Proof.
  unfold rewrite_table. simpl. rewrite lookup_insert_is_Some.
  destruct (decide (k' = k)) as [->|Hne]; tauto.
Qed.

(** Saving a table back unchanged leaves the world as it is. *)
Lemma rewrite_table_fix k f w :
  is_Some (tables w !! k) → f (table_of k w) = table_of k w →
  rewrite_table k f w = w.
Proof.
  intros [rows Hk] Hf. unfold rewrite_table. rewrite Hf.
  unfold table_of. rewrite Hk. simpl.
  rewrite insert_id by done. by destruct w.
Qed.

Lemma filter_all {A} (P : A → Prop) `{∀ x, Decision (P x)} (l : list A) :
  Forall P l → filter P l = l.
Proof.
  induction 1 as [|x l Hx _ IH]; [done|].
  by rewrite filter_cons_True, IH.
Qed.

Lemma Forall_filter_self {A} (P : A → Prop) `{∀ x, Decision (P x)} (l : list A) :
  Forall P (filter P l).
Proof. apply Forall_forall. intros x Hx. by apply list_elem_of_filter in Hx as [? _]. Qed.

Lemma filter_twice {A} (P : A → Prop) `{∀ x, Decision (P x)} (l : list A) :
  filter P (filter P l) = filter P l.
Proof. apply filter_all, Forall_filter_self. Qed.

Lemma keys_distinct :
  RECORDS_KEY ≠ FOOD_KEY ∧ RECORDS_KEY ≠ CLOTHES_KEY ∧ RECORDS_KEY ≠ MONEY_KEY
  ∧ FOOD_KEY ≠ CLOTHES_KEY ∧ FOOD_KEY ≠ MONEY_KEY ∧ CLOTHES_KEY ≠ MONEY_KEY.
Proof. repeat split; discriminate. Qed.

Create HintDb keys.
#[global] Hint Extern 1 (not (@eq string _ _)) => discriminate : keys.

(** Table reads through a stack of rewrites. *)
Ltac table_reads :=
  repeat first
    [ rewrite table_of_rewrite_eq
    | rewrite table_of_rewrite_ne by auto with keys ].

(** ** How the mutations act on reliable storage *)

Lemma deleteRecord_reliable id w :
  deleteRecord reliable id w =
    (Returns tt,
     rewrite_table MONEY_KEY (filter (λ r, ¬ refers_to id r))
       (rewrite_table CLOTHES_KEY (filter (λ r, ¬ refers_to id r))
          (rewrite_table FOOD_KEY (filter (λ r, ¬ refers_to id r))
             (rewrite_table RECORDS_KEY (filter (λ r, ¬ has_id id r)) w)))).
Proof. reflexivity. Qed.

Lemma cancelPendingMoney_reliable id w :
  cancelPendingMoney reliable id w =
    (Returns tt,
     rewrite_table MONEY_KEY (filter (λ r, ¬ refers_to id r))
       (rewrite_table RECORDS_KEY (filter (λ r, ¬ has_id id r)) w)).
Proof. reflexivity. Qed.

Lemma createPendingMoney_reliable clk userId qrPayload w :
  createPendingMoney clk reliable userId qrPayload w =
    (Returns (<["transactionId" := VStr (pending_txn clk w)]>
                (pending_master clk userId w)),
     rewrite_table MONEY_KEY (cons (pending_money clk qrPayload w))
       (rewrite_table RECORDS_KEY (cons (pending_master clk userId w))
          (ticked 6 w))).
Proof. reflexivity. Qed.

Lemma new_master_id id userId type createdAt :
  has_id id (new_master id userId type createdAt).
Proof. reflexivity. Qed.

(** ** Deletion *)

(** C7. After [deleteRecord id] the master table holds no row with that
    id and no sub-table (food, apparel, money) holds a row referencing it;
    the rows left are exactly the other rows; a second [deleteRecord id]
    returns normally and leaves the world as it is. *)
Theorem deleteRecord_cascades_and_is_idempotent (id : string) (w : World) :
  ∃ w1,
    deleteRecord reliable id w = (Returns tt, w1)
    ∧ table_of RECORDS_KEY w1 = filter (λ r, ¬ has_id id r) (table_of RECORDS_KEY w)
    ∧ Forall (λ r, ¬ has_id id r) (table_of RECORDS_KEY w1)
    ∧ (∀ key, key ∈ [FOOD_KEY; CLOTHES_KEY; MONEY_KEY] →
         table_of key w1 = filter (λ r, ¬ refers_to id r) (table_of key w)
         ∧ Forall (λ r, ¬ refers_to id r) (table_of key w1))
    ∧ deleteRecord reliable id w1 = (Returns tt, w1).
Proof.
  eexists. split; [apply deleteRecord_reliable|].
  set (w1 := rewrite_table MONEY_KEY _ _).
  assert (HR : table_of RECORDS_KEY w1
               = filter (λ r, ¬ has_id id r) (table_of RECORDS_KEY w)).
  { subst w1. by table_reads. }
  assert (HS : ∀ key, key ∈ [FOOD_KEY; CLOTHES_KEY; MONEY_KEY] →
               table_of key w1 = filter (λ r, ¬ refers_to id r) (table_of key w)).
  { intros key Hkey. subst w1.
    repeat (apply elem_of_cons in Hkey as [->|Hkey]); [| |by table_reads|];
      [by table_reads|by table_reads|by apply elem_of_nil in Hkey]. }
  split; [done|]. split; [rewrite HR; apply Forall_filter_self|].
  split.
  { intros key Hkey. split; [by apply HS|].
    rewrite (HS key Hkey). apply Forall_filter_self. }
  rewrite deleteRecord_reliable.
  assert (Hst : ∀ key, key ∈ [RECORDS_KEY; FOOD_KEY; CLOTHES_KEY; MONEY_KEY] →
                is_Some (tables w1 !! key)).
  { intros key Hkey. subst w1. rewrite !stored_rewrite.
    repeat (apply elem_of_cons in Hkey as [->|Hkey]); [tauto..|].
    by apply elem_of_nil in Hkey. }
  rewrite (rewrite_table_fix RECORDS_KEY).
  2: { apply Hst; set_solver. }
  2: { rewrite HR. apply filter_twice. }
  rewrite (rewrite_table_fix FOOD_KEY).
  2: { apply Hst; set_solver. }
  2: { rewrite (HS FOOD_KEY) by set_solver. apply filter_twice. }
  rewrite (rewrite_table_fix CLOTHES_KEY).
  2: { apply Hst; set_solver. }
  2: { rewrite (HS CLOTHES_KEY) by set_solver. apply filter_twice. }
  rewrite (rewrite_table_fix MONEY_KEY).
  2: { apply Hst; set_solver. }
  2: { rewrite (HS MONEY_KEY) by set_solver. apply filter_twice. }
  done.
Qed.

Lemma list_find_head {A} (P : A → Prop) `{∀ x, Decision (P x)} (x : A) (l : list A) :
  P x → list_find P (x :: l) = Some (0%nat, x).
Proof. intros HP. simpl. by rewrite decide_True. Qed.

Lemma list_find_absent {A} (P : A → Prop) `{∀ x, Decision (P x)} (l : list A) :
  Forall (λ x, ¬ P x) l → list_find P l = None.
Proof. intros. by apply list_find_None. Qed.

Lemma refers_to_inj id id' (r : row) : refers_to id r → refers_to id' r → id = id'.
Proof. unfold refers_to. congruence. Qed.

(** ** The money flow *)

(** C9. [cancelPendingMoney] filters the master table by id whatever the
    type of the row, and filters only the money sub-table: called with the
    id a food or apparel sub-row references, it leaves no master row with
    that id, leaves the food and apparel tables as they were, and so
    leaves that sub-row without a master record. *)
Theorem cancelPendingMoney_orphans_food_and_apparel
    (id key : string) (sub : row) (w : World) :
  key = FOOD_KEY ∨ key = CLOTHES_KEY →
  sub ∈ table_of key w →
  refers_to id sub →
  ∃ w',
    cancelPendingMoney reliable id w = (Returns tt, w')
    ∧ table_of RECORDS_KEY w' = filter (λ r, ¬ has_id id r) (table_of RECORDS_KEY w)
    ∧ Forall (λ r, ¬ has_id id r) (table_of RECORDS_KEY w')
    ∧ table_of FOOD_KEY w' = table_of FOOD_KEY w
    ∧ table_of CLOTHES_KEY w' = table_of CLOTHES_KEY w
    ∧ sub ∈ table_of key w'
    ∧ ¬ referential_integrity w'.
Proof.
  intros Hkey Hsub Hid.
  eexists. split; [apply cancelPendingMoney_reliable|].
  set (w' := rewrite_table MONEY_KEY _ _).
  assert (HR : table_of RECORDS_KEY w'
               = filter (λ r, ¬ has_id id r) (table_of RECORDS_KEY w)).
  { subst w'. by table_reads. }
  assert (HF : table_of FOOD_KEY w' = table_of FOOD_KEY w).
  { subst w'. by table_reads. }
  assert (HC : table_of CLOTHES_KEY w' = table_of CLOTHES_KEY w).
  { subst w'. by table_reads. }
  assert (Hgone : Forall (λ r, ¬ has_id id r) (table_of RECORDS_KEY w')).
  { rewrite HR. apply Forall_filter_self. }
  assert (Hsub' : sub ∈ table_of key w').
  { destruct Hkey as [-> | ->]; congruence. }
  repeat (split; [done|]).
  intros (Hfood & Hclothes & _).
  assert (Horphan : ∀ type, ¬ references_master type w' sub).
  { intros type (id' & m & Hid' & Hm & Hmid & _).
    rewrite (refers_to_inj _ _ _ Hid' Hid) in Hmid.
    rewrite Forall_forall in Hgone. by apply (Hgone m). }
  destruct Hkey as [-> | ->].
  - rewrite Forall_forall in Hfood. by apply (Horphan "food"), Hfood.
  - rewrite Forall_forall in Hclothes. by apply (Horphan "apparel"), Hclothes.
Qed.

(** C5. On reliable storage, when the id that [createPendingMoney]
    generates is not already in use, [createPendingMoney] followed by
    [cancelPendingMoney] on the returned id leaves every table, the master
    table and the money sub-table among them, with the rows it had. *)
Theorem createPendingMoney_then_cancel_restores
    (clk : Clock) (userId qrPayload : string) (w : World) :
  Forall (λ r, ¬ has_id (pending_id clk w) r) (table_of RECORDS_KEY w) →
  Forall (λ r, ¬ refers_to (pending_id clk w) r) (table_of MONEY_KEY w) →
  ∃ record w1 w2,
    createPendingMoney clk reliable userId qrPayload w = (Returns record, w1)
    ∧ record !! "id" = Some (VStr (pending_id clk w))
    ∧ table_of RECORDS_KEY w1 = pending_master clk userId w :: table_of RECORDS_KEY w
    ∧ table_of MONEY_KEY w1 = pending_money clk qrPayload w :: table_of MONEY_KEY w
    ∧ cancelPendingMoney reliable (pending_id clk w) w1 = (Returns tt, w2)
    ∧ table_of RECORDS_KEY w2 = table_of RECORDS_KEY w
    ∧ table_of MONEY_KEY w2 = table_of MONEY_KEY w
    ∧ ∀ key, table_of key w2 = table_of key w.
Proof.
  intros Hfresh Hfresh'.
  set (w1 := rewrite_table MONEY_KEY (cons (pending_money clk qrPayload w))
               (rewrite_table RECORDS_KEY (cons (pending_master clk userId w))
                  (ticked 6 w))).
  set (w2 := rewrite_table MONEY_KEY (filter (λ r, ¬ refers_to (pending_id clk w) r))
               (rewrite_table RECORDS_KEY
                  (filter (λ r, ¬ has_id (pending_id clk w) r)) w1)).
  exists (<["transactionId" := VStr (pending_txn clk w)]>
            (pending_master clk userId w)), w1, w2.
  split; [apply createPendingMoney_reliable|].
  split; [reflexivity|].
  assert (HR1 : table_of RECORDS_KEY w1
                = pending_master clk userId w :: table_of RECORDS_KEY w).
  { subst w1. by table_reads. }
  assert (HM1 : table_of MONEY_KEY w1
                = pending_money clk qrPayload w :: table_of MONEY_KEY w).
  { subst w1. by table_reads. }
  split; [done|]. split; [done|].
  split; [apply cancelPendingMoney_reliable|].
  assert (HR2 : table_of RECORDS_KEY w2 = table_of RECORDS_KEY w).
  { subst w2. table_reads. rewrite HR1.
    rewrite filter_cons_False by (intros Hn; apply Hn, new_master_id).
    by apply filter_all. }
  assert (HM2 : table_of MONEY_KEY w2 = table_of MONEY_KEY w).
  { subst w2. table_reads. rewrite HM1.
    rewrite filter_cons_False by (intros Hn; by apply Hn).
    by apply filter_all. }
  split; [done|]. split; [done|].
  intros key.
  destruct (decide (key = RECORDS_KEY)) as [->|HkR]; [done|].
  destruct (decide (key = MONEY_KEY)) as [->|HkM]; [done|].
  subst w2 w1. by rewrite !table_of_rewrite_ne by done.
Qed.

(** C6. [completeMoney] on an id that no master row has and no money
    sub-row references returns [null] and leaves the world as it is,
    whatever the storage does on writes (none is made). *)
Theorem completeMoney_unknown_id
    (clk : Clock) (pol : policy) (id : string) (w : World) :
  Forall (λ r, ¬ has_id id r) (table_of RECORDS_KEY w) →
  Forall (λ r, ¬ refers_to id r) (table_of MONEY_KEY w) →
  completeMoney clk pol id w = (Returns None, w).
Proof.
  intros Hmaster Hmoney.
  unfold completeMoney, getRecordById, _load, _loadTable, bind, ret.
  rewrite (list_find_absent _ _ Hmoney), (list_find_absent _ _ Hmaster).
  reflexivity.
Qed.

(** C10. [createPendingMoney] returns an object carrying [transactionId],
    while the master row it persisted, the one [getRecordById] yields for
    the returned id, has no such property: the returned object is the
    persisted row plus that one property, and the transaction id is stored
    in the money sub-row the call wrote. *)
Theorem createPendingMoney_transactionId_in_memory_only
    (clk : Clock) (userId qrPayload : string) (w : World) :
  ∃ returned persisted sub w',
    createPendingMoney clk reliable userId qrPayload w = (Returns returned, w')
    ∧ returned !! "id" = Some (VStr (pending_id clk w))
    ∧ returned !! "transactionId" = Some (VStr (pending_txn clk w))
    ∧ getRecordById (pending_id clk w) w' = (Returns (Some persisted), w')
    ∧ persisted !! "transactionId" = None
    ∧ returned = <["transactionId" := VStr (pending_txn clk w)]> persisted
    ∧ getMoneyByDonationId (pending_id clk w) w' = (Returns (Some sub), w')
    ∧ sub !! "transaction_id" = Some (VStr (pending_txn clk w)).
Proof.
  eexists _, _, _, _.
  split; [apply createPendingMoney_reliable|].
  split; [reflexivity|]. split; [reflexivity|].
  set (w' := rewrite_table MONEY_KEY _ _).
  assert (HR : table_of RECORDS_KEY w'
               = pending_master clk userId w :: table_of RECORDS_KEY w).
  { subst w'. by table_reads. }
  assert (HM : table_of MONEY_KEY w'
               = pending_money clk qrPayload w :: table_of MONEY_KEY w).
  { subst w'. by table_reads. }
  split.
  { unfold getRecordById, _load, _loadTable, bind, ret. rewrite HR.
    rewrite list_find_head by apply new_master_id. reflexivity. }
  split; [reflexivity|]. split; [reflexivity|].
  split.
  { unfold getMoneyByDonationId, _loadTable, bind, ret. rewrite HM.
    rewrite list_find_head by reflexivity. reflexivity. }
  reflexivity.
Qed.

(** ** Running a call step by step *)

Lemma bind_assoc {A B C} (m : M A) (f : A → M B) (g : B → M C) w :
  bind (bind m f) g w = bind m (λ x, bind (f x) g) w.
Proof. unfold bind. by destruct (m w) as [[a|e] w1]. Qed.

Lemma bind_ret {A B} (a : A) (k : A → M B) w : bind (ret a) k w = k a w.
Proof. reflexivity. Qed.

Lemma bind_throw {A B} (e : exn) (k : A → M B) w :
  bind (throw e) k w = (Throws e, w).
Proof. reflexivity. Qed.

Lemma bind_now {B} clk (k : Z → M B) w :
  bind (now clk) k w = k (Date_now clk (ticks w)) (tick w).
Proof. reflexivity. Qed.

Lemma bind_iso {B} clk (k : string → M B) w :
  bind (new_Date_toISOString clk) k w
  = k (toISOString clk (Date_now clk (ticks w))) (tick w).
Proof. reflexivity. Qed.

Lemma bind_genId {B} clk prefix (k : string → M B) w :
  bind (_genId clk prefix) k w = k (genId_at clk prefix (ticks w)) (tick (tick w)).
Proof. reflexivity. Qed.

Lemma bind_loadTable {B} key (k : table → M B) w :
  bind (_loadTable key) k w = k (table_of key w) w.
Proof. reflexivity. Qed.

Lemma bind_read_session {B} (k : option row → M B) w :
  bind read_session k w = k (dms_session w) w.
Proof. reflexivity. Qed.

Lemma bind_dispatch {B} record (k : unit → M B) w :
  bind (_dispatchSuccess record) k w = k tt (push_event record w).
Proof. reflexivity. Qed.

Lemma bind_saveTable {B} pol key rows (k : unit → M B) w :
  bind (_saveTable pol key rows) k w
  = match pol key with
    | Stored => k tt (set_tables (<[key := rows]> (tables w)) w)
    | Dropped => k tt w
    | Refused => (Throws QuotaExceededError, w)
    end.
Proof. unfold bind, _saveTable. by destruct (pol key). Qed.

Lemma bind_saveTable_reliable {B} key rows (k : unit → M B) w :
  bind (_saveTable reliable key rows) k w
  = k tt (set_tables (<[key := rows]> (tables w)) w).
Proof. reflexivity. Qed.

Lemma bind_setThanksFlag {B} clk pol record (k : unit → M B) w :
  bind (_setThanksFlag clk pol record) k w
  = k tt (match pol THANKS_KEY with
          | Stored =>
              set_thanks
                (Some (thanks_flag (toISOString clk (Date_now clk (ticks w))) record))
                (tick w)
          | Dropped | Refused => tick w
          end).
Proof.
  unfold bind, _setThanksFlag, new_Date_toISOString, now, ret.
  by destruct (pol THANKS_KEY).
Qed.

Lemma bind_setThanksFlag_reliable {B} clk record (k : unit → M B) w :
  bind (_setThanksFlag clk reliable record) k w
  = k tt (set_thanks
            (Some (thanks_flag (toISOString clk (Date_now clk (ticks w))) record))
            (tick w)).
Proof. reflexivity. Qed.

Lemma bind_verifyCommit {B} donationId key (k : bool → M B) w :
  bind (_verifyCommit donationId key) k w = k (verified donationId key w) w.
Proof. reflexivity. Qed.

Lemma verifyCommit_reads donationId key w :
  _verifyCommit donationId key w = (Returns (verified donationId key w), w).
Proof. reflexivity. Qed.

Ltac js_step :=
  first
    [ rewrite bind_assoc | rewrite bind_ret | rewrite bind_throw | rewrite bind_now | rewrite bind_iso
    | rewrite bind_genId | rewrite bind_loadTable | rewrite bind_read_session
    | rewrite bind_dispatch | rewrite bind_saveTable_reliable
    | rewrite bind_saveTable | rewrite bind_setThanksFlag_reliable
    | rewrite bind_setThanksFlag
    | rewrite bind_verifyCommit ];
  cbv beta zeta.

Ltac js_run := unfold _load, _save; cbv beta zeta; repeat js_step.

(** ** Target age validation *)

Lemma includes_valid_ages (x : option Z) :
  includes VALID_AGES x = true ↔ x ∈ (Some <$> [10; 19; 20; 30; 45] : list (option Z)).
Proof.
  destruct x as [z|]; simpl.
  - rewrite bool_decide_eq_true. unfold VALID_AGES.
    rewrite !elem_of_cons, !elem_of_nil. split.
    + intros H; repeat destruct H as [->|H]; tauto.
    + intros H; repeat destruct H as [[= ->]|H]; tauto.
  - split; [discriminate|].
    rewrite !elem_of_cons, elem_of_nil. intros H.
    repeat destruct H as [H|H]; try discriminate. done.
Qed.

Lemma includes_valid_ages_false (x : option Z) :
  x ∉ (Some <$> [10; 19; 20; 30; 45] : list (option Z)) →
  includes VALID_AGES x = false.
Proof.
  intros Hx. destruct (includes VALID_AGES x) eqn:E; [|done].
  by apply includes_valid_ages in E.
Qed.

(** ** Reading tables through the other components of a world *)

Lemma table_of_tick k w : table_of k (tick w) = table_of k w.
Proof. reflexivity. Qed.
Lemma table_of_ticked k n w : table_of k (ticked n w) = table_of k w.
Proof. reflexivity. Qed.
Lemma table_of_push_event k r w : table_of k (push_event r w) = table_of k w.
Proof. reflexivity. Qed.
Lemma table_of_set_thanks k t w : table_of k (set_thanks t w) = table_of k w.
Proof. reflexivity. Qed.
Lemma table_of_set_tables k w w' : table_of k (set_tables (tables w) w') = table_of k w.
Proof. reflexivity. Qed.
Lemma table_of_set_eq k rows t w :
  table_of k (set_tables (<[k := rows]> t) w) = rows.
Proof. unfold table_of. cbn [tables set_tables]. by rewrite lookup_insert_eq. Qed.
Lemma table_of_set_ne k k' rows t w :
  k' ≠ k →
  table_of k (set_tables (<[k' := rows]> t) w) = table_of k (set_tables t w).
Proof.
  intros Hk. unfold table_of. cbn [tables set_tables]. by rewrite lookup_insert_ne.
Qed.

Create Rewrite HintDb world.
#[global] Hint Rewrite table_of_tick table_of_ticked table_of_push_event
  table_of_set_thanks table_of_set_tables table_of_set_eq : world.
#[global] Hint Rewrite table_of_set_ne using discriminate : world.

Lemma list_find_insert {A} (P : A → Prop) `{∀ x, Decision (P x)}
    (l : list A) (i : nat) (x y : A) :
  list_find P l = Some (i, x) → P y → list_find P (<[i := y]> l) = Some (i, y).
Proof.
  intros (Hi & _ & Hleast)%list_find_Some Hy.
  apply list_find_Some. split_and!; [|done|].
  - apply list_lookup_insert_eq. by eapply lookup_lt_Some.
  - intros j z Hj Hlt. rewrite list_lookup_insert_ne in Hj by lia. eauto.
Qed.

(** C4. A target age whose integer reading is not one of 10, 19, 20, 30,
    45 makes [saveApparelRecord] and [updateApparelRecord] throw a
    [RangeError] with the world, all tables included, left as it was,
    whatever the storage does; an age in the set is accepted by both: on
    reliable storage the save inserts one master row and one sub-row
    carrying that age, and the update returns the not-found [null] without
    writing or the found sub-row now carrying that age. *)
Theorem target_age_is_validated
    (clk : Clock) (pol : policy) (userId donationId : string)
    (ageGroup : val) (w : World) :
  (parseInt ageGroup ∉ (Some <$> [10; 19; 20; 30; 45] : list (option Z)) →
     (∃ msg, saveApparelRecord clk pol userId ageGroup w
             = (Throws (RangeError msg), w))
     ∧ (∃ msg, updateApparelRecord pol donationId ageGroup w
               = (Throws (RangeError msg), w)))
  ∧ (parseInt ageGroup ∈ (Some <$> [10; 19; 20; 30; 45] : list (option Z)) →
     (∃ record sub id w',
         saveApparelRecord clk reliable userId ageGroup w = (Returns record, w')
         ∧ table_of RECORDS_KEY w' = record :: table_of RECORDS_KEY w
         ∧ table_of CLOTHES_KEY w' = sub :: table_of CLOTHES_KEY w
         ∧ has_id id record ∧ refers_to id sub
         ∧ record !! "type" = Some (VStr "apparel")
         ∧ Some <$> sub !! "target_age" = Some (VNum <$> parseInt ageGroup))
     ∧ (∃ res w',
         updateApparelRecord reliable donationId ageGroup w = (Returns res, w')
         ∧ match res with
           | None =>
               w' = w
               ∧ Forall (λ r, ¬ refers_to donationId r) (table_of CLOTHES_KEY w)
           | Some row =>
               Some <$> row !! "target_age" = Some (VNum <$> parseInt ageGroup)
               ∧ getClothesByDonationId donationId w' = (Returns (Some row), w')
           end)).
Proof.
  split.
  - intros Hout%includes_valid_ages_false.
    unfold saveApparelRecord, updateApparelRecord. rewrite Hout. simpl.
    split; eexists; reflexivity.
  - intros Hin. pose proof Hin as Hinc%includes_valid_ages.
    assert (∃ z, parseInt ageGroup = Some z) as [z Hz].
    { destruct (parseInt ageGroup); [eauto|discriminate]. }
    split.
    + unfold saveApparelRecord. rewrite Hinc. cbn [negb]. js_run.
      set (id := genId_at clk "dr" (ticks w)).
      set (record := new_master id userId "apparel" _).
      set (sub := <["id" := _]> _).
      exists record, sub, id.
      destruct (verified id CLOTHES_KEY _); js_run;
        (eexists; split; [reflexivity|]);
        autorewrite with world;
        (split_and!; [done|done|reflexivity|reflexivity|reflexivity|]);
        subst sub; rewrite Hz; reflexivity.
    + unfold updateApparelRecord. rewrite Hinc. cbn [negb]. js_run.
      destruct (list_find _ _) as [[i row]|] eqn:Hfind.
      * js_run. eexists _, _. split; [reflexivity|]. split.
        { rewrite Hz. simpl. by rewrite lookup_insert_eq. }
        unfold getClothesByDonationId. js_run. autorewrite with world.
        erewrite list_find_insert; [reflexivity|exact Hfind|].
        apply list_find_Some in Hfind as (_ & Hrow & _).
        unfold refers_to in *. by rewrite lookup_insert_ne.
      * js_run. eexists _, _. split; [reflexivity|]. split; [done|].
        by apply list_find_None in Hfind.
Qed.

(** C4, as stated, fails: the strings "20.5" and " 45 and up" are not in
    the enumerated set, yet neither [saveApparelRecord] nor
    [updateApparelRecord] throws for them. *)
Lemma target_age_outside_set_is_accepted :
  ¬ (∀ ageGroup : val,
       ageGroup ∉ (VNum <$> [10; 19; 20; 30; 45]) →
       (∃ msg, saveApparelRecord demo_clock reliable "u_2" ageGroup (seeded None)
               = (Throws (RangeError msg), seeded None))
       ∧ (∃ msg, updateApparelRecord reliable apparel_id ageGroup (seeded None)
                 = (Throws (RangeError msg), seeded None))).
Proof.
  intros H.
  destruct (H (VStr "20.5")) as [[msg Hsave] _].
  { apply (bool_decide_unpack _). vm_compute. exact I. }
  apply (f_equal fst) in Hsave. vm_compute in Hsave. discriminate.
Qed.

(** ** Commit verification *)

Lemma verified_push_event id key r w :
  verified id key (push_event r w) = verified id key w.
Proof. reflexivity. Qed.
Lemma verified_tick id key w : verified id key (tick w) = verified id key w.
Proof. reflexivity. Qed.
Lemma verified_set_thanks id key t w :
  verified id key (set_thanks t w) = verified id key w.
Proof. reflexivity. Qed.

#[global] Hint Rewrite verified_push_event verified_tick verified_set_thanks : world.

(** The tail shared by the save paths once the verification has answered
    [ok]: flag on success, dispatch, return.  It always returns. *)
Lemma flag_then_dispatch
    (clk : Clock) (pol : policy) (ok : bool) (record : row) (w : World) :
  ∃ w',
    bind (if ok then _setThanksFlag clk pol record else ret tt)
      (λ _, _dispatchSuccess record ;;; ret record) w = (Returns record, w')
    ∧ dispatched w' = (dispatched w ++ [record])%list
    ∧ (ok = false → dms_thanks w' = dms_thanks w)
    ∧ ∀ id key, verified id key w' = verified id key w.
Proof.
  destruct ok; js_run; (eexists; split; [reflexivity|]).
  - split; [by destruct (pol THANKS_KEY)|]. split; [done|].
    intros id key. by destruct (pol THANKS_KEY).
  - by split_and!.
Qed.

(** On reliable storage the verification of a save path never fails. *)
Lemma verified_after_inserts id key record sub t w :
  RECORDS_KEY ≠ key →
  has_id id record → refers_to id sub →
  verified id key
    (set_tables (<[key := sub :: table_of key w]>
                   (<[RECORDS_KEY := record :: t]> (tables w))) w) = true.
Proof.
  intros Hkey Hrec Hsub. unfold verified.
  rewrite table_of_set_ne, table_of_set_eq, table_of_set_eq by done.
  rewrite list_find_head by done.
  apply andb_true_intro. unfold some.
  split; apply bool_decide_eq_true_2; [by eexists|by constructor].
Qed.

(** C3 (as the code has it). When no storage write throws,
    [saveFoodRecord] (and likewise [saveApparelRecord], for a valid age)
    returns the created master record and has dispatched the
    donationSuccess event carrying it, whether or not the commit
    verification succeeded; when the verification of the created id fails,
    the "thanks" flag is as it was before the call.  The verification is
    read on the world the call leaves: nothing after the two inserts
    touches a table. *)
Theorem unverified_commit_suppresses_flag_not_event
    (clk : Clock) (pol : policy) (userId : string) (w : World) :
  pol RECORDS_KEY ≠ Refused →
  (∀ rice vegetables,
     pol FOOD_KEY ≠ Refused →
     ∃ record w',
       saveFoodRecord clk pol userId rice vegetables w = (Returns record, w')
       ∧ record = new_master (genId_at clk "dr" (ticks w)) userId "food"
                    (toISOString clk (Date_now clk (2 + ticks w)))
       ∧ dispatched w' = (dispatched w ++ [record])%list
       ∧ (_verifyCommit (genId_at clk "dr" (ticks w)) FOOD_KEY w'
          = (Returns false, w') →
          dms_thanks w' = dms_thanks w))
  ∧ (∀ ageGroup,
     pol CLOTHES_KEY ≠ Refused →
     parseInt ageGroup ∈ (Some <$> [10; 19; 20; 30; 45] : list (option Z)) →
     ∃ record w',
       saveApparelRecord clk pol userId ageGroup w = (Returns record, w')
       ∧ record = new_master (genId_at clk "dr" (ticks w)) userId "apparel"
                    (toISOString clk (Date_now clk (2 + ticks w)))
       ∧ dispatched w' = (dispatched w ++ [record])%list
       ∧ (_verifyCommit (genId_at clk "dr" (ticks w)) CLOTHES_KEY w'
          = (Returns false, w') →
          dms_thanks w' = dms_thanks w)).
Proof.
  intros Hrecords. split.
  - intros rice vegetables Hfood. unfold saveFoodRecord. js_run.
    destruct (pol RECORDS_KEY); [| |done];
      js_run; (destruct (pol FOOD_KEY); [| |done]);
      match goal with
      | |- ∃ record w', bind (if ?ok then _ else _) _ ?W = _ ∧ _ =>
          destruct (flag_then_dispatch clk pol ok
                      (new_master (genId_at clk "dr" (ticks w)) userId "food"
                         (toISOString clk (Date_now clk (2 + ticks w)))) W)
            as (w' & Hrun & Hevents & Hthanks & Hver)
      end;
      (eexists _, w'; split; [exact Hrun|]);
      (split; [reflexivity|]); (split; [exact Hevents|]);
      rewrite verifyCommit_reads, Hver; intros [= Hfail]; exact (Hthanks Hfail).
  - intros ageGroup Hclothes Hage%includes_valid_ages.
    unfold saveApparelRecord. rewrite Hage. cbn [negb]. js_run.
    destruct (pol RECORDS_KEY); [| |done];
      js_run; (destruct (pol CLOTHES_KEY); [| |done]);
      match goal with
      | |- ∃ record w', bind (if ?ok then _ else _) _ ?W = _ ∧ _ =>
          destruct (flag_then_dispatch clk pol ok
                      (new_master (genId_at clk "dr" (ticks w)) userId "apparel"
                         (toISOString clk (Date_now clk (2 + ticks w)))) W)
            as (w' & Hrun & Hevents & Hthanks & Hver)
      end;
      (eexists _, w'; split; [exact Hrun|]);
      (split; [reflexivity|]); (split; [exact Hevents|]);
      rewrite verifyCommit_reads, Hver; intros [= Hfail]; exact (Hthanks Hfail).
Qed.

(** ** A lost write *)

Lemma lossy_food_run :
  saveFoodRecord demo_clock (forgets FOOD_KEY) "u_1" (VNum 5) (VNum 3)
    (fresh_world None) = (Returns lossy_food_record, lossy_food_world)
  ∧ _verifyCommit (genId_at demo_clock "dr" 0) FOOD_KEY lossy_food_world
    = (Returns false, lossy_food_world).
Proof. split_and!; vm_compute; reflexivity. Qed.

(** C3, as stated, fails: with the food write lost, [saveFoodRecord]
    returns, the verification of the created id fails, and one event has
    been dispatched. *)
Lemma saveFoodRecord_dispatches_when_unverified :
  ¬ (∀ record w',
       saveFoodRecord demo_clock (forgets FOOD_KEY) "u_1" (VNum 5) (VNum 3)
         (fresh_world None) = (Returns record, w') →
       _verifyCommit (genId_at demo_clock "dr" 0) FOOD_KEY w' = (Returns false, w') →
       dms_thanks w' = None ∧ dispatched w' = []).
Proof.
  intros H.
  destruct (H _ _ (proj1 lossy_food_run) (proj2 lossy_food_run)) as [_ Hd].
  apply (f_equal length) in Hd. vm_compute in Hd. discriminate.
Qed.

Lemma unverified_commit_witness :
  forgets FOOD_KEY RECORDS_KEY ≠ Refused
  ∧ forgets FOOD_KEY FOOD_KEY ≠ Refused
  ∧ _verifyCommit (genId_at demo_clock "dr" 0) FOOD_KEY lossy_food_world
    = (Returns false, lossy_food_world)
  ∧ dms_thanks lossy_food_world = dms_thanks (fresh_world None)
  ∧ dispatched lossy_food_world
    = (dispatched (fresh_world None) ++ [lossy_food_record])%list.
Proof.
  assert (H1 : forgets FOOD_KEY RECORDS_KEY ≠ Refused) by (vm_compute; discriminate).
  assert (H2 : forgets FOOD_KEY FOOD_KEY ≠ Refused) by (vm_compute; discriminate).
  split; [exact H1|]. split; [exact H2|]. split; [exact (proj2 lossy_food_run)|].
  destruct (proj1 (unverified_commit_suppresses_flag_not_event
                     demo_clock (forgets FOOD_KEY) "u_1" (fresh_world None) H1)
              (VNum 5) (VNum 3) H2)
    as (record & w' & Hrun & _ & Hevents & Hthanks).
  rewrite (proj1 lossy_food_run) in Hrun. injection Hrun as <- <-.
  exact (conj (Hthanks (proj2 lossy_food_run)) Hevents).
Defined.

(** ** Inventory *)

Lemma bind_inventory_step_food {B} (acc : Inventory) (m sub : row) (id : string)
    (rice veg : Z) (rest : table) (k : Inventory → M B) (w : World) :
  m !! "type" = Some (VStr "food") →
  has_id id m →
  table_of FOOD_KEY w = sub :: rest →
  refers_to id sub →
  sub !! "rice_qty" = Some (VNum rice) →
  sub !! "veg_qty" = Some (VNum veg) →
  bind (inventory_step acc m) k w
  = k (mkInventory (rice_kg acc + rice) (veg_kg acc + veg)
         (clothes acc) (money_count acc) (total acc)) w.
Proof.
  intros Htype Hid Htab Href Hrice Hveg. unfold inventory_step.
  rewrite decide_True by done. js_run. rewrite Htab.
  rewrite list_find_head by (unfold has_id, refers_to in *; congruence).
  simpl. by rewrite Hrice, Hveg.
Qed.

Lemma bind_inventory_step_apparel {B} (acc : Inventory) (m sub : row) (id : string)
    (age : Z) (rest : table) (k : Inventory → M B) (w : World) :
  m !! "type" = Some (VStr "apparel") →
  has_id id m →
  table_of CLOTHES_KEY w = sub :: rest →
  refers_to id sub →
  sub !! "target_age" = Some (VNum age) →
  bind (inventory_step acc m) k w
  = k (mkInventory (rice_kg acc) (veg_kg acc)
         (<[to_key (VNum age) := default 0 (clothes acc !! to_key (VNum age)) + 1]>
            (clothes acc))
         (money_count acc) (total acc)) w.
Proof.
  intros Htype Hid Htab Href Hage. unfold inventory_step.
  rewrite decide_False by (rewrite Htype; discriminate).
  rewrite decide_True by done. js_run. rewrite Htab.
  rewrite list_find_head by (unfold has_id, refers_to in *; congruence).
  simpl. by rewrite Hage.
Qed.

(** C8. On a state whose master table holds, in any order, one approved
    food donation, one approved apparel donation and one pending money
    donation, with the food sub-row carrying rice 5 and vegetables 3 and
    the apparel sub-row carrying age 20, [getApprovedInventory] returns
    rice 5, vegetables 3, clothes {20: 1}, money count 0 and total 2, and
    writes nothing. *)
Theorem approvedInventory_fixture
    (w : World) (food apparel money foodSub apparelSub : row)
    (foodId apparelId : string) :
  table_of RECORDS_KEY w ≡ₚ [food; apparel; money] →
  table_of FOOD_KEY w = [foodSub] →
  table_of CLOTHES_KEY w = [apparelSub] →
  food !! "type" = Some (VStr "food") →
  food !! "approved" = Some (VBool true) →
  has_id foodId food →
  refers_to foodId foodSub →
  foodSub !! "rice_qty" = Some (VNum 5) →
  foodSub !! "veg_qty" = Some (VNum 3) →
  apparel !! "type" = Some (VStr "apparel") →
  apparel !! "approved" = Some (VBool true) →
  has_id apparelId apparel →
  refers_to apparelId apparelSub →
  apparelSub !! "target_age" = Some (VNum 20) →
  money !! "type" = Some (VStr "money") →
  money !! "approved" = Some VNull →
  getApprovedInventory w
  = (Returns (mkInventory 5 3 {[ "20" := 1 ]} 0 2), w).
Proof.
  intros Hperm Hfood Hclothes Hft Hfa Hfid Hfref Hrice Hveg
         Hat Haa Haid Haref Hage Hmt Hma.
  unfold getApprovedInventory. js_run.
  assert (Hrec : [food; apparel]
                 ≡ₚ filter (λ r : row, r !! "approved" = Some (VBool true))
                      (table_of RECORDS_KEY w)).
  { rewrite Hperm.
    rewrite filter_cons_True, filter_cons_True, filter_cons_False by congruence.
    done. }
  apply Permutation_length_2_inv in Hrec as [-> | ->]; cbn [forEach].
  - js_run. erewrite bind_inventory_step_food by done.
    js_run. erewrite bind_inventory_step_apparel by done.
    reflexivity.
  - js_run. erewrite bind_inventory_step_apparel by done.
    js_run. erewrite bind_inventory_step_food by done.
    reflexivity.
Qed.

(** ** The approval workflow *)

Lemma approveRecord_guard clk pol id w :
  is_admin (dms_session w) = false →
  approveRecord clk pol id w
  = (Throws (Error "approveRecord: administrator session required."), w).
Proof. intros Hs. unfold approveRecord. js_run. by rewrite Hs. Qed.

Lemma rejectRecord_guard clk pol id reason w :
  is_admin (dms_session w) = false →
  rejectRecord clk pol id reason w
  = (Throws (Error "rejectRecord: administrator session required."), w).
Proof. intros Hs. unfold rejectRecord. js_run. by rewrite Hs. Qed.

Lemma approveRecord_found clk id i r w :
  is_admin (dms_session w) = true →
  list_find (has_id id) (table_of RECORDS_KEY w) = Some (i, r) →
  approveRecord clk reliable id w
  = (let row := approved_row (toISOString clk (Date_now clk (ticks w)))
                  (dms_session w ≫= (.!! "userId")) r in
     (Returns (Some row), with_master_row i row (tick w))).
Proof.
  intros Hs Hfind. unfold approveRecord. js_run. rewrite Hs. cbn [negb].
  js_run. rewrite Hfind. js_run. reflexivity.
Qed.

Lemma rejectRecord_found clk id reason i r w :
  is_admin (dms_session w) = true →
  list_find (has_id id) (table_of RECORDS_KEY w) = Some (i, r) →
  rejectRecord clk reliable id reason w
  = (let row := rejected_row (toISOString clk (Date_now clk (ticks w)))
                  (dms_session w ≫= (.!! "userId")) reason r in
     (Returns (Some row), with_master_row i row (tick w))).
Proof.
  intros Hs Hfind. unfold rejectRecord. js_run. rewrite Hs. cbn [negb].
  js_run. rewrite Hfind. js_run. reflexivity.
Qed.

Lemma assign_lookup_ne k k' v (r : row) : k ≠ k' → assign k v r !! k' = r !! k'.
Proof.
  intros Hk. destruct v; simpl; [by rewrite lookup_insert_ne|by rewrite lookup_delete_ne].
Qed.

Lemma assign_lookup_eq k v (r : row) : assign k v r !! k = v.
Proof.
  destruct v; simpl; [by rewrite lookup_insert_eq|by rewrite lookup_delete_eq].
Qed.

(** Field reads through the updates of the workflow. *)
Ltac row_reads :=
  repeat first
    [ rewrite lookup_delete_eq
    | rewrite lookup_insert_eq
    | rewrite assign_lookup_eq
    | rewrite lookup_delete_ne by discriminate
    | rewrite lookup_insert_ne by discriminate
    | rewrite assign_lookup_ne by discriminate ].

Lemma approved_row_id id ts who r : has_id id r → has_id id (approved_row ts who r).
Proof. unfold has_id, approved_row. intros Hr. by row_reads. Qed.

Lemma rejected_row_id id ts who reason r :
  has_id id r → has_id id (rejected_row ts who reason r).
Proof. unfold has_id, rejected_row. intros Hr. by row_reads. Qed.

Lemma find_with_master_row id i r r' w :
  list_find (has_id id) (table_of RECORDS_KEY w) = Some (i, r) →
  has_id id r' →
  list_find (has_id id) (table_of RECORDS_KEY (with_master_row i r' w)) = Some (i, r').
Proof.
  intros Hfind Hr'. unfold with_master_row. rewrite table_of_set_eq.
  by eapply list_find_insert.
Qed.

Lemma getRecordById_found id i r w :
  list_find (has_id id) (table_of RECORDS_KEY w) = Some (i, r) →
  getRecordById id w = (Returns (Some r), w).
Proof. intros Hfind. unfold getRecordById. js_run. by rewrite Hfind. Qed.

(** Approve, then reject: only the rejection trail is left. *)
Lemma approve_then_reject clk id reason i r admin w :
  is_admin (dms_session w) = true →
  dms_session w ≫= (.!! "userId") = Some admin →
  list_find (has_id id) (table_of RECORDS_KEY w) = Some (i, r) →
  ∃ row w',
    (approveRecord clk reliable id ;;; rejectRecord clk reliable id reason) w
    = (Returns (Some row), w')
    ∧ getRecordById id w' = (Returns (Some row), w')
    ∧ row !! "approved" = Some (VBool false)
    ∧ row !! "donation_status" = Some (VStr "rejected")
    ∧ is_Some (row !! "rejectedAt")
    ∧ row !! "rejectedBy" = Some admin
    ∧ row !! "rejectionReason" = Some (VStr (trim reason))
    ∧ row !! "approvedAt" = None
    ∧ row !! "approvedBy" = None.
Proof.
  intros Hs Hadmin Hfind.
  pose proof Hfind as (_ & Hr & _)%list_find_Some.
  eexists _, _. split.
  { unfold bind at 1. rewrite (approveRecord_found _ _ _ _ _ Hs Hfind). cbv beta iota zeta.
    erewrite rejectRecord_found; [reflexivity|exact Hs|].
    eapply find_with_master_row; [exact Hfind|by apply approved_row_id]. }
  cbv zeta. split.
  { eapply getRecordById_found, find_with_master_row.
    - eapply find_with_master_row; [exact Hfind|].
      by apply approved_row_id.
    - by apply rejected_row_id, approved_row_id. }
  cbn [dms_session with_master_row set_tables tick]. rewrite Hadmin.
  unfold rejected_row, approved_row.
  split_and!; row_reads; eauto.
Qed.

(** Reject, then approve: the approval trail is written and [rejectedAt]
    and [rejectedBy] are removed, but [rejectionReason] stays. *)
Lemma reject_then_approve clk id reason i r admin w :
  is_admin (dms_session w) = true →
  dms_session w ≫= (.!! "userId") = Some admin →
  list_find (has_id id) (table_of RECORDS_KEY w) = Some (i, r) →
  ∃ row w',
    (rejectRecord clk reliable id reason ;;; approveRecord clk reliable id) w
    = (Returns (Some row), w')
    ∧ getRecordById id w' = (Returns (Some row), w')
    ∧ row !! "approved" = Some (VBool true)
    ∧ row !! "donation_status" = Some (VStr "approved")
    ∧ is_Some (row !! "approvedAt")
    ∧ row !! "approvedBy" = Some admin
    ∧ row !! "rejectedAt" = None
    ∧ row !! "rejectedBy" = None
    ∧ row !! "rejectionReason" = Some (VStr (trim reason)).
Proof.
  intros Hs Hadmin Hfind.
  pose proof Hfind as (_ & Hr & _)%list_find_Some.
  eexists _, _. split.
  { unfold bind at 1. rewrite (rejectRecord_found _ _ _ _ _ _ Hs Hfind). cbv beta iota zeta.
    erewrite approveRecord_found; [reflexivity|exact Hs|].
    eapply find_with_master_row; [exact Hfind|].
    by apply rejected_row_id. }
  cbv zeta. split.
  { eapply getRecordById_found, find_with_master_row.
    - eapply find_with_master_row; [exact Hfind|].
      by apply rejected_row_id.
    - by apply approved_row_id, rejected_row_id. }
  cbn [dms_session with_master_row set_tables tick]. rewrite Hadmin.
  unfold rejected_row, approved_row.
  split_and!; row_reads; eauto.
Qed.

(** ** A populated store *)

Example seeded_ids :
  (λ r, r !! "id") <$> table_of RECORDS_KEY (seeded None)
  = [Some (VStr money_id); Some (VStr apparel_id); Some (VStr food_id)]
  ∧ money_id = "dr_1700000000013_k14".
Proof. split_and!; vm_compute; reflexivity. Qed.

Example seeded_world_has_integrity_data :
  sub_field FOOD_KEY food_id "rice_qty" (seeded None) = Some (VNum 5)
  ∧ sub_field CLOTHES_KEY apparel_id "target_age" (seeded None) = Some (VNum 20)
  ∧ sub_field MONEY_KEY money_id "status" (seeded None) = Some (VBool false).
Proof. split_and!; vm_compute; reflexivity. Qed.

(** Closed facts about the fixtures, by evaluation. *)
Ltac by_evaluation := vm_compute; first [reflexivity | exact I | by eexists].
Ltac decide_by_evaluation := apply (bool_decide_unpack _); vm_compute; exact I.

(** ** Authorization *)

(** C1 (what the code does). With no session at all, [approveRecord] and
    [rejectRecord] throw and leave the store alone, but [deleteRecord] and
    the three sub-record updates return normally and have changed the
    tables: the food donation and its sub-row are gone after the delete,
    and each update has rewritten its sub-row. *)
Theorem unguarded_operations_mutate_without_session :
  is_admin (dms_session (seeded None)) = false
  ∧ approveRecord demo_clock reliable food_id (seeded None)
    = (Throws (Error "approveRecord: administrator session required."), seeded None)
  ∧ rejectRecord demo_clock reliable food_id "no" (seeded None)
    = (Throws (Error "rejectRecord: administrator session required."), seeded None)
  ∧ master_field food_id "type" (seeded None) = Some (VStr "food")
  ∧ fst (deleteRecord reliable food_id (seeded None)) = Returns tt
  ∧ master_field food_id "type"
      (after (deleteRecord reliable food_id) (seeded None)) = None
  ∧ sub_field FOOD_KEY food_id "rice_qty"
      (after (deleteRecord reliable food_id) (seeded None)) = None
  ∧ sub_field FOOD_KEY food_id "rice_qty"
      (after (updateFoodRecord reliable food_id (VNum 50) (VNum 30)) (seeded None))
    = Some (VNum 50)
  ∧ sub_field CLOTHES_KEY apparel_id "target_age"
      (after (updateApparelRecord reliable apparel_id (VNum 45)) (seeded None))
    = Some (VNum 45)
  ∧ sub_field MONEY_KEY money_id "transaction_id"
      (after (updateMoneyRecord reliable money_id "TXN-0") (seeded None))
    = Some (VStr "TXN-0").
Proof.
  split; [reflexivity|].
  split; [by apply approveRecord_guard|].
  split; [by apply rejectRecord_guard|].
  split_and!; by_evaluation.
Qed.

(** The same with a donor's session (role ['user']). *)
Example unguarded_operations_mutate_for_donor :
  is_admin (dms_session (seeded (Some donor_session))) = false
  ∧ fst (approveRecord demo_clock reliable food_id (seeded (Some donor_session)))
    = Throws (Error "approveRecord: administrator session required.")
  ∧ fst (deleteRecord reliable food_id (seeded (Some donor_session))) = Returns tt
  ∧ master_field food_id "type"
      (after (deleteRecord reliable food_id) (seeded (Some donor_session))) = None.
Proof. split_and!; by_evaluation. Qed.

(** C2 (what the code does). An administrator rejects the food donation
    and then approves it: the approval trail is written, [rejectedAt] and
    [rejectedBy] are gone, and [rejectionReason] is still on the row. *)
Theorem reject_then_approve_keeps_rejectionReason :
  let w := after (rejectRecord demo_clock reliable food_id "  spoiled on arrival " ;;;
                  approveRecord demo_clock reliable food_id)
             (seeded (Some admin_session)) in
  master_field food_id "approved" w = Some (VBool true)
  ∧ master_field food_id "donation_status" w = Some (VStr "approved")
  ∧ is_Some (master_field food_id "approvedAt" w)
  ∧ master_field food_id "approvedBy" w = Some (VStr "u_admin_seed")
  ∧ master_field food_id "rejectedAt" w = None
  ∧ master_field food_id "rejectedBy" w = None
  ∧ master_field food_id "rejectionReason" w = Some (VStr "spoiled on arrival").
Proof. split_and!; by_evaluation. Qed.

(** The other order leaves the rejection trail only. *)
Example approve_then_reject_clears_approval :
  let w := after (approveRecord demo_clock reliable food_id ;;;
                  rejectRecord demo_clock reliable food_id "  spoiled on arrival ")
             (seeded (Some admin_session)) in
  master_field food_id "approved" w = Some (VBool false)
  ∧ master_field food_id "approvedAt" w = None
  ∧ master_field food_id "approvedBy" w = None
  ∧ is_Some (master_field food_id "rejectedAt" w)
  ∧ master_field food_id "rejectedBy" w = Some (VStr "u_admin_seed")
  ∧ master_field food_id "rejectionReason" w = Some (VStr "spoiled on arrival").
Proof. split_and!; by_evaluation. Qed.

(** ** Instances on the populated store *)

Lemma target_age_is_validated_witness :
  ((parseInt (VNum 11) ∉ (Some <$> [10; 19; 20; 30; 45] : list (option Z)))
   ∧ (∃ msg, saveApparelRecord demo_clock (forgets CLOTHES_KEY) "u_2" (VNum 11)
               (seeded None) = (Throws (RangeError msg), seeded None))
   ∧ (∃ msg, updateApparelRecord (forgets CLOTHES_KEY) apparel_id (VNum 11)
               (seeded None) = (Throws (RangeError msg), seeded None)))
  ∧ ((parseInt (VStr " 45 and up") ∈ (Some <$> [10; 19; 20; 30; 45] : list (option Z)))
     ∧ (∃ res w',
          updateApparelRecord reliable apparel_id (VStr " 45 and up") (seeded None)
          = (Returns res, w')
          ∧ match res with
            | None =>
                w' = seeded None
                ∧ Forall (λ r, ¬ refers_to apparel_id r)
                    (table_of CLOTHES_KEY (seeded None))
            | Some row =>
                Some <$> row !! "target_age"
                = Some (VNum <$> parseInt (VStr " 45 and up"))
                ∧ getClothesByDonationId apparel_id w' = (Returns (Some row), w')
            end)).
Proof.
  split.
  - assert (Hout : parseInt (VNum 11)
                   ∉ (Some <$> [10; 19; 20; 30; 45] : list (option Z)))
      by decide_by_evaluation.
    split; [exact Hout|].
    exact (proj1 (target_age_is_validated demo_clock (forgets CLOTHES_KEY)
                    "u_2" apparel_id (VNum 11) (seeded None)) Hout).
  - assert (Hin : parseInt (VStr " 45 and up")
                  ∈ (Some <$> [10; 19; 20; 30; 45] : list (option Z)))
      by decide_by_evaluation.
    split; [exact Hin|].
    exact (proj2 (proj2 (target_age_is_validated demo_clock reliable
                           "u_2" apparel_id (VStr " 45 and up") (seeded None)) Hin)).
Defined.

Lemma createPendingMoney_then_cancel_witness :
  Forall (λ r, ¬ has_id (pending_id demo_clock (seeded None)) r)
    (table_of RECORDS_KEY (seeded None))
  ∧ Forall (λ r, ¬ refers_to (pending_id demo_clock (seeded None)) r)
      (table_of MONEY_KEY (seeded None))
  ∧ ∃ record w1 w2,
      createPendingMoney demo_clock reliable "u_2" "upi://pay?pa=other" (seeded None)
      = (Returns record, w1)
      ∧ record !! "id" = Some (VStr (pending_id demo_clock (seeded None)))
      ∧ table_of RECORDS_KEY w1
        = pending_master demo_clock "u_2" (seeded None)
          :: table_of RECORDS_KEY (seeded None)
      ∧ table_of MONEY_KEY w1
        = pending_money demo_clock "upi://pay?pa=other" (seeded None)
          :: table_of MONEY_KEY (seeded None)
      ∧ cancelPendingMoney reliable (pending_id demo_clock (seeded None)) w1
        = (Returns tt, w2)
      ∧ table_of RECORDS_KEY w2 = table_of RECORDS_KEY (seeded None)
      ∧ table_of MONEY_KEY w2 = table_of MONEY_KEY (seeded None)
      ∧ ∀ key, table_of key w2 = table_of key (seeded None).
Proof.
  assert (H1 : Forall (λ r, ¬ has_id (pending_id demo_clock (seeded None)) r)
                 (table_of RECORDS_KEY (seeded None)))
    by decide_by_evaluation.
  assert (H2 : Forall (λ r, ¬ refers_to (pending_id demo_clock (seeded None)) r)
                 (table_of MONEY_KEY (seeded None)))
    by decide_by_evaluation.
  split; [exact H1|]. split; [exact H2|].
  exact (createPendingMoney_then_cancel_restores demo_clock "u_2"
           "upi://pay?pa=other" (seeded None) H1 H2).
Defined.

Lemma completeMoney_unknown_id_witness :
  Forall (λ r, ¬ has_id "dr_0_none" r) (table_of RECORDS_KEY (seeded None))
  ∧ Forall (λ r, ¬ refers_to "dr_0_none" r) (table_of MONEY_KEY (seeded None))
  ∧ completeMoney demo_clock reliable "dr_0_none" (seeded None)
    = (Returns None, seeded None).
Proof.
  assert (H1 : Forall (λ r, ¬ has_id "dr_0_none" r)
                 (table_of RECORDS_KEY (seeded None)))
    by decide_by_evaluation.
  assert (H2 : Forall (λ r, ¬ refers_to "dr_0_none" r)
                 (table_of MONEY_KEY (seeded None)))
    by decide_by_evaluation.
  split; [exact H1|]. split; [exact H2|].
  exact (completeMoney_unknown_id demo_clock reliable "dr_0_none" (seeded None) H1 H2).
Defined.

Lemma cancelPendingMoney_orphans_witness :
  (FOOD_KEY = FOOD_KEY ∨ FOOD_KEY = CLOTHES_KEY)
  ∧ seeded_food_sub ∈ table_of FOOD_KEY (seeded None)
  ∧ refers_to food_id seeded_food_sub
  ∧ ∃ w',
      cancelPendingMoney reliable food_id (seeded None) = (Returns tt, w')
      ∧ table_of RECORDS_KEY w'
        = filter (λ r, ¬ has_id food_id r) (table_of RECORDS_KEY (seeded None))
      ∧ Forall (λ r, ¬ has_id food_id r) (table_of RECORDS_KEY w')
      ∧ table_of FOOD_KEY w' = table_of FOOD_KEY (seeded None)
      ∧ table_of CLOTHES_KEY w' = table_of CLOTHES_KEY (seeded None)
      ∧ seeded_food_sub ∈ table_of FOOD_KEY w'
      ∧ ¬ referential_integrity w'.
Proof.
  assert (H1 : seeded_food_sub ∈ table_of FOOD_KEY (seeded None))
    by decide_by_evaluation.
  assert (H2 : refers_to food_id seeded_food_sub) by reflexivity.
  split; [by left|]. split; [exact H1|]. split; [exact H2|].
  exact (cancelPendingMoney_orphans_food_and_apparel food_id FOOD_KEY
           seeded_food_sub (seeded None) (or_introl eq_refl) H1 H2).
Defined.

Lemma stocked_tables :
  table_of RECORDS_KEY stocked
  = [stocked_master 0; stocked_master 1; stocked_master 2]
  ∧ table_of FOOD_KEY stocked = [stocked_food_sub]
  ∧ table_of CLOTHES_KEY stocked = [stocked_apparel_sub].
Proof. split_and!; by_evaluation. Qed.

Lemma approvedInventory_fixture_witness :
  table_of RECORDS_KEY stocked
  ≡ₚ [stocked_master 2; stocked_master 1; stocked_master 0]
  ∧ table_of FOOD_KEY stocked = [stocked_food_sub]
  ∧ table_of CLOTHES_KEY stocked = [stocked_apparel_sub]
  ∧ stocked_master 2 !! "type" = Some (VStr "food")
  ∧ stocked_master 2 !! "approved" = Some (VBool true)
  ∧ has_id food_id (stocked_master 2)
  ∧ refers_to food_id stocked_food_sub
  ∧ stocked_food_sub !! "rice_qty" = Some (VNum 5)
  ∧ stocked_food_sub !! "veg_qty" = Some (VNum 3)
  ∧ stocked_master 1 !! "type" = Some (VStr "apparel")
  ∧ stocked_master 1 !! "approved" = Some (VBool true)
  ∧ has_id apparel_id (stocked_master 1)
  ∧ refers_to apparel_id stocked_apparel_sub
  ∧ stocked_apparel_sub !! "target_age" = Some (VNum 20)
  ∧ stocked_master 0 !! "type" = Some (VStr "money")
  ∧ stocked_master 0 !! "approved" = Some VNull
  ∧ getApprovedInventory stocked
    = (Returns (mkInventory 5 3 {[ "20" := 1 ]} 0 2), stocked).
Proof.
  destruct stocked_tables as (HR & HF & HC).
  assert (Hperm : table_of RECORDS_KEY stocked
                  ≡ₚ [stocked_master 2; stocked_master 1; stocked_master 0]).
  { rewrite HR.
    exact (Permutation_rev [stocked_master 0; stocked_master 1; stocked_master 2]). }
  assert (H1 : stocked_master 2 !! "type" = Some (VStr "food")) by by_evaluation.
  assert (H2 : stocked_master 2 !! "approved" = Some (VBool true)) by by_evaluation.
  assert (H3 : has_id food_id (stocked_master 2)) by by_evaluation.
  assert (H4 : refers_to food_id stocked_food_sub) by by_evaluation.
  assert (H5 : stocked_food_sub !! "rice_qty" = Some (VNum 5)) by by_evaluation.
  assert (H6 : stocked_food_sub !! "veg_qty" = Some (VNum 3)) by by_evaluation.
  assert (H7 : stocked_master 1 !! "type" = Some (VStr "apparel")) by by_evaluation.
  assert (H8 : stocked_master 1 !! "approved" = Some (VBool true)) by by_evaluation.
  assert (H9 : has_id apparel_id (stocked_master 1)) by by_evaluation.
  assert (H10 : refers_to apparel_id stocked_apparel_sub) by by_evaluation.
  assert (H11 : stocked_apparel_sub !! "target_age" = Some (VNum 20)) by by_evaluation.
  assert (H12 : stocked_master 0 !! "type" = Some (VStr "money")) by by_evaluation.
  assert (H13 : stocked_master 0 !! "approved" = Some VNull) by by_evaluation.
  split_and!; [assumption..|].
  exact (approvedInventory_fixture stocked _ _ _ _ _ food_id apparel_id
           Hperm HF HC H1 H2 H3 H4 H5 H6 H7 H8 H9 H10 H11 H12 H13).
Defined.

(** * Further properties *)

Lemma bind_random5 {B} clk (k : string → M B) w :
  bind (random5 clk) k w = k (Math_random clk (ticks w)) (tick w).
Proof. reflexivity. Qed.

Lemma saveTable_reliable_run key rows w :
  _saveTable reliable key rows w
  = (Returns tt, set_tables (<[key := rows]> (tables w)) w).
Proof. reflexivity. Qed.

Ltac js_more :=
  js_run;
  repeat (first [rewrite bind_random5 | rewrite saveTable_reliable_run];
          cbv beta zeta; js_run).

(** ** The save paths on reliable storage *)

Lemma verified_heads id key record sub t t' w :
  table_of RECORDS_KEY w = record :: t →
  table_of key w = sub :: t' →
  has_id id record → refers_to id sub →
  verified id key w = true.
Proof.
  intros HR HS Hrec Hsub. unfold verified. rewrite HR, HS.
  rewrite list_find_head by done.
  apply andb_true_intro. unfold some.
  split; apply bool_decide_eq_true_2; [by eexists|by constructor].
Qed.

Lemma frame_of_two_inserts k1 k2 rows1 rows2 key (w w1 w2 : World) :
  key ≠ k1 → key ≠ k2 →
  tables w2 = <[k2 := rows2]> (<[k1 := rows1]> (tables w)) →
  table_of key w2 = table_of key w.
Proof.
  intros H1 H2 Ht. unfold table_of. rewrite Ht.
  by rewrite !lookup_insert_ne by done.
Qed.

(** The food path on reliable storage. *)
Lemma saveFoodRecord_run clk userId rice vegetables w :
  ∃ w',
    saveFoodRecord clk reliable userId rice vegetables w
    = (Returns (created_master clk userId "food" w), w')
    ∧ tables w' = <[FOOD_KEY := created_food_sub clk rice vegetables w
                                  :: table_of FOOD_KEY w]>
                    (<[RECORDS_KEY := created_master clk userId "food" w
                                      :: table_of RECORDS_KEY w]> (tables w))
    ∧ dms_thanks w'
      = Some (thanks_flag (toISOString clk (Date_now clk (5 + ticks w)))
                (created_master clk userId "food" w))
    ∧ dispatched w' = (dispatched w ++ [created_master clk userId "food" w])%list.
Proof.
  unfold saveFoodRecord. js_run.
  erewrite (verified_heads (created_id clk w) FOOD_KEY
              (created_master clk userId "food" w)
              (created_food_sub clk rice vegetables w));
    [|by autorewrite with world..|apply new_master_id|reflexivity].
  js_run. eexists. split; [reflexivity|].
  split; [|by split].
  cbn [tables set_tables set_thanks push_event tick].
  by autorewrite with world.
Qed.

(** The apparel path on reliable storage, for a valid age. *)
Lemma saveApparelRecord_run clk userId ageGroup w :
  includes VALID_AGES (parseInt ageGroup) = true →
  ∃ w',
    saveApparelRecord clk reliable userId ageGroup w
    = (Returns (created_master clk userId "apparel" w), w')
    ∧ tables w' = <[CLOTHES_KEY := created_apparel_sub clk ageGroup w
                                     :: table_of CLOTHES_KEY w]>
                    (<[RECORDS_KEY := created_master clk userId "apparel" w
                                      :: table_of RECORDS_KEY w]> (tables w))
    ∧ dms_thanks w'
      = Some (thanks_flag (toISOString clk (Date_now clk (5 + ticks w)))
                (created_master clk userId "apparel" w))
    ∧ dispatched w' = (dispatched w ++ [created_master clk userId "apparel" w])%list.
Proof.
  intros Hage. unfold saveApparelRecord. rewrite Hage. cbn [negb]. js_run.
  erewrite (verified_heads (created_id clk w) CLOTHES_KEY
              (created_master clk userId "apparel" w)
              (created_apparel_sub clk ageGroup w));
    [|by autorewrite with world..|apply new_master_id|reflexivity].
  js_run. eexists. split; [reflexivity|].
  split; [|by split].
  cbn [tables set_tables set_thanks push_event tick].
  by autorewrite with world.
Qed.

Lemma table_of_tables key w w' : tables w' = tables w → table_of key w' = table_of key w.
Proof. unfold table_of. by intros ->. Qed.

Lemma table_of_inserted key rows t w : tables w = <[key := rows]> t → table_of key w = rows.
Proof. unfold table_of. intros ->. by rewrite lookup_insert_eq. Qed.

Lemma table_of_inserted_under key k2 rows rows2 t w :
  key ≠ k2 →
  tables w = <[k2 := rows2]> (<[key := rows]> t) → table_of key w = rows.
Proof.
  unfold table_of. intros Hk ->.
  by rewrite lookup_insert_ne, lookup_insert_eq by done.
Qed.

(** The cascade of [deleteRecord], table by table. *)
Lemma deleteRecord_tables id w :
  ∃ w',
    deleteRecord reliable id w = (Returns tt, w')
    ∧ table_of RECORDS_KEY w' = filter (λ r, ¬ has_id id r) (table_of RECORDS_KEY w)
    ∧ (∀ key, key ∈ [FOOD_KEY; CLOTHES_KEY; MONEY_KEY] →
         table_of key w' = filter (λ r, ¬ refers_to id r) (table_of key w))
    ∧ table_of NOTIF_KEY w' = table_of NOTIF_KEY w.
Proof.
  eexists. split; [apply deleteRecord_reliable|].
  split; [by table_reads|]. split; [|by table_reads].
  intros key Hkey.
  repeat (apply elem_of_cons in Hkey as [->|Hkey]); [| |by table_reads|];
    [by table_reads|by table_reads|by apply elem_of_nil in Hkey].
Qed.

(** X1. On reliable storage [saveFoodRecord] puts one pending master row
    on top of the master table and one sub-row on top of the food table,
    linked by the new id, and touches no other table; both rows are what
    [getRecordById] and [getFoodByDonationId] yield for that id; the
    quantities are the parsed arguments; the "thanks" flag is set and the
    event dispatched, carrying the record. *)
Theorem saveFoodRecord_commits
    (clk : Clock) (userId : string) (rice vegetables : val) (w : World) :
  ∃ record sub w',
    saveFoodRecord clk reliable userId rice vegetables w = (Returns record, w')
    ∧ record !! "userId" = Some (VStr userId)
    ∧ record !! "type" = Some (VStr "food")
    ∧ record !! "approved" = Some VNull
    ∧ record !! "donation_status" = Some (VStr "pending")
    ∧ has_id (created_id clk w) record
    ∧ refers_to (created_id clk w) sub
    ∧ sub !! "rice_qty" = Some (num (parseInt rice))
    ∧ sub !! "veg_qty" = Some (num (parseInt vegetables))
    ∧ table_of RECORDS_KEY w' = record :: table_of RECORDS_KEY w
    ∧ table_of FOOD_KEY w' = sub :: table_of FOOD_KEY w
    ∧ (∀ key, key ≠ RECORDS_KEY → key ≠ FOOD_KEY →
         table_of key w' = table_of key w)
    ∧ getRecordById (created_id clk w) w' = (Returns (Some record), w')
    ∧ getFoodByDonationId (created_id clk w) w' = (Returns (Some sub), w')
    ∧ dms_thanks w'
      = Some (thanks_flag (toISOString clk (Date_now clk (5 + ticks w))) record)
    ∧ dispatched w' = (dispatched w ++ [record])%list.
Proof.
  destruct (saveFoodRecord_run clk userId rice vegetables w)
    as (w' & Hrun & Htab & Hthanks & Hev).
  exists (created_master clk userId "food" w),
         (created_food_sub clk rice vegetables w), w'.
  assert (HR : table_of RECORDS_KEY w'
               = created_master clk userId "food" w :: table_of RECORDS_KEY w)
    by (eapply table_of_inserted_under; [|exact Htab]; discriminate).
  assert (HS : table_of FOOD_KEY w'
               = created_food_sub clk rice vegetables w :: table_of FOOD_KEY w)
    by (by eapply table_of_inserted).
  split; [done|]. do 8 (split; [reflexivity|]).
  split; [done|]. split; [done|].
  split.
  { intros key H1 H2. by eapply (frame_of_two_inserts RECORDS_KEY FOOD_KEY). }
  split.
  { unfold getRecordById. js_run. rewrite HR.
    by rewrite list_find_head by apply new_master_id. }
  split.
  { unfold getFoodByDonationId. js_run. rewrite HS.
    by rewrite list_find_head by reflexivity. }
  by split.
Qed.

(** X2. A listing by user holds rows of that user only, and a donation
    entered by one user shows up on top of that user's listing and leaves
    the listing of every other user as it was. *)
Theorem listing_is_scoped_to_its_user
    (clk : Clock) (userId other : string) (rice vegetables : val) (w : World) :
  other ≠ userId →
  ∃ record mine theirs w',
    saveFoodRecord clk reliable userId rice vegetables w = (Returns record, w')
    ∧ getRecordsByUser userId w = (Returns mine, w)
    ∧ getRecordsByUser other w = (Returns theirs, w)
    ∧ getRecordsByUser userId w' = (Returns (record :: mine), w')
    ∧ getRecordsByUser other w' = (Returns theirs, w')
    ∧ Forall (λ r, r !! "userId" = Some (VStr userId)) (record :: mine)
    ∧ Forall (λ r, r !! "userId" = Some (VStr other)) theirs
    ∧ (∀ r, r ∈ table_of RECORDS_KEY w' →
            r !! "userId" = Some (VStr other) → r ∈ theirs).
Proof.
  intros Hother.
  destruct (saveFoodRecord_run clk userId rice vegetables w)
    as (w' & Hrun & Htab & _).
  assert (HR : table_of RECORDS_KEY w'
               = created_master clk userId "food" w :: table_of RECORDS_KEY w)
    by (eapply table_of_inserted_under; [|exact Htab]; discriminate).
  exists (created_master clk userId "food" w),
         (filter (λ r, r !! "userId" = Some (VStr userId)) (table_of RECORDS_KEY w)),
         (filter (λ r, r !! "userId" = Some (VStr other)) (table_of RECORDS_KEY w)), w'.
  assert (Hmine : created_master clk userId "food" w !! "userId" = Some (VStr userId))
    by reflexivity.
  split; [done|]. split; [done|]. split; [done|].
  split.
  { unfold getRecordsByUser. js_run. rewrite HR. by rewrite filter_cons_True. }
  split.
  { unfold getRecordsByUser. js_run. rewrite HR.
    rewrite filter_cons_False; [done|]. rewrite Hmine. congruence. }
  split.
  { constructor; [done|]. apply Forall_filter_self. }
  split; [apply Forall_filter_self|].
  intros r Hr Hu. rewrite HR in Hr. apply elem_of_cons in Hr as [->|Hr].
  - congruence.
  - by apply list_elem_of_filter.
Qed.

(** ** Completing a money donation *)

(** Create, then complete, on reliable storage. *)
Lemma createPendingMoney_completeMoney_run clk userId qrPayload w :
  ∃ w2,
    completeMoney clk reliable (pending_id clk w)
      (after (createPendingMoney clk reliable userId qrPayload) w)
    = (Returns (Some (pending_master clk userId w)), w2)
    ∧ table_of MONEY_KEY w2
      = <["status" := VBool true]> (pending_money clk qrPayload w)
        :: table_of MONEY_KEY w
    ∧ table_of RECORDS_KEY w2 = pending_master clk userId w :: table_of RECORDS_KEY w
    ∧ dms_thanks w2
      = Some (thanks_flag (toISOString clk (Date_now clk (6 + ticks w)))
                (pending_master clk userId w))
    ∧ dispatched w2 = (dispatched w ++ [pending_master clk userId w])%list.
Proof.
  unfold after. rewrite createPendingMoney_reliable. cbn [snd].
  set (w1 := rewrite_table MONEY_KEY _ _).
  assert (HR : table_of RECORDS_KEY w1
               = pending_master clk userId w :: table_of RECORDS_KEY w).
  { subst w1. by table_reads. }
  assert (HM : table_of MONEY_KEY w1
               = pending_money clk qrPayload w :: table_of MONEY_KEY w).
  { subst w1. by table_reads. }
  eexists. split.
  { unfold completeMoney. js_run. rewrite HM.
    rewrite list_find_head by reflexivity. js_run.
    unfold getRecordById. js_run. autorewrite with world. rewrite HR.
    rewrite list_find_head by apply new_master_id. cbn [fmap option_fmap option_map snd].
    js_run.
    erewrite (verified_heads (pending_id clk w) MONEY_KEY);
      [|autorewrite with world; exact HR|by autorewrite with world
       |apply new_master_id|reflexivity].
    js_run. reflexivity. }
  autorewrite with world. by split_and!.
Qed.

(** X3. On reliable storage, [completeMoney] on the id [createPendingMoney]
    returned flips the status of the new money sub-row to [true], leaves
    the master table alone, sets the "thanks" flag, dispatches the event and
    returns the persisted master record (the one without [transactionId]). *)
Theorem pending_money_completes
    (clk : Clock) (userId qrPayload : string) (w : World) :
  ∃ returned w1 w2,
    createPendingMoney clk reliable userId qrPayload w = (Returns returned, w1)
    ∧ completeMoney clk reliable (pending_id clk w) w1
      = (Returns (Some (pending_master clk userId w)), w2)
    ∧ table_of MONEY_KEY w2
      = <["status" := VBool true]> (pending_money clk qrPayload w)
        :: table_of MONEY_KEY w
    ∧ table_of RECORDS_KEY w2 = pending_master clk userId w :: table_of RECORDS_KEY w
    ∧ dms_thanks w2
      = Some (thanks_flag (toISOString clk (Date_now clk (6 + ticks w)))
                (pending_master clk userId w))
    ∧ dispatched w2 = (dispatched w ++ [pending_master clk userId w])%list.
Proof.
  destruct (createPendingMoney_completeMoney_run clk userId qrPayload w)
    as (w2 & Hrun & Hrest).
  eexists _, _, w2. split; [apply createPendingMoney_reliable|].
  split; [|exact Hrest].
  unfold after in Hrun. rewrite createPendingMoney_reliable in Hrun. exact Hrun.
Qed.

(** X4. [completeMoney] on the id of a master row that no money sub-row
    references (a food or apparel donation, say) writes nothing and sets no
    flag, yet dispatches the donationSuccess event for that row and returns
    it, whatever the storage does. *)
Theorem completeMoney_without_sub_row_still_dispatches
    (clk : Clock) (pol : policy) (id : string) (i : nat) (r : row) (w : World) :
  list_find (has_id id) (table_of RECORDS_KEY w) = Some (i, r) →
  Forall (λ s, ¬ refers_to id s) (table_of MONEY_KEY w) →
  completeMoney clk pol id w = (Returns (Some r), push_event r w).
Proof.
  intros Hmaster Hmoney. unfold completeMoney. js_run.
  rewrite (list_find_absent _ _ Hmoney). js_run.
  unfold getRecordById. js_run. rewrite Hmaster.
  cbn [fmap option_fmap option_map snd]. js_run.
  replace (verified id MONEY_KEY w) with false; [by js_run|].
  unfold verified, some. symmetry. apply andb_false_intro2.
  apply bool_decide_eq_false_2. rewrite Exists_exists.
  intros (s & Hs & Href). rewrite Forall_forall in Hmoney. by apply (Hmoney s).
Qed.

(** X5. The legacy [saveMoneyRecord] on reliable storage returns the
    record carrying [transactionId], leaves the new money sub-row confirmed
    ([status = true]) and has dispatched exactly one event, for the
    persisted master record. *)
Theorem saveMoneyRecord_creates_confirmed
    (clk : Clock) (userId qrPayload : string) (w : World) :
  ∃ w',
    saveMoneyRecord clk reliable userId qrPayload w
    = (Returns (<["transactionId" := VStr (pending_txn clk w)]>
                  (pending_master clk userId w)), w')
    ∧ table_of MONEY_KEY w'
      = <["status" := VBool true]> (pending_money clk qrPayload w)
        :: table_of MONEY_KEY w
    ∧ table_of RECORDS_KEY w' = pending_master clk userId w :: table_of RECORDS_KEY w
    ∧ dispatched w' = (dispatched w ++ [pending_master clk userId w])%list.
Proof.
  destruct (createPendingMoney_completeMoney_run clk userId qrPayload w)
    as (w2 & Hcomplete & HM & HR & _ & Hev).
  exists w2. split; [|done].
  unfold after in Hcomplete. rewrite createPendingMoney_reliable in Hcomplete.
  cbn [snd] in Hcomplete.
  unfold saveMoneyRecord. unfold bind at 1. rewrite createPendingMoney_reliable.
  unfold bind at 1.
  replace ((<["transactionId" := VStr (pending_txn clk w)]>
              (pending_master clk userId w)) !! "id")
    with (Some (VStr (pending_id clk w))) by reflexivity.
  unfold bind at 1. rewrite Hcomplete. reflexivity.
Qed.

(** ** Sub-record updates *)

(** X6. [updateFoodRecord] on a donation id without food sub-row returns
    [null] and writes nothing, whatever the storage does; on reliable
    storage, with a sub-row found, it replaces that one row in place, with
    the parsed quantities ([null] being persisted for one that does not
    read as an integer) and its other properties kept, and leaves every
    other table as it was; the row it returns is the persisted one when
    both quantities read as integers. *)
Theorem updateFoodRecord_effect
    (pol : policy) (donationId : string) (rice veg : val) (w : World) :
  match list_find (refers_to donationId) (table_of FOOD_KEY w) with
  | None => updateFoodRecord pol donationId rice veg w = (Returns None, w)
  | Some (i, old) =>
      ∃ returned row w',
        updateFoodRecord reliable donationId rice veg w = (Returns (Some returned), w')
        ∧ getFoodByDonationId donationId w' = (Returns (Some row), w')
        ∧ table_of FOOD_KEY w' = <[i := row]> (table_of FOOD_KEY w)
        ∧ length (table_of FOOD_KEY w') = length (table_of FOOD_KEY w)
        ∧ (∀ key, key ≠ FOOD_KEY → table_of key w' = table_of key w)
        ∧ row !! "rice_qty" = Some (num (parseInt rice))
        ∧ row !! "veg_qty" = Some (num (parseInt veg))
        ∧ (∀ k, k ≠ "rice_qty" → k ≠ "veg_qty" → row !! k = old !! k)
        ∧ (is_Some (parseInt rice) → is_Some (parseInt veg) → returned = row)
  end.
Proof.
  destruct (list_find _ _) as [[i old]|] eqn:Hfind.
  - unfold updateFoodRecord. js_run. rewrite Hfind. js_run.
    set (new := <["veg_qty" := num (parseInt veg)]>
                  (<["rice_qty" := num (parseInt rice)]> old)).
    exists new, new. eexists. split; [reflexivity|].
    autorewrite with world.
    split.
    { unfold getFoodByDonationId. js_run. autorewrite with world.
      erewrite list_find_insert; [reflexivity|exact Hfind|].
      apply list_find_Some in Hfind as (_ & Hold & _).
      unfold refers_to, new in *. by rewrite !lookup_insert_ne. }
    split; [done|]. split; [by rewrite length_insert|].
    split.
    { intros key Hkey. unfold table_of. cbn [tables set_tables].
      by rewrite lookup_insert_ne. }
    unfold new.
    split; [by rewrite lookup_insert_ne, lookup_insert_eq|].
    split; [by rewrite lookup_insert_eq|].
    split; [intros k H1 H2; by rewrite !lookup_insert_ne|].
    done.
  - unfold updateFoodRecord. js_run. by rewrite Hfind.
Qed.

(** ** Approval: what it leaves alone *)

(** X7. With an administrator session, [approveRecord] and [rejectRecord]
    on an id no master row has return [null] and leave the world as it is:
    nothing is written and the clock is not read. *)
Theorem approve_reject_unknown_id
    (clk : Clock) (pol : policy) (id reason : string) (w : World) :
  is_admin (dms_session w) = true →
  Forall (λ r, ¬ has_id id r) (table_of RECORDS_KEY w) →
  approveRecord clk pol id w = (Returns None, w)
  ∧ rejectRecord clk pol id reason w = (Returns None, w).
Proof.
  intros Hs Hnone. unfold approveRecord, rejectRecord. js_run.
  rewrite Hs. cbn [negb]. js_run.
  by rewrite (list_find_absent _ _ Hnone).
Qed.

(** X8. [approveRecord] replaces one master row in place: the table keeps
    its length and its other rows, no other table changes, and the row
    keeps every property but the approval state, the status mirror and the
    audit fields (so its id, owner, type and creation time). *)
Theorem approveRecord_changes_one_row
    (clk : Clock) (id : string) (i : nat) (r : row) (w : World) :
  is_admin (dms_session w) = true →
  list_find (has_id id) (table_of RECORDS_KEY w) = Some (i, r) →
  ∃ row w',
    approveRecord clk reliable id w = (Returns (Some row), w')
    ∧ table_of RECORDS_KEY w' = <[i := row]> (table_of RECORDS_KEY w)
    ∧ (∀ j, j ≠ i → table_of RECORDS_KEY w' !! j = table_of RECORDS_KEY w !! j)
    ∧ length (table_of RECORDS_KEY w') = length (table_of RECORDS_KEY w)
    ∧ (∀ key, key ≠ RECORDS_KEY → table_of key w' = table_of key w)
    ∧ row !! "approved" = Some (VBool true)
    ∧ row !! "donation_status" = Some (VStr "approved")
    ∧ (∀ k, k ∉ ["approved"; "approvedAt"; "approvedBy"; "donation_status";
                 "rejectedAt"; "rejectedBy"] →
            row !! k = r !! k).
Proof.
  intros Hs Hfind. rewrite (approveRecord_found _ _ _ _ _ Hs Hfind). cbv zeta.
  eexists _, _. split; [reflexivity|].
  unfold with_master_row. autorewrite with world.
  split; [done|].
  split; [intros j Hj; by rewrite list_lookup_insert_ne|].
  split; [by rewrite length_insert|].
  split.
  { intros key Hkey. unfold table_of. cbn [tables set_tables tick].
    by rewrite lookup_insert_ne. }
  unfold approved_row.
  split; [by row_reads|]. split; [by row_reads|].
  intros k Hk. rewrite !not_elem_of_cons in Hk.
  destruct Hk as (? & ? & ? & ? & ? & ? & _).
  rewrite !lookup_delete_ne, lookup_insert_ne, assign_lookup_ne,
    !lookup_insert_ne by done. done.
Qed.

(** ** Deletion and the other donations *)

Lemma list_find_filter {A} (P Q : A → Prop)
    `{∀ x, Decision (P x)} `{∀ x, Decision (Q x)} (l : list A) :
  (∀ x, P x → Q x) →
  snd <$> list_find P (filter Q l) = snd <$> list_find P l.
Proof.
  intros HPQ. induction l as [|x l IH]; [done|].
  rewrite filter_cons. destruct (decide (Q x)) as [HQ|HQ]; simpl.
  - destruct (decide (P x)); [done|].
    destruct (list_find P (filter Q l)) as [[? ?]|],
             (list_find P l) as [[? ?]|]; simpl in *; congruence.
  - rewrite decide_False by (intros HP; by apply HQ, HPQ).
    rewrite IH. by destruct (list_find P l) as [[? ?]|].
Qed.

Lemma has_id_inj id id' (r : row) : has_id id r → has_id id' r → id = id'.
Proof. unfold has_id. congruence. Qed.

(** X9. [deleteRecord id] leaves every other donation as it was: for an
    id other than the deleted one, the master row and the food, apparel
    and money sub-rows the lookups yield are the same before and after. *)
Theorem deleteRecord_spares_other_donations (id other : string) (w : World) :
  other ≠ id →
  ∃ w',
    deleteRecord reliable id w = (Returns tt, w')
    ∧ fst (getRecordById other w') = fst (getRecordById other w)
    ∧ fst (getFoodByDonationId other w') = fst (getFoodByDonationId other w)
    ∧ fst (getClothesByDonationId other w') = fst (getClothesByDonationId other w)
    ∧ fst (getMoneyByDonationId other w') = fst (getMoneyByDonationId other w)
    ∧ table_of NOTIF_KEY w' = table_of NOTIF_KEY w.
Proof.
  intros Hother.
  destruct (deleteRecord_tables id w) as (w' & Hrun & HR & HS & HN).
  exists w'. split; [done|].
  assert (Hsub : ∀ key, key ∈ [FOOD_KEY; CLOTHES_KEY; MONEY_KEY] →
            snd <$> list_find (refers_to other) (table_of key w')
            = snd <$> list_find (refers_to other) (table_of key w)).
  { intros key Hkey. rewrite (HS key Hkey).
    apply list_find_filter. intros s Hs Hs'.
    by apply Hother, (refers_to_inj _ _ s). }
  unfold getRecordById, getFoodByDonationId, getClothesByDonationId,
    getMoneyByDonationId. js_run. unfold ret. cbn [fst].
  split.
  { rewrite HR. f_equal.
    apply list_find_filter. intros r Hr Hr'. by apply Hother, (has_id_inj _ _ r). }
  split_and!; [f_equal; apply Hsub; set_solver..|done].
Qed.

(** ** Referential integrity *)

Lemma references_master_mono type w w' sub :
  (∀ m, m ∈ table_of RECORDS_KEY w → m ∈ table_of RECORDS_KEY w') →
  references_master type w sub → references_master type w' sub.
Proof. intros Hsub (id & m & ? & ? & ? & ?). exists id, m. auto. Qed.

Lemma integrity_after_insert (key type : string) record sub id w w' :
  (key, type) ∈ [(FOOD_KEY, "food"); (CLOTHES_KEY, "apparel"); (MONEY_KEY, "money")] →
  table_of RECORDS_KEY w' = record :: table_of RECORDS_KEY w →
  table_of key w' = sub :: table_of key w →
  (∀ k, k ≠ RECORDS_KEY → k ≠ key → table_of k w' = table_of k w) →
  has_id id record → refers_to id sub → record !! "type" = Some (VStr type) →
  referential_integrity w → referential_integrity w'.
Proof.
  intros Hkey HR HS Hframe Hrec Hsub Htype (Hf & Hc & Hm).
  assert (Hmono : ∀ m, m ∈ table_of RECORDS_KEY w → m ∈ table_of RECORDS_KEY w').
  { intros m Hin. rewrite HR. by right. }
  assert (Hnew : references_master type w' sub).
  { exists id, record. rewrite HR. split_and!; [done|by left|done|done]. }
  assert (Hold : ∀ ty k, Forall (references_master ty w) (table_of k w) →
                         Forall (references_master ty w') (table_of k w)).
  { intros ty k Hall. eapply Forall_impl; [exact Hall|].
    intros s. by apply references_master_mono. }
  unfold referential_integrity.
  repeat (apply elem_of_cons in Hkey as [[= -> ->]|Hkey]);
    [| | |by apply elem_of_nil in Hkey].
  - rewrite HS, (Hframe CLOTHES_KEY), (Hframe MONEY_KEY) by discriminate.
    split_and!; [constructor|..]; auto.
  - rewrite HS, (Hframe FOOD_KEY), (Hframe MONEY_KEY) by discriminate.
    split_and!; [|constructor|]; auto.
  - rewrite HS, (Hframe FOOD_KEY), (Hframe CLOTHES_KEY) by discriminate.
    split_and!; [| |constructor]; auto.
Qed.

(** X10. Referential integrity (every sub-row references a master row of
    its type) is kept, on reliable storage, by the three creation paths,
    whatever their arguments, and by [deleteRecord]. *)
Theorem referential_integrity_preserved
    (clk : Clock) (userId qrPayload id : string) (rice vegetables ageGroup : val)
    (w : World) :
  referential_integrity w →
  referential_integrity (after (saveFoodRecord clk reliable userId rice vegetables) w)
  ∧ referential_integrity (after (saveApparelRecord clk reliable userId ageGroup) w)
  ∧ referential_integrity (after (createPendingMoney clk reliable userId qrPayload) w)
  ∧ referential_integrity (after (deleteRecord reliable id) w).
Proof.
  intros Hw. split_and!.
  - destruct (saveFoodRecord_run clk userId rice vegetables w)
      as (w' & Hrun & Htab & _).
    unfold after. rewrite Hrun. cbn [snd].
    eapply (integrity_after_insert FOOD_KEY "food"
              (created_master clk userId "food" w)
              (created_food_sub clk rice vegetables w) (created_id clk w) w);
      try done.
    + set_solver.
    + eapply table_of_inserted_under; [|exact Htab]; discriminate.
    + by eapply table_of_inserted.
    + intros k H1 H2. by eapply (frame_of_two_inserts RECORDS_KEY FOOD_KEY).
  - destruct (includes VALID_AGES (parseInt ageGroup)) eqn:Hage; cycle 1.
    { unfold after, saveApparelRecord. by rewrite Hage. }
    destruct (saveApparelRecord_run clk userId ageGroup w Hage)
      as (w' & Hrun & Htab & _).
    unfold after. rewrite Hrun. cbn [snd].
    eapply (integrity_after_insert CLOTHES_KEY "apparel"
              (created_master clk userId "apparel" w)
              (created_apparel_sub clk ageGroup w) (created_id clk w) w);
      try done.
    + set_solver.
    + eapply table_of_inserted_under; [|exact Htab]; discriminate.
    + by eapply table_of_inserted.
    + intros k H1 H2. by eapply (frame_of_two_inserts RECORDS_KEY CLOTHES_KEY).
  - unfold after. rewrite createPendingMoney_reliable. cbn [snd].
    eapply (integrity_after_insert MONEY_KEY "money"
              (pending_master clk userId w) (pending_money clk qrPayload w)
              (pending_id clk w) (ticked 6 w)); try done.
    + set_solver.
    + by table_reads.
    + by table_reads.
    + intros k H1 H2. by rewrite !table_of_rewrite_ne by done.
  - destruct (deleteRecord_tables id w) as (w' & Hrun & HR & HS & _).
    unfold after. rewrite Hrun. cbn [snd].
    assert (Hkeep : ∀ ty key, key ∈ [FOOD_KEY; CLOTHES_KEY; MONEY_KEY] →
              Forall (references_master ty w) (table_of key w) →
              Forall (references_master ty w') (table_of key w')).
    { intros ty key Hkey Hall. rewrite (HS key Hkey).
      apply Forall_forall. intros s [Hs Hin]%list_elem_of_filter.
      rewrite Forall_forall in Hall.
      destruct (Hall s Hin) as (id0 & m & Href & Hm & Hmid & Hty).
      exists id0, m. split_and!; try done.
      rewrite HR. apply list_elem_of_filter. split; [|done].
      intros Hmid'. apply Hs. by rewrite (has_id_inj _ _ _ Hmid' Hmid). }
    destruct Hw as (Hf & Hc & Hm).
    split_and!; apply Hkeep; (done || set_solver).
Qed.

(** ** Notifications *)

Lemma getUnreadCountForUser_reads userId w :
  getUnreadCountForUser userId w = (Returns (unread userId (table_of NOTIF_KEY w)), w).
Proof. reflexivity. Qed.

(** X11. On reliable storage [addNotification] puts one unread
    notification on top of the mailbox: the unread count of the addressee
    goes up by one, the count of every other user stays, the addressee's
    listing starts with the new notification (reason trimmed, or [null]
    when absent or empty), and no donation table changes. *)
Theorem addNotification_adds_one_unread
    (clk : Clock) (userId donationId type message other : string)
    (reason : option string) (w : World) :
  other ≠ userId →
  ∃ n rest w',
    addNotification clk reliable (Some (VStr userId)) (Some (VStr donationId))
      type message reason w
    = (Returns tt, w')
    ∧ getUnreadCountForUser userId w'
      = (Returns (S (unread userId (table_of NOTIF_KEY w))), w')
    ∧ getUnreadCountForUser other w'
      = (Returns (unread other (table_of NOTIF_KEY w)), w')
    ∧ getNotificationsForUser userId w = (Returns rest, w)
    ∧ getNotificationsForUser userId w' = (Returns (n :: rest), w')
    ∧ n !! "read" = Some (VBool false)
    ∧ n !! "donationId" = Some (VStr donationId)
    ∧ n !! "type" = Some (VStr type)
    ∧ n !! "message" = Some (VStr message)
    ∧ n !! "reason"
      = Some (match reason with
              | Some s => if decide (s = "") then VNull else VStr (trim s)
              | None => VNull
              end)
    ∧ (∀ key, key ≠ NOTIF_KEY → table_of key w' = table_of key w).
Proof.
  intros Hother. unfold addNotification. js_more.
  match goal with
  | |- context [ set_tables (<[NOTIF_KEY := ?x :: _]> _) _ ] => set (n := x)
  end.
  exists n. eexists _, _. split; [reflexivity|].
  assert (Hu : n !! "userId" = Some (VStr userId)) by reflexivity.
  rewrite !getUnreadCountForUser_reads. unfold getNotificationsForUser. js_run.
  autorewrite with world. unfold unread.
  split.
  { rewrite filter_cons_True by (split; [done|reflexivity]). done. }
  split.
  { rewrite filter_cons_False; [done|]. intros [Hn _]. congruence. }
  split; [reflexivity|].
  split; [by rewrite filter_cons_True|].
  do 5 (split; [reflexivity|]).
  intros key Hkey. unfold table_of. cbn [tables set_tables tick].
  by rewrite lookup_insert_ne.
Qed.

Lemma unread_after_mark_all userId (l : table) :
  unread userId
    ((λ n, if decide (n !! "userId" = Some (VStr userId))
           then <["read" := VBool true]> n else n) <$> l) = 0%nat.
Proof.
  unfold unread. induction l as [|n l IH]; [done|].
  rewrite fmap_cons, filter_cons_False; [exact IH|].
  intros [Hu Hread]. case_decide as Hn.
  - by rewrite lookup_insert_eq in Hread.
  - done.
Qed.

Lemma filter_other_after_mark_all userId other (P : row → Prop)
    `{∀ n, Decision (P n)} (l : table) :
  other ≠ userId →
  filter (λ n, n !! "userId" = Some (VStr other) ∧ P n)
    ((λ n, if decide (n !! "userId" = Some (VStr userId))
           then <["read" := VBool true]> n else n) <$> l)
  = filter (λ n, n !! "userId" = Some (VStr other) ∧ P n) l.
Proof.
  intros Hother. induction l as [|n l IH]; [done|].
  rewrite fmap_cons.
  destruct (decide (n !! "userId" = Some (VStr userId))) as [Hn|Hn].
  - rewrite !filter_cons_False; [exact IH| |].
    + intros [Hu _]. congruence.
    + intros [Hu _]. rewrite lookup_insert_ne in Hu by done. congruence.
  - by rewrite !filter_cons, IH.
Qed.

(** X12. On reliable storage [markAllNotificationsRead] leaves the user
    without unread notification, keeps the number of notifications, and
    changes neither the listing nor the unread count of any other user. *)
Theorem markAllNotificationsRead_clears_one_mailbox
    (userId other : string) (w : World) :
  other ≠ userId →
  ∃ w',
    markAllNotificationsRead reliable userId w = (Returns tt, w')
    ∧ getUnreadCountForUser userId w' = (Returns 0%nat, w')
    ∧ length (table_of NOTIF_KEY w') = length (table_of NOTIF_KEY w)
    ∧ fst (getUnreadCountForUser other w') = fst (getUnreadCountForUser other w)
    ∧ fst (getNotificationsForUser other w') = fst (getNotificationsForUser other w)
    ∧ (∀ key, key ≠ NOTIF_KEY → table_of key w' = table_of key w).
Proof.
  intros Hother. unfold markAllNotificationsRead. js_run.
  eexists. split; [reflexivity|].
  rewrite !getUnreadCountForUser_reads. unfold getNotificationsForUser. js_run.
  unfold ret. cbn [fst]. autorewrite with world.
  split; [by rewrite unread_after_mark_all|].
  split; [by rewrite length_fmap|].
  split.
  { unfold unread. by rewrite filter_other_after_mark_all. }
  split.
  { f_equal.
    pose proof (filter_other_after_mark_all userId other (λ _, True)
                  (table_of NOTIF_KEY w) Hother) as Hf.
    erewrite (list_filter_iff _ (λ n, n !! "userId" = Some (VStr other) ∧ True))
      by (intros; tauto).
    rewrite Hf. apply list_filter_iff. intros; tauto. }
  intros key Hkey. unfold table_of. cbn [tables set_tables].
  by rewrite lookup_insert_ne.
Qed.

(** X13. [markNotificationRead] on an id no notification has writes
    nothing, whatever the storage does; on reliable storage, with the id
    found, the first notification with that id is read afterwards, the
    mailbox keeps its length and its other notifications, and a second
    call changes nothing more. *)
Theorem markNotificationRead_effect (pol : policy) (notifId : string) (w : World) :
  match list_find (has_id notifId) (table_of NOTIF_KEY w) with
  | None => markNotificationRead pol notifId w = (Returns tt, w)
  | Some (i, n) =>
      ∃ w',
        markNotificationRead reliable notifId w = (Returns tt, w')
        ∧ list_find (has_id notifId) (table_of NOTIF_KEY w')
          = Some (i, <["read" := VBool true]> n)
        ∧ length (table_of NOTIF_KEY w') = length (table_of NOTIF_KEY w)
        ∧ (∀ j, j ≠ i → table_of NOTIF_KEY w' !! j = table_of NOTIF_KEY w !! j)
        ∧ markNotificationRead reliable notifId w' = (Returns tt, w')
  end.
Proof.
  destruct (list_find _ _) as [[i n]|] eqn:Hfind.
  - pose proof Hfind as (Hi & Hn & _)%list_find_Some.
    assert (Hfind' : list_find (has_id notifId)
                       (<[i := <["read" := VBool true]> n]> (table_of NOTIF_KEY w))
                     = Some (i, <["read" := VBool true]> n)).
    { eapply list_find_insert; [exact Hfind|].
      unfold has_id in *. by rewrite lookup_insert_ne. }
    unfold markNotificationRead. js_run. rewrite Hfind.
    eexists. split; [reflexivity|].
    autorewrite with world. split; [done|]. split; [by rewrite length_insert|].
    split; [intros j Hj; by rewrite list_lookup_insert_ne|].
    js_run. autorewrite with world. rewrite Hfind'.
    rewrite saveTable_reliable_run. f_equal.
    unfold set_tables. cbn [tables dms_session dms_thanks dispatched ticks].
    rewrite insert_insert_eq, list_insert_insert_eq, insert_insert_eq. done.
  - unfold markNotificationRead. js_run. by rewrite Hfind.
Qed.

Example hash_known :
  _hashPassword "Admin@123" = "de02fbba" ∧ _hashPassword "" = "1505"
  ∧ _hashPassword "a" = "2b5c4" ∧ _hashPassword "password123456789" = "ba6e5d6b".
Proof. split_and!; vm_compute; reflexivity. Qed.

(** ** The password hash *)

Lemma to_int32_mod z : to_int32 z mod 2 ^ 32 = z mod 2 ^ 32.
Proof.
  unfold to_int32. rewrite Zminus_mod_idemp_l. f_equal. lia.
Qed.

Lemma lxor_mod_small a c :
  0 ≤ c < 2 ^ 32 → Z.lxor a c mod 2 ^ 32 = Z.lxor (a mod 2 ^ 32) c.
Proof.
  intros Hc. apply Z.bits_inj'. intros n Hn.
  destruct (decide (n < 32)) as [Hlt|Hge].
  - rewrite Z.mod_pow2_bits_low, !Z.lxor_spec, Z.mod_pow2_bits_low by lia. done.
  - rewrite Z.mod_pow2_bits_high, Z.lxor_spec, Z.mod_pow2_bits_high by lia.
    replace (Z.testbit c n) with false; [done|].
    symmetry. destruct (decide (c = 0)) as [->|Hc0]; [apply Z.bits_0|].
    apply Z.bits_above_log2; [lia|].
    assert (Z.log2 c < 32) by (apply Z.log2_lt_pow2; lia). lia.
Qed.

Lemma charCode_range a : 0 ≤ charCode a < 2 ^ 32.
Proof.
  unfold charCode. pose proof (nat_ascii_bounded a). lia.
Qed.

Lemma hash_step_mod hash hash' c :
  0 ≤ c < 2 ^ 32 →
  hash mod 2 ^ 32 = hash' mod 2 ^ 32 →
  hash_step hash c mod 2 ^ 32 = Z.lxor (hash' * 33) c mod 2 ^ 32.
Proof.
  intros Hc Hh. unfold hash_step.
  rewrite !lxor_mod_small by done. f_equal.
  rewrite to_int32_mod.
  rewrite <- Zplus_mod_idemp_l, to_int32_mod, Z.shiftl_mul_pow2 by lia.
  rewrite <- Zmult_mod_idemp_l, to_int32_mod, Zmult_mod_idemp_l.
  rewrite Zplus_mod_idemp_l.
  replace (hash * 2 ^ 5 + hash) with (hash * 33) by lia.
  rewrite <- Zmult_mod_idemp_l, Hh, Zmult_mod_idemp_l. done.
Qed.

Lemma hash_loop_mod pwd : ∀ hash hash',
  hash mod 2 ^ 32 = hash' mod 2 ^ 32 →
  hash_loop hash pwd mod 2 ^ 32 = hash_unbounded hash' pwd mod 2 ^ 32.
Proof.
  induction pwd as [|a pwd IH]; intros hash hash' Hh; [done|].
  simpl. apply IH. apply hash_step_mod; [apply charCode_range|done].
Qed.

Lemma hex_value_digit d : 0 ≤ d < 16 → hex_value (hex_digit d) = d.
Proof.
  intros Hd.
  assert (d ∈ [0; 1; 2; 3; 4; 5; 6; 7; 8; 9; 10; 11; 12; 13; 14; 15]) as Hin.
  { rewrite !elem_of_cons. lia. }
  repeat (apply elem_of_cons in Hin as [->|Hin]); try reflexivity.
  by apply elem_of_nil in Hin.
Qed.

Lemma from_hex_go fuel : ∀ z acc,
  0 ≤ z < 16 ^ Z.of_nat fuel → (1 ≤ fuel)%nat →
  from_hex 0 (hex_go fuel z acc) = from_hex z acc.
Proof.
  induction fuel as [|fuel IH]; intros z acc Hz Hf; [lia|].
  cbn [hex_go].
  assert (Hd : 0 ≤ z mod 16 < 16) by (apply Z.mod_pos_bound; lia).
  destruct (z / 16 =? 0) eqn:Hq.
  - apply Z.eqb_eq in Hq. cbn [from_hex]. rewrite hex_value_digit by done.
    f_equal. pose proof (Z.div_mod z 16). lia.
  - apply Z.eqb_neq in Hq.
    assert (Hz' : 0 ≤ z / 16 < 16 ^ Z.of_nat fuel).
    { split; [apply Z.div_pos; lia|].
      apply Z.div_lt_upper_bound; [lia|].
      replace (16 * 16 ^ Z.of_nat fuel) with (16 ^ Z.of_nat (S fuel)); [lia|].
      rewrite Nat2Z.inj_succ, Z.pow_succ_r by lia. done. }
    destruct fuel as [|fuel'].
    { change (16 ^ Z.of_nat 0) with 1 in Hz'. lia. }
    rewrite IH by (done || lia). cbn [from_hex].
    rewrite hex_value_digit by done. f_equal.
    pose proof (Z.div_mod z 16). lia.
Qed.

Lemma hex_go_length fuel : ∀ z acc,
  (String.length (hex_go fuel z acc) ≤ fuel + String.length acc)%nat.
Proof.
  induction fuel as [|fuel IH]; intros z acc; [done|].
  cbn [hex_go]. destruct (z / 16 =? 0).
  - simpl. lia.
  - etransitivity; [apply IH|]. simpl. lia.
Qed.

(** X14. The password hash with its 32-bit wrap-around at every step
    equals the hash computed on unbounded integers and reduced modulo 2^32
    at the end; [_hashPassword] prints it as at most 8 hexadecimal digits
    that read back as that number, so two passwords get the same hash
    string exactly when their unbounded hashes agree modulo 2^32. *)
Theorem hashPassword_wraps_correctly (pwd other : string) :
  to_uint32 (hash_loop 5381 pwd) = hash_unbounded 5381 pwd mod 2 ^ 32
  ∧ from_hex 0 (_hashPassword pwd) = hash_unbounded 5381 pwd mod 2 ^ 32
  ∧ (String.length (_hashPassword pwd) ≤ 8)%nat
  ∧ (_hashPassword pwd = _hashPassword other
     ↔ hash_unbounded 5381 pwd mod 2 ^ 32 = hash_unbounded 5381 other mod 2 ^ 32).
Proof.
  assert (Hnum : ∀ p, to_uint32 (hash_loop 5381 p) = hash_unbounded 5381 p mod 2 ^ 32).
  { intros p. unfold to_uint32. by apply hash_loop_mod. }
  assert (Hhex : ∀ p, from_hex 0 (_hashPassword p) = hash_unbounded 5381 p mod 2 ^ 32).
  { intros p. unfold _hashPassword, toString16.
    rewrite from_hex_go; [apply Hnum| |lia].
    unfold to_uint32. change (16 ^ Z.of_nat 8) with (2 ^ 32).
    apply Z.mod_pos_bound. lia. }
  split; [apply Hnum|]. split; [apply Hhex|].
  split.
  { unfold _hashPassword, toString16.
    etransitivity; [apply hex_go_length|]. simpl. lia. }
  split.
  - intros Heq. by rewrite <- !Hhex, Heq.
  - intros Heq. unfold _hashPassword. by rewrite !Hnum, Heq.
Qed.

(** ** Accounts and sessions *)

Lemma bind_startSession_reliable {B} clk user (k : unit → M B) w :
  bind (_startSession clk reliable user) k w
  = k tt (set_session
            (Some (session_for (toISOString clk (Date_now clk (ticks w))) user))
            (tick w)).
Proof. reflexivity. Qed.

Lemma table_of_set_session k s w : table_of k (set_session s w) = table_of k w.
Proof. reflexivity. Qed.

#[global] Hint Rewrite table_of_set_session : world.

Ltac js_auth :=
  unfold _loadUsers, _saveUsers; js_more;
  repeat (first [rewrite bind_startSession_reliable]; cbv beta zeta; js_more).

Lemma session_for_userId loginAt (user : row) :
  session_for loginAt user !! "userId" = user !! "id".
Proof. unfold session_for. by rewrite !assign_lookup_ne, assign_lookup_eq by done. Qed.

Lemma session_for_role loginAt (user : row) :
  session_for loginAt user !! "role"
  = Some (or_else (user !! "role") (VStr "user")).
Proof. unfold session_for. by rewrite !assign_lookup_ne, assign_lookup_eq by done. Qed.

Lemma list_find_snoc {A} (P : A → Prop) `{∀ x, Decision (P x)} (l : list A) (x : A) :
  Forall (λ y, ¬ P y) l → P x → list_find P (l ++ [x])%list = Some (length l, x).
Proof.
  intros Hl Hx. apply list_find_Some. split_and!.
  - by rewrite lookup_app_r, Nat.sub_diag by lia.
  - done.
  - intros j y Hj Hlt. rewrite lookup_app_l in Hj by done.
    rewrite Forall_forall in Hl. apply Hl. by eapply list_elem_of_lookup_2.
Qed.

(** The account [registerUser] creates on world [w]. *)
Lemma registerUser_run clk fullName email password w :
  Forall (λ u : row, ¬ u !! "email" = Some (VStr (toLowerCase (trim email))))
    (table_of AUTH_USERS_KEY w) →
  ∃ user w1,
    registerUser clk reliable fullName email password w = (Returns (AuthOk user), w1)
    ∧ table_of AUTH_USERS_KEY w1 = (table_of AUTH_USERS_KEY w ++ [user])%list
    ∧ (∀ key, key ≠ AUTH_USERS_KEY → table_of key w1 = table_of key w)
    ∧ user !! "role" = Some (VStr "user")
    ∧ user !! "email" = Some (VStr (toLowerCase (trim email)))
    ∧ user !! "password" = Some (VStr (_hashPassword password))
    ∧ user !! "fullName" = Some (VStr (trim fullName))
    ∧ dms_session w1
      = Some (session_for (toISOString clk (Date_now clk (2 + ticks w))) user).
Proof.
  intros Hfree. unfold registerUser. js_auth.
  rewrite (list_find_absent _ _ Hfree). js_auth.
  eexists _, _. split; [reflexivity|].
  autorewrite with world. split; [done|].
  split.
  { intros key Hkey. unfold table_of. cbn [tables set_tables set_session tick].
    by rewrite lookup_insert_ne. }
  by split_and!.
Qed.

(** X15. Register, then log in: when no account has the normalised email,
    [registerUser] on reliable storage appends a donor account (role
    ['user'], trimmed name, lower-cased trimmed email, hashed password)
    and starts its session; [loginUser] with the same password and any
    spelling of the email that normalises alike then succeeds for that
    account and starts its session again, leaving the accounts as they
    were. *)
Theorem register_then_login
    (clk : Clock) (fullName email email' password : string) (w : World) :
  Forall (λ u : row, ¬ u !! "email" = Some (VStr (toLowerCase (trim email))))
    (table_of AUTH_USERS_KEY w) →
  toLowerCase (trim email') = toLowerCase (trim email) →
  ∃ user w1 w2,
    registerUser clk reliable fullName email password w = (Returns (AuthOk user), w1)
    ∧ table_of AUTH_USERS_KEY w1 = (table_of AUTH_USERS_KEY w ++ [user])%list
    ∧ user !! "role" = Some (VStr "user")
    ∧ user !! "email" = Some (VStr (toLowerCase (trim email)))
    ∧ user !! "fullName" = Some (VStr (trim fullName))
    ∧ dms_session w1 ≫= (.!! "userId") = user !! "id"
    ∧ loginUser clk reliable email' password w1 = (Returns (AuthOk user), w2)
    ∧ dms_session w2 ≫= (.!! "userId") = user !! "id"
    ∧ table_of AUTH_USERS_KEY w2 = table_of AUTH_USERS_KEY w1.
Proof.
  intros Hfree Hsame.
  destruct (registerUser_run clk fullName email password w Hfree)
    as (user & w1 & Hrun & Husers & _ & Hrole & Hemail & Hpwd & Hname & Hsession).
  exists user, w1. eexists.
  split; [done|]. split; [done|]. split; [done|]. split; [done|]. split; [done|].
  split; [rewrite Hsession; apply session_for_userId|].
  split.
  { unfold loginUser. js_auth. rewrite Husers, Hsame.
    rewrite list_find_snoc by done.
    rewrite decide_True by done. js_auth. reflexivity. }
  split; [apply session_for_userId|done].
Qed.

(** X16. [registerUser] with an email that an account already has, up to
    surrounding white space and letter case, fails with its message and
    leaves accounts, session and everything else as they were, whatever the
    storage does. *)
Theorem registerUser_rejects_taken_email
    (clk : Clock) (pol : policy) (fullName email password : string)
    (u : row) (w : World) :
  u ∈ table_of AUTH_USERS_KEY w →
  u !! "email" = Some (VStr (toLowerCase (trim email))) →
  registerUser clk pol fullName email password w
  = (Returns (AuthFail "An account with this email already exists."), w).
Proof.
  intros Hu Hemail. unfold registerUser. js_auth.
  destruct (list_find_elem_of
              (λ u : row, u !! "email" = Some (VStr (toLowerCase (trim email))))
              _ u Hu Hemail) as [[i x] ->].
  reflexivity.
Qed.

(** X17. [loginUser] never starts a session it should not: a failure
    leaves the world as it was; a success is for an account of the table
    that has the normalised email and whose stored hash is the hash of the
    given password, and the session is that account's when the session
    write is stored and the old one when it is lost; and when the session
    write throws, accounts and session are as before. *)
Theorem loginUser_sound
    (clk : Clock) (pol : policy) (email password : string) (w : World) :
  match loginUser clk pol email password w with
  | (Returns (AuthFail _), w') => w' = w
  | (Returns (AuthOk user), w') =>
      user ∈ table_of AUTH_USERS_KEY w
      ∧ user !! "email" = Some (VStr (toLowerCase (trim email)))
      ∧ user !! "password" = Some (VStr (_hashPassword password))
      ∧ tables w' = tables w
      ∧ match pol AUTH_SESSION_KEY with
        | Stored => dms_session w' ≫= (.!! "userId") = user !! "id"
        | _ => dms_session w' = dms_session w
        end
  | (Throws _, w') => tables w' = tables w ∧ dms_session w' = dms_session w
  end.
Proof.
  unfold loginUser. js_auth.
  destruct (list_find _ _) as [[i user]|] eqn:Hfind; [|done].
  apply list_find_Some in Hfind as (Hi & Hemail & _).
  case_decide as Hpwd; [|done].
  unfold bind, _startSession, new_Date_toISOString, now, ret.
  destruct (pol AUTH_SESSION_KEY); [| |done].
  - split; [by eapply list_elem_of_lookup_2|].
    do 3 (split; [done|]). apply session_for_userId.
  - split; [by eapply list_elem_of_lookup_2|]. by do 3 (split; [done|]).
Qed.

(** X18. A self-registered account is a donor: after a successful
    [registerUser] the active session does not pass the administrator
    guard, so [approveRecord] and [rejectRecord] throw and change
    nothing. *)
Theorem registered_session_is_not_admin
    (clk : Clock) (fullName email password id reason : string) (w : World) :
  Forall (λ u : row, ¬ u !! "email" = Some (VStr (toLowerCase (trim email))))
    (table_of AUTH_USERS_KEY w) →
  ∃ user w1,
    registerUser clk reliable fullName email password w = (Returns (AuthOk user), w1)
    ∧ is_admin (dms_session w1) = false
    ∧ approveRecord clk reliable id w1
      = (Throws (Error "approveRecord: administrator session required."), w1)
    ∧ rejectRecord clk reliable id reason w1
      = (Throws (Error "rejectRecord: administrator session required."), w1).
Proof.
  intros Hfree.
  destruct (registerUser_run clk fullName email password w Hfree)
    as (user & w1 & Hrun & _ & _ & Hrole & _ & _ & _ & Hsession).
  exists user, w1. split; [done|].
  assert (Hs : is_admin (dms_session w1) = false).
  { rewrite Hsession. unfold is_admin. rewrite session_for_role, Hrole.
    by apply bool_decide_eq_false_2. }
  split; [done|].
  split; [by apply approveRecord_guard|by apply rejectRecord_guard].
Qed.

(** ** The single administrator *)

Lemma some_admin_true (users : table) :
  Exists (λ u : row, u !! "role" = Some (VStr "admin")) users →
  some (λ u : row, u !! "role" = Some (VStr "admin")) users = true.
Proof. intros H. unfold some. by apply bool_decide_eq_true_2. Qed.

Lemma some_admin_false (users : table) :
  Forall (λ u : row, ¬ u !! "role" = Some (VStr "admin")) users →
  some (λ u : row, u !! "role" = Some (VStr "admin")) users = false.
Proof.
  intros H. unfold some. apply bool_decide_eq_false_2.
  rewrite Exists_exists. intros (u & Hu & Hr).
  rewrite Forall_forall in H. by apply (H u).
Qed.

(** X19. After [_seedAdminIfNeeded], which runs on every load, an
    administrator account exists; from then on a second seeding changes
    nothing and the [promoteToAdmin] utility refuses every email and
    changes nothing, whatever the storage does. *)
Theorem promoteToAdmin_refused_once_seeded
    (clk : Clock) (pol : policy) (email : string) (w : World) :
  ∃ w1,
    _seedAdminIfNeeded clk reliable w = (Returns tt, w1)
    ∧ Exists (λ u : row, u !! "role" = Some (VStr "admin")) (table_of AUTH_USERS_KEY w1)
    ∧ _seedAdminIfNeeded clk pol w1 = (Returns tt, w1)
    ∧ promoteToAdmin pol email w1 = (Returns false, w1)
    ∧ (∀ key, key ≠ AUTH_USERS_KEY → table_of key w1 = table_of key w).
Proof.
  assert (Hafter : ∀ w1,
            Exists (λ u : row, u !! "role" = Some (VStr "admin"))
              (table_of AUTH_USERS_KEY w1) →
            _seedAdminIfNeeded clk pol w1 = (Returns tt, w1)
            ∧ promoteToAdmin pol email w1 = (Returns false, w1)).
  { intros w1 Hadmin. unfold _seedAdminIfNeeded, promoteToAdmin. js_auth.
    by rewrite (some_admin_true _ Hadmin). }
  unfold _seedAdminIfNeeded at 1. js_auth.
  destruct (some _ (table_of AUTH_USERS_KEY w)) eqn:Hsome.
  - exists w. split; [done|].
    assert (Hadmin : Exists (λ u : row, u !! "role" = Some (VStr "admin"))
                       (table_of AUTH_USERS_KEY w)).
    { unfold some in Hsome. by apply bool_decide_eq_true in Hsome. }
    split; [done|]. destruct (Hafter w Hadmin). by split_and!.
  - js_auth. eexists. split; [reflexivity|].
    assert (Hadmin : Exists (λ u : row, u !! "role" = Some (VStr "admin"))
                       (table_of AUTH_USERS_KEY
                          (set_tables
                             (<[AUTH_USERS_KEY :=
                                  (table_of AUTH_USERS_KEY w
                                   ++ [admin_seed (toISOString clk
                                                     (Date_now clk (ticks w)))])%list]>
                                (tables (tick w))) (tick w)))).
    { autorewrite with world. apply Exists_app. right. by constructor. }
    split; [done|]. destruct (Hafter _ Hadmin) as [H1 H2].
    split; [done|]. split; [done|].
    intros key Hkey. unfold table_of. cbn [tables set_tables tick].
    by rewrite lookup_insert_ne.
Qed.

(** X20. On a store without administrator and without an account under
    the seed's email, seeding on reliable storage creates the default
    administrator, and logging in as ['admin@donatehub.com'] (in any
    letter case) with ['Admin@123'] starts a session that passes the
    administrator guard: [approveRecord] no longer throws. *)
Theorem seeded_admin_can_log_in (clk : Clock) (email id : string) (w : World) :
  Forall (λ u : row, ¬ u !! "role" = Some (VStr "admin")) (table_of AUTH_USERS_KEY w) →
  Forall (λ u : row, ¬ u !! "email" = Some (VStr "admin@donatehub.com"))
    (table_of AUTH_USERS_KEY w) →
  toLowerCase (trim email) = "admin@donatehub.com" →
  Forall (λ r, ¬ has_id id r) (table_of RECORDS_KEY w) →
  ∃ admin w1 w2,
    _seedAdminIfNeeded clk reliable w = (Returns tt, w1)
    ∧ loginUser clk reliable email "Admin@123" w1 = (Returns (AuthOk admin), w2)
    ∧ admin !! "id" = Some (VStr "u_admin_seed")
    ∧ is_admin (dms_session w2) = true
    ∧ dms_session w2 ≫= (.!! "userId") = Some (VStr "u_admin_seed")
    ∧ approveRecord clk reliable id w2 = (Returns None, w2).
Proof.
  intros Hnoadmin Hfree Hemail Hid.
  eexists _, _, _. split.
  { unfold _seedAdminIfNeeded. js_auth. rewrite (some_admin_false _ Hnoadmin).
    js_auth. reflexivity. }
  split.
  { unfold loginUser. js_auth. autorewrite with world. rewrite Hemail.
    rewrite list_find_snoc by done.
    rewrite decide_True by reflexivity. js_auth. reflexivity. }
  split; [reflexivity|].
  assert (Hs : is_admin
                 (Some (session_for
                          (toISOString clk (Date_now clk (S (ticks w))))
                          (admin_seed (toISOString clk (Date_now clk (ticks w))))))
               = true).
  { unfold is_admin. rewrite session_for_role. by apply bool_decide_eq_true_2. }
  split; [exact Hs|].
  split; [cbn [dms_session set_session mbind option_bind]; by rewrite session_for_userId|].
  unfold approveRecord. js_run.
  match goal with
  | |- context [negb (is_admin ?s)] =>
      replace (is_admin s) with true by (symmetry; exact Hs)
  end.
  cbn [negb]. js_run. autorewrite with world.
  by rewrite (list_find_absent _ _ Hid).
Qed.

(** ** Password strength *)

Lemma string_exists_app p s1 s2 :
  string_exists p (s1 +:+ s2) = string_exists p s1 || string_exists p s2.
Proof.
  induction s1 as [|a s1 IH]; [done|]. simpl. rewrite IH. by rewrite orb_assoc.
Qed.

Lemma string_length_app s1 s2 :
  String.length (s1 +:+ s2) = (String.length s1 + String.length s2)%nat.
Proof. induction s1 as [|a s1 IH]; [done|]. simpl. by rewrite IH. Qed.

(** X21. The strength score is at most 4, so it always indexes a label;
    it is 4 exactly when the password has 8 characters or more, an
    upper-case letter, a digit and a symbol (lower-case letters earn
    nothing); and adding characters at either end never lowers it. *)
Theorem getPasswordStrength_bounded_and_monotone (pwd before behind : string) :
  (getPasswordStrength pwd ≤ 4)%nat
  ∧ is_Some (STRENGTH_LABELS !! getPasswordStrength pwd)
  ∧ (getPasswordStrength pwd = 4%nat
     ↔ (8 ≤ String.length pwd)%nat ∧ string_exists is_upper pwd = true
       ∧ string_exists is_digit pwd = true ∧ string_exists is_symbol pwd = true)
  ∧ (getPasswordStrength pwd ≤ getPasswordStrength (before +:+ pwd +:+ behind))%nat.
Proof.
  unfold getPasswordStrength.
  rewrite !string_exists_app, !string_length_app.
  destruct (Nat.leb_spec 8 (String.length pwd)) as [Hlen|Hlen];
    destruct (Nat.leb_spec 8
                (String.length before + (String.length pwd + String.length behind)));
    try lia;
    destruct (string_exists is_upper pwd), (string_exists is_digit pwd),
      (string_exists is_symbol pwd),
      (string_exists is_upper before), (string_exists is_digit before),
      (string_exists is_symbol before),
      (string_exists is_upper behind), (string_exists is_digit behind),
      (string_exists is_symbol behind);
    cbn [orb];
    (split_and!; [lia|by eexists|split; [intros; (lia || done)|intros (?&?&?&?); (lia || done)]|lia]).
Qed.

(** ** The food form *)

Lemma bind_returns {A B} (m : M A) (k : A → M B) a w w' :
  m w = (Returns a, w') → bind m k w = k a w'.
Proof. intros H. unfold bind. by rewrite H. Qed.

Lemma bind_fails {A B} (m : M A) (k : A → M B) e w w' :
  m w = (Throws e, w') → bind m k w = (Throws e, w').
Proof. intros H. unfold bind. by rewrite H. Qed.

(** Reading back the decimal numeral of a number. *)
Lemma digit_pretty_N_char d : (d < 10)%N → digit (pretty_N_char d) = Some (Z.of_N d).
Proof.
  intros Hd.
  assert (d = 0 ∨ d = 1 ∨ d = 2 ∨ d = 3 ∨ d = 4 ∨ d = 5 ∨ d = 6 ∨ d = 7
          ∨ d = 8 ∨ d = 9)%N as Hcases by lia.
  repeat destruct Hcases as [->|Hcases]; try subst d; reflexivity.
Qed.

Lemma digits_pretty_N_go x : ∀ s,
  (0 < x)%N → digits None (pretty_N_go x s) = digits (Some (Z.of_N x)) s.
Proof.
  induction (N.lt_wf_0 x) as [x _ IH]. intros s Hx.
  rewrite pretty_N_go_step by done.
  assert (Hd : (x `mod` 10 < 10)%N) by (by apply N.mod_lt).
  assert (Hx10 : (x = 10 * (x `div` 10) + x `mod` 10)%N) by (by apply N.div_mod).
  assert (Hlt : (x `div` 10 < x)%N) by (by apply N.div_lt).
  set (q := (x `div` 10)%N) in *. set (m := (x `mod` 10)%N) in *.
  destruct (decide (q = 0)%N) as [H0|H0].
  - rewrite H0, pretty_N_go_0. cbn [digits]. rewrite (digit_pretty_N_char _ Hd).
    cbn [default from_option id]. f_equal. f_equal. lia.
  - rewrite IH; [|done|lia].
    cbn [digits]. rewrite (digit_pretty_N_char _ Hd). cbn [default from_option id].
    f_equal. f_equal. lia.
Qed.

Lemma pretty_N_go_head x : ∀ s,
  (0 < x)%N → ∃ d rest, (d < 10)%N ∧ pretty_N_go x s = String (pretty_N_char d) rest.
Proof.
  induction (N.lt_wf_0 x) as [x _ IH]. intros s Hx.
  rewrite pretty_N_go_step by done.
  assert (Hd : (x `mod` 10 < 10)%N) by (by apply N.mod_lt).
  assert (Hlt : (x `div` 10 < x)%N) by (by apply N.div_lt).
  set (q := (x `div` 10)%N) in *.
  destruct (decide (q = 0)%N) as [H0|H0].
  - rewrite H0, pretty_N_go_0. by eexists _, _.
  - apply IH; [done|lia].
Qed.

Lemma parseInt_string_digit_head d rest :
  (d < 10)%N →
  parseInt_string (String (pretty_N_char d) rest)
  = of_digits (digits None (String (pretty_N_char d) rest)).
Proof.
  intros Hd.
  assert (d = 0 ∨ d = 1 ∨ d = 2 ∨ d = 3 ∨ d = 4 ∨ d = 5 ∨ d = 6 ∨ d = 7
          ∨ d = 8 ∨ d = 9)%N as Hcases by lia.
  repeat destruct Hcases as [->|Hcases]; try subst d; reflexivity.
Qed.

(** An integer from 0 to 2^53 - 1 handed to [parseInt] comes back as it
    is. *)
Lemma parseInt_small (z : Z) : 0 ≤ z < 2 ^ 53 → parseInt (VNum z) = Some z.
Proof.
  intros [H0 Hz].
  assert (Hround : round_to_double z = Finite z).
  { unfold round_to_double. by rewrite (proj2 (Z.ltb_lt _ _) Hz). }
  unfold parseInt, Number_parseInt, to_key, Number_toString, magnitude_toString.
  rewrite (proj2 (Z.ltb_ge _ _) H0), (proj2 (Z.ltb_lt _ _) Hz).
  destruct z as [|p|p]; [reflexivity| |lia].
  change (pretty (Z.pos p)) with (pretty (N.pos p)).
  unfold pretty, pretty_N. rewrite decide_False by done.
  destruct (pretty_N_go_head (N.pos p) "") as (d & rest & Hd & Hhead); [lia|].
  rewrite Hhead, (parseInt_string_digit_head _ _ Hd), <- Hhead.
  rewrite digits_pretty_N_go by lia. cbn [digits of_digits].
  change (Z.of_N (N.pos p)) with (Z.pos p). by rewrite Hround.
Qed.

(** X22. What [foodForm.submit] lets through to storage.  It saves exactly
    when both fields read as Numbers that are neither [NaN] nor below zero
    and not both zero; what is stored is what [saveFoodRecord] reads from
    the Number handed on: the integer itself below 2^53, and [null] for a
    field of so many digits that it reads as [Infinity].  With a field
    that reads as [NaN] or below zero it reports the field and writes
    nothing; with both zero it writes nothing either.  It throws only when
    the fields are valid and the page holds no session, before anything is
    written. *)
Theorem foodForm_submit_stores_only_valid_quantities
    (clk : Clock) (_dmsSession : option string) (rice vegetables : val) (w : World) :
  match foodForm_submit clk reliable _dmsSession rice vegetables w with
  | (Returns (FoodSaved record), w') =>
      ∃ userId,
        _dmsSession = Some userId
        ∧ accepted_quantity (Number_parseInt rice)
        ∧ accepted_quantity (Number_parseInt vegetables)
        ∧ ¬ (Number_parseInt rice = Finite 0 ∧ Number_parseInt vegetables = Finite 0)
        ∧ saveFoodRecord clk reliable userId
            (number_val (Number_parseInt rice))
            (number_val (Number_parseInt vegetables)) w
          = (Returns record, w')
        ∧ sub_field FOOD_KEY (created_id clk w) "rice_qty" w'
          = Some (num (parseInt (number_val (Number_parseInt rice))))
        ∧ sub_field FOOD_KEY (created_id clk w) "veg_qty" w'
          = Some (num (parseInt (number_val (Number_parseInt vegetables))))
        ∧ (∀ z, Number_parseInt rice = Finite z → z < 2 ^ 53 →
             sub_field FOOD_KEY (created_id clk w) "rice_qty" w' = Some (VNum z))
        ∧ (∀ z, Number_parseInt vegetables = Finite z → z < 2 ^ 53 →
             sub_field FOOD_KEY (created_id clk w) "veg_qty" w' = Some (VNum z))
        ∧ (Number_parseInt rice = PosInfinity →
             sub_field FOOD_KEY (created_id clk w) "rice_qty" w' = Some VNull)
        ∧ (Number_parseInt vegetables = PosInfinity →
             sub_field FOOD_KEY (created_id clk w) "veg_qty" w' = Some VNull)
  | (Returns (FoodErrors riceError vegError), w') =>
      w' = w
      ∧ (riceError = "" ↔ accepted_quantity (Number_parseInt rice))
      ∧ (vegError = "" ↔ accepted_quantity (Number_parseInt vegetables))
      ∧ (riceError ≠ "" ∨ vegError ≠ "")
  | (Returns FoodNothing, w') =>
      w' = w ∧ Number_parseInt rice = Finite 0 ∧ Number_parseInt vegetables = Finite 0
  | (Throws e, w') =>
      e = TypeError ∧ _dmsSession = None ∧ w' = w
      ∧ accepted_quantity (Number_parseInt rice)
      ∧ accepted_quantity (Number_parseInt vegetables)
  end.
Proof.
  unfold foodForm_submit, accepted_quantity.
  destruct (isNaN (Number_parseInt rice) || below_zero (Number_parseInt rice))
    eqn:Hr;
    destruct (isNaN (Number_parseInt vegetables)
              || below_zero (Number_parseInt vegetables)) eqn:Hv;
    cbn [negb andb].
  1-3: split_and!; [done|..];
    rewrite <- ?orb_false_iff, ?Hr, ?Hv; try (split; (done || discriminate));
    (by left) || (by right).
  apply orb_false_iff in Hr, Hv.
  destruct (bool_decide (Number_parseInt rice = Finite 0)) eqn:Hr0;
    destruct (bool_decide (Number_parseInt vegetables = Finite 0)) eqn:Hv0;
    cbn [andb].
  { apply bool_decide_eq_true in Hr0, Hv0. done. }
  all: assert (Hzero : ¬ (Number_parseInt rice = Finite 0
                          ∧ Number_parseInt vegetables = Finite 0))
    by (intros [Hr0' Hv0'];
        rewrite bool_decide_eq_true_2 in Hr0 by done;
        rewrite bool_decide_eq_true_2 in Hv0 by done; discriminate).
  all: destruct Hr as [Hr1 Hr2], Hv as [Hv1 Hv2].
  all: destruct _dmsSession as [userId|]; [|by split_and!].
  all: destruct (saveFoodRecord_run clk userId
                   (number_val (Number_parseInt rice))
                   (number_val (Number_parseInt vegetables)) w)
      as (w' & Hrun & Htab & _);
    rewrite (bind_returns _ _ _ _ _ Hrun); unfold ret;
    exists userId; (split_and!; [done..| | | | | |]);
    unfold sub_field;
    rewrite (table_of_inserted _ _ _ _ Htab);
    rewrite list_find_head by reflexivity;
    try reflexivity.
  all: try (intros z Hz Hsmall; rewrite Hz in *; cbn [number_val]; cbn [below_zero] in *;
            unfold created_food_sub;
            rewrite parseInt_small by lia;
            reflexivity).
  all: intros Hinf; rewrite Hinf; reflexivity.
Qed.

(** ** The administrator's dashboard *)

Lemma addNotification_run clk userId donationId type message reason w :
  addNotification clk reliable userId donationId type message reason w
  = (Returns tt,
     rewrite_table NOTIF_KEY
       (cons (created_notification clk userId donationId type message reason w))
       (ticked 3 w)).
Proof. reflexivity. Qed.

Lemma table_of_with_master_row_ne key i r w :
  key ≠ RECORDS_KEY → table_of key (with_master_row i r w) = table_of key w.
Proof.
  intros Hkey. unfold with_master_row, table_of. cbn [tables set_tables].
  by rewrite lookup_insert_ne.
Qed.

Lemma master_field_found id field i r w :
  list_find (has_id id) (table_of RECORDS_KEY w) = Some (i, r) →
  master_field id field w = r !! field.
Proof. intros Hfind. unfold master_field. by rewrite (getRecordById_found _ _ _ _ Hfind). Qed.

Lemma trim_empty : trim "" = "".
Proof. reflexivity. Qed.

(** X23. [adminDashboard.approve] on a donation that is in the snapshot
    and in storage: without an administrator session it throws and writes
    nothing, no notification either; with one, on reliable storage, the
    master row is approved and one unread "approved" notification, naming
    the donation and with no reason, is put on top of the notification
    table for the owner the snapshot records. *)
Theorem adminDashboard_approve_notifies_owner
    (clk : Clock) (records : table) (id userId : string) (j i : nat)
    (snap r : row) (w : World) :
  list_find (has_id id) records = Some (j, snap) →
  snap !! "userId" = Some (VStr userId) →
  list_find (has_id id) (table_of RECORDS_KEY w) = Some (i, r) →
  if is_admin (dms_session w)
  then
    ∃ n w',
      adminDashboard_approve clk reliable records id w = (Returns tt, w')
      ∧ master_field id "approved" w' = Some (VBool true)
      ∧ master_field id "donation_status" w' = Some (VStr "approved")
      ∧ table_of NOTIF_KEY w' = n :: table_of NOTIF_KEY w
      ∧ n !! "userId" = Some (VStr userId)
      ∧ n !! "donationId" = Some (VStr id)
      ∧ n !! "type" = Some (VStr "approved")
      ∧ n !! "message"
        = Some (VStr ("Your " +:+ show (snap !! "type")
                      +:+ " donation has been approved!"))
      ∧ n !! "reason" = Some VNull
      ∧ n !! "read" = Some (VBool false)
      ∧ getUnreadCountForUser userId w'
        = (Returns (S (unread userId (table_of NOTIF_KEY w))), w')
  else
    adminDashboard_approve clk reliable records id w
    = (Throws (Error "approveRecord: administrator session required."), w).
Proof.
  intros Hsnap Huser Hfind. unfold adminDashboard_approve.
  destruct (is_admin (dms_session w)) eqn:Hs.
  - rewrite (bind_returns _ _ _ _ _ (approveRecord_found clk _ _ _ _ Hs Hfind)).
    rewrite Hsnap. cbn [fmap option_fmap option_map snd].
    rewrite addNotification_run.
    set (row := approved_row _ _ r).
    set (w1 := with_master_row i row (tick w)).
    set (n := created_notification _ _ _ _ _ _ _).
    assert (Hid : snap !! "id" = Some (VStr id))
      by (by apply list_find_Some in Hsnap as (_ & ? & _)).
    assert (Hrow : list_find (has_id id)
                     (table_of RECORDS_KEY (rewrite_table NOTIF_KEY (cons n) (ticked 3 w1)))
                   = Some (i, row)).
    { rewrite table_of_rewrite_ne by discriminate. rewrite table_of_ticked.
      subst w1. apply (find_with_master_row id i r row (tick w)); [exact Hfind|].
      apply approved_row_id. by apply list_find_Some in Hfind as (_ & ? & _). }
    assert (HN : table_of NOTIF_KEY (rewrite_table NOTIF_KEY (cons n) (ticked 3 w1))
                 = n :: table_of NOTIF_KEY w).
    { rewrite table_of_rewrite_eq, table_of_ticked. subst w1.
      by rewrite table_of_with_master_row_ne by discriminate. }
    assert (Hnu : n !! "userId" = Some (VStr userId)).
    { unfold n, created_notification. rewrite Huser. by rewrite assign_lookup_eq. }
    exists n. eexists. split; [reflexivity|].
    rewrite !(master_field_found _ _ _ _ _ Hrow).
    split; [unfold row, approved_row; by row_reads|].
    split; [unfold row, approved_row; by row_reads|].
    split; [exact HN|]. split; [exact Hnu|].
    split; [unfold n, created_notification; rewrite Hid; by row_reads|].
    do 4 (split; [unfold n, created_notification; by row_reads|]).
    rewrite getUnreadCountForUser_reads, HN. unfold unread.
    rewrite filter_cons_True; [done|].
    split; [done|]. unfold n, created_notification. by row_reads.
  - by rewrite (bind_fails _ _ _ _ _ (approveRecord_guard clk reliable id w Hs)).
Qed.

(** X24. [adminDashboard.confirmReject]: with a reason that is empty or
    white space only it reports that a reason is required and writes
    nothing, administrator or not; with another reason and an administrator
    session, on reliable storage, the master row is rejected with the
    trimmed reason, which is not empty, and the owner gets one unread
    "rejected" notification carrying the same trimmed reason; without an
    administrator session it throws and writes nothing. *)
Theorem adminDashboard_confirmReject_requires_reason
    (clk : Clock) (records : table) (id userId reason : string) (j i : nat)
    (snap r : row) (w : World) :
  list_find (has_id id) records = Some (j, snap) →
  snap !! "userId" = Some (VStr userId) →
  list_find (has_id id) (table_of RECORDS_KEY w) = Some (i, r) →
  if decide (trim reason = "")
  then
    adminDashboard_confirmReject clk reliable records id reason w
    = (Returns (Some "A reason for rejection is required."), w)
  else if is_admin (dms_session w)
  then
    ∃ n w',
      adminDashboard_confirmReject clk reliable records id reason w
      = (Returns None, w')
      ∧ master_field id "approved" w' = Some (VBool false)
      ∧ master_field id "donation_status" w' = Some (VStr "rejected")
      ∧ master_field id "rejectionReason" w' = Some (VStr (trim reason))
      ∧ trim reason ≠ ""
      ∧ table_of NOTIF_KEY w' = n :: table_of NOTIF_KEY w
      ∧ n !! "userId" = Some (VStr userId)
      ∧ n !! "donationId" = Some (VStr id)
      ∧ n !! "type" = Some (VStr "rejected")
      ∧ n !! "message"
        = Some (VStr ("Your " +:+ show (snap !! "type") +:+ " donation was rejected."))
      ∧ n !! "reason" = Some (VStr (trim reason))
      ∧ n !! "read" = Some (VBool false)
      ∧ getUnreadCountForUser userId w'
        = (Returns (S (unread userId (table_of NOTIF_KEY w))), w')
  else
    adminDashboard_confirmReject clk reliable records id reason w
    = (Throws (Error "rejectRecord: administrator session required."), w).
Proof.
  intros Hsnap Huser Hfind. unfold adminDashboard_confirmReject.
  destruct (decide (trim reason = "")) as [Hblank|Hblank]; [done|].
  destruct (is_admin (dms_session w)) eqn:Hs.
  - rewrite (bind_returns _ _ _ _ _ (rejectRecord_found clk _ reason _ _ _ Hs Hfind)).
    rewrite Hsnap. cbn [fmap option_fmap option_map snd].
    rewrite (bind_returns _ _ _ _ _ (addNotification_run _ _ _ _ _ _ _)).
    unfold ret.
    set (row := rejected_row _ _ reason r).
    set (w1 := with_master_row i row (tick w)).
    set (n := created_notification _ _ _ _ _ _ _).
    assert (Hid : snap !! "id" = Some (VStr id))
      by (by apply list_find_Some in Hsnap as (_ & ? & _)).
    assert (Hrow : list_find (has_id id)
                     (table_of RECORDS_KEY (rewrite_table NOTIF_KEY (cons n) (ticked 3 w1)))
                   = Some (i, row)).
    { rewrite table_of_rewrite_ne by discriminate. rewrite table_of_ticked.
      subst w1. apply (find_with_master_row id i r row (tick w)); [exact Hfind|].
      apply rejected_row_id. by apply list_find_Some in Hfind as (_ & ? & _). }
    assert (HN : table_of NOTIF_KEY (rewrite_table NOTIF_KEY (cons n) (ticked 3 w1))
                 = n :: table_of NOTIF_KEY w).
    { rewrite table_of_rewrite_eq, table_of_ticked. subst w1.
      by rewrite table_of_with_master_row_ne by discriminate. }
    assert (Hnu : n !! "userId" = Some (VStr userId)).
    { unfold n, created_notification. rewrite Huser. by rewrite assign_lookup_eq. }
    assert (Hreason : reason ≠ "") by (intros ->; by apply Hblank).
    exists n. eexists. split; [reflexivity|].
    rewrite !(master_field_found _ _ _ _ _ Hrow).
    do 3 (split; [unfold row, rejected_row; by row_reads|]).
    split; [done|].
    split; [exact HN|]. split; [exact Hnu|].
    split; [unfold n, created_notification; rewrite Hid; by row_reads|].
    do 2 (split; [unfold n, created_notification; by row_reads|]).
    split.
    { unfold n, created_notification. row_reads. by rewrite decide_False. }
    split; [unfold n, created_notification; by row_reads|].
    rewrite getUnreadCountForUser_reads, HN. unfold unread.
    rewrite filter_cons_True; [done|].
    split; [done|]. unfold n, created_notification. by row_reads.
  - by rewrite (bind_fails _ _ _ _ _ (rejectRecord_guard clk reliable id reason w Hs)).
Qed.

(** X25. The dashboard notifies from its snapshot, not from the result of
    the approval: for a donation that is still in the snapshot but no
    longer in storage, [approveRecord] returns [null] and changes nothing,
    and the "approved" notification is written all the same. *)
Theorem adminDashboard_approve_notifies_from_stale_snapshot
    (clk : Clock) (records : table) (id : string) (j : nat) (snap : row) (w : World) :
  is_admin (dms_session w) = true →
  list_find (has_id id) records = Some (j, snap) →
  Forall (λ r, ¬ has_id id r) (table_of RECORDS_KEY w) →
  ∃ n w',
    approveRecord clk reliable id w = (Returns None, w)
    ∧ adminDashboard_approve clk reliable records id w = (Returns tt, w')
    ∧ (∀ key, key ≠ NOTIF_KEY → table_of key w' = table_of key w)
    ∧ table_of NOTIF_KEY w' = n :: table_of NOTIF_KEY w
    ∧ n !! "userId" = snap !! "userId"
    ∧ n !! "donationId" = Some (VStr id)
    ∧ n !! "type" = Some (VStr "approved").
Proof.
  intros Hs Hsnap Hgone.
  assert (Hnull : approveRecord clk reliable id w = (Returns None, w)).
  { unfold approveRecord. js_run. rewrite Hs. cbn [negb]. js_run.
    by rewrite (list_find_absent _ _ Hgone). }
  unfold adminDashboard_approve. rewrite (bind_returns _ _ _ _ _ Hnull).
  rewrite Hsnap. cbn [fmap option_fmap option_map snd].
  rewrite addNotification_run.
  set (n := created_notification _ _ _ _ _ _ _).
  assert (Hid : snap !! "id" = Some (VStr id))
    by (by apply list_find_Some in Hsnap as (_ & ? & _)).
  exists n. eexists. split; [done|]. split; [reflexivity|].
  split; [intros key Hkey; by rewrite table_of_rewrite_ne|].
  split; [by rewrite table_of_rewrite_eq|].
  split; [unfold n, created_notification; by rewrite assign_lookup_eq|].
  split; [unfold n, created_notification; rewrite Hid; by row_reads|].
  unfold n, created_notification. by row_reads.
Qed.

(** ** The money form *)

Lemma onQRDetected_run clk userId payload w :
  _onQRDetected clk reliable userId payload w
  = (Returns (mkMoneyForm "detected" (Some payload) payload
                (Some (VStr (pending_txn clk w))) (Some (VStr (pending_id clk w)))),
     after (createPendingMoney clk reliable userId payload) w).
Proof. reflexivity. Qed.

(** X26. Scan, then confirm, on reliable storage: the scan leaves the
    form in state "detected" holding the id and the reference of the
    pending donation; the confirmation completes that donation (money
    sub-row confirmed, one event dispatched) and clears the id, so that a
    later re-scan or a second confirmation leaves storage alone: the
    completed donation is not cancelled and no second event is raised. *)
Theorem moneyForm_confirm_completes_and_disarms
    (clk : Clock) (userId payload : string) (w : World) :
  payload ≠ "" →
  ∃ f1 w1 f2 w2,
    _onQRDetected clk reliable userId payload w = (Returns f1, w1)
    ∧ state f1 = "detected"
    ∧ _pendingRecordId f1 = Some (VStr (pending_id clk w))
    ∧ txnRef f1 = Some (VStr (pending_txn clk w))
    ∧ confirmTransaction clk reliable f1 w1 = (Returns f2, w2)
    ∧ table_of MONEY_KEY w2
      = <["status" := VBool true]> (pending_money clk payload w)
        :: table_of MONEY_KEY w
    ∧ table_of RECORDS_KEY w2 = pending_master clk userId w :: table_of RECORDS_KEY w
    ∧ dispatched w2 = (dispatched w ++ [pending_master clk userId w])%list
    ∧ _pendingRecordId f2 = None
    ∧ retryScanner reliable f2 w2 = (Returns (resetToIdle f2), w2)
    ∧ confirmTransaction clk reliable f2 w2 = (Returns f2, w2).
Proof.
  intros Hpayload.
  destruct (createPendingMoney_completeMoney_run clk userId payload w)
    as (w2 & Hrun & HM & HR & _ & Hev).
  eexists _, _, _, w2. split; [apply onQRDetected_run|].
  do 3 (split; [reflexivity|]).
  split.
  { unfold confirmTransaction.
    cbn [detectedCode _pendingRecordId state qrPayload txnRef fmap option_fmap
         option_map truthy].
    rewrite bool_decide_eq_false_2 by done.
    assert (Hid : bool_decide (pending_id clk w = "") = false)
      by (by apply bool_decide_eq_false_2).
    rewrite Hid. cbn [negb orb].
    rewrite bind_assoc. rewrite (bind_returns _ _ _ _ _ Hrun).
    reflexivity. }
  by split_and!.
Qed.

(** X27. Scan, then [resetToIdle]: the form forgets the pending id
    without cancelling, so the pending master row and the unconfirmed
    money sub-row stay in storage, and neither a re-scan nor a confirmation
    afterwards removes or completes them, while [retryScanner] straight
    after the scan is [cancelPendingMoney] on the pending id. *)
Theorem moneyForm_resetToIdle_abandons_pending_rows
    (clk : Clock) (userId payload : string) (w : World) :
  ∃ f1 w1,
    _onQRDetected clk reliable userId payload w = (Returns f1, w1)
    ∧ table_of RECORDS_KEY w1 = pending_master clk userId w :: table_of RECORDS_KEY w
    ∧ table_of MONEY_KEY w1 = pending_money clk payload w :: table_of MONEY_KEY w
    ∧ retryScanner reliable f1 w1
      = (Returns (resetToIdle f1),
         after (cancelPendingMoney reliable (pending_id clk w)) w1)
    ∧ retryScanner reliable (resetToIdle f1) w1 = (Returns (resetToIdle f1), w1)
    ∧ confirmTransaction clk reliable (resetToIdle f1) w1
      = (Returns (resetToIdle f1), w1).
Proof.
  eexists _, _. split; [apply onQRDetected_run|].
  unfold after. rewrite createPendingMoney_reliable. cbn [snd].
  split; [by table_reads|]. split; [by table_reads|].
  split; [|by split].
  unfold retryScanner. cbn [_pendingRecordId truthy].
  assert (Hid : bool_decide (pending_id clk w = "") = false)
    by (by apply bool_decide_eq_false_2).
  rewrite Hid. cbn [negb].
  rewrite (bind_returns _ _ _ _ _ (cancelPendingMoney_reliable _ _)).
  rewrite cancelPendingMoney_reliable. reflexivity.
Qed.

(** ** Instances of the further properties *)

Lemma admin_world_session : is_admin (dms_session admin_world) = true.
Proof. by_evaluation. Qed.

Lemma seeded_food_row :
  list_find (has_id food_id) seeded_records = Some (2%nat, seeded_master 2).
Proof. by_evaluation. Qed.

Lemma admin_world_food_row :
  list_find (has_id food_id) (table_of RECORDS_KEY admin_world)
  = Some (2%nat, seeded_master 2).
Proof. by_evaluation. Qed.

Lemma seeded_food_owner : seeded_master 2 !! "userId" = Some (VStr "u_1").
Proof. by_evaluation. Qed.

Lemma listing_is_scoped_witness :
  ("u_2" ≠ "u_1")
  ∧
  (∃ record mine theirs w',
    saveFoodRecord demo_clock reliable "u_1" (VNum 1) (VStr "2 kg") (seeded None) = (Returns record, w')
    ∧ getRecordsByUser "u_1" (seeded None) = (Returns mine, (seeded None))
    ∧ getRecordsByUser "u_2" (seeded None) = (Returns theirs, (seeded None))
    ∧ getRecordsByUser "u_1" w' = (Returns (record :: mine), w')
    ∧ getRecordsByUser "u_2" w' = (Returns theirs, w')
    ∧ Forall (λ r, r !! "userId" = Some (VStr "u_1")) (record :: mine)
    ∧ Forall (λ r, r !! "userId" = Some (VStr "u_2")) theirs
    ∧ (∀ r, r ∈ table_of RECORDS_KEY w' →
            r !! "userId" = Some (VStr "u_2") → r ∈ theirs)).
Proof.
  assert (H1 : "u_2" ≠ "u_1")
    by discriminate.
  exact (conj H1 (listing_is_scoped_to_its_user demo_clock "u_1" "u_2" (VNum 1) (VStr "2 kg") (seeded None) H1)).
Defined.

Lemma completeMoney_without_sub_row_witness :
  (list_find (has_id food_id) (table_of RECORDS_KEY (seeded None)) = Some ((2%nat), (seeded_master 2)))
  ∧
  (Forall (λ s, ¬ refers_to food_id s) (table_of MONEY_KEY (seeded None)))
  ∧
  (completeMoney demo_clock reliable food_id (seeded None) = (Returns (Some (seeded_master 2)), push_event (seeded_master 2) (seeded None))).
Proof.
  assert (H1 : list_find (has_id food_id) (table_of RECORDS_KEY (seeded None)) = Some ((2%nat), (seeded_master 2)))
    by exact seeded_food_row.
  assert (H2 : Forall (λ s, ¬ refers_to food_id s) (table_of MONEY_KEY (seeded None)))
    by decide_by_evaluation.
  exact (conj H1 (conj H2 (completeMoney_without_sub_row_still_dispatches demo_clock reliable food_id (2%nat) (seeded_master 2) (seeded None) H1 H2))).
Defined.

Lemma approve_reject_unknown_id_witness :
  (is_admin (dms_session admin_world) = true)
  ∧
  (Forall (λ r, ¬ has_id "dr_0_none" r) (table_of RECORDS_KEY admin_world))
  ∧
  (approveRecord demo_clock reliable "dr_0_none" admin_world = (Returns None, admin_world)
  ∧ rejectRecord demo_clock reliable "dr_0_none" "no such donation" admin_world = (Returns None, admin_world)).
Proof.
  assert (H1 : is_admin (dms_session admin_world) = true)
    by exact admin_world_session.
  assert (H2 : Forall (λ r, ¬ has_id "dr_0_none" r) (table_of RECORDS_KEY admin_world))
    by decide_by_evaluation.
  exact (conj H1 (conj H2 (approve_reject_unknown_id demo_clock reliable "dr_0_none" "no such donation" admin_world H1 H2))).
Defined.

Lemma approveRecord_changes_one_row_witness :
  (is_admin (dms_session admin_world) = true)
  ∧
  (list_find (has_id food_id) (table_of RECORDS_KEY admin_world) = Some ((2%nat), (seeded_master 2)))
  ∧
  (∃ row w',
    approveRecord demo_clock reliable food_id admin_world = (Returns (Some row), w')
    ∧ table_of RECORDS_KEY w' = <[(2%nat) := row]> (table_of RECORDS_KEY admin_world)
    ∧ (∀ j, j ≠ (2%nat) → table_of RECORDS_KEY w' !! j = table_of RECORDS_KEY admin_world !! j)
    ∧ length (table_of RECORDS_KEY w') = length (table_of RECORDS_KEY admin_world)
    ∧ (∀ key, key ≠ RECORDS_KEY → table_of key w' = table_of key admin_world)
    ∧ row !! "approved" = Some (VBool true)
    ∧ row !! "donation_status" = Some (VStr "approved")
    ∧ (∀ k, k ∉ ["approved"; "approvedAt"; "approvedBy"; "donation_status";
                 "rejectedAt"; "rejectedBy"] →
            row !! k = (seeded_master 2) !! k)).
Proof.
  assert (H1 : is_admin (dms_session admin_world) = true)
    by exact admin_world_session.
  assert (H2 : list_find (has_id food_id) (table_of RECORDS_KEY admin_world) = Some ((2%nat), (seeded_master 2)))
    by exact admin_world_food_row.
  exact (conj H1 (conj H2 (approveRecord_changes_one_row demo_clock food_id (2%nat) (seeded_master 2) admin_world H1 H2))).
Defined.

Lemma deleteRecord_spares_witness :
  (apparel_id ≠ food_id)
  ∧
  (∃ w',
    deleteRecord reliable food_id (seeded None) = (Returns tt, w')
    ∧ fst (getRecordById apparel_id w') = fst (getRecordById apparel_id (seeded None))
    ∧ fst (getFoodByDonationId apparel_id w') = fst (getFoodByDonationId apparel_id (seeded None))
    ∧ fst (getClothesByDonationId apparel_id w') = fst (getClothesByDonationId apparel_id (seeded None))
    ∧ fst (getMoneyByDonationId apparel_id w') = fst (getMoneyByDonationId apparel_id (seeded None))
    ∧ table_of NOTIF_KEY w' = table_of NOTIF_KEY (seeded None)).
Proof.
  assert (H1 : apparel_id ≠ food_id)
    by decide_by_evaluation.
  exact (conj H1 (deleteRecord_spares_other_donations food_id apparel_id (seeded None) H1)).
Defined.

Lemma addNotification_adds_one_unread_witness :
  ("u_2" ≠ "u_1")
  ∧
  (∃ n rest w',
    addNotification demo_clock reliable (Some (VStr "u_1")) (Some (VStr food_id))
      "rejected" "Your food donation was rejected." (Some " past its date ") notified
    = (Returns tt, w')
    ∧ getUnreadCountForUser "u_1" w'
      = (Returns (S (unread "u_1" (table_of NOTIF_KEY notified))), w')
    ∧ getUnreadCountForUser "u_2" w'
      = (Returns (unread "u_2" (table_of NOTIF_KEY notified)), w')
    ∧ getNotificationsForUser "u_1" notified = (Returns rest, notified)
    ∧ getNotificationsForUser "u_1" w' = (Returns (n :: rest), w')
    ∧ n !! "read" = Some (VBool false)
    ∧ n !! "donationId" = Some (VStr food_id)
    ∧ n !! "type" = Some (VStr "rejected")
    ∧ n !! "message" = Some (VStr "Your food donation was rejected.")
    ∧ n !! "reason"
      = Some (match (Some " past its date ") with
              | Some s => if decide (s = "") then VNull else VStr (trim s)
              | None => VNull
              end)
    ∧ (∀ key, key ≠ NOTIF_KEY → table_of key w' = table_of key notified)).
Proof.
  assert (H1 : "u_2" ≠ "u_1")
    by discriminate.
  exact (conj H1 (addNotification_adds_one_unread demo_clock "u_1" food_id "rejected" "Your food donation was rejected." "u_2" (Some " past its date ") notified H1)).
Defined.

Lemma markAllNotificationsRead_witness :
  ("u_2" ≠ "u_1")
  ∧
  (∃ w',
    markAllNotificationsRead reliable "u_1" notified = (Returns tt, w')
    ∧ getUnreadCountForUser "u_1" w' = (Returns 0%nat, w')
    ∧ length (table_of NOTIF_KEY w') = length (table_of NOTIF_KEY notified)
    ∧ fst (getUnreadCountForUser "u_2" w') = fst (getUnreadCountForUser "u_2" notified)
    ∧ fst (getNotificationsForUser "u_2" w') = fst (getNotificationsForUser "u_2" notified)
    ∧ (∀ key, key ≠ NOTIF_KEY → table_of key w' = table_of key notified)).
Proof.
  assert (H1 : "u_2" ≠ "u_1")
    by discriminate.
  exact (conj H1 (markAllNotificationsRead_clears_one_mailbox "u_1" "u_2" notified H1)).
Defined.

Lemma register_then_login_witness :
  (Forall (λ u : row, ¬ u !! "email" = Some (VStr (toLowerCase (trim " Ada@Example.org ")))) (table_of AUTH_USERS_KEY (fresh_world None)))
  ∧
  (toLowerCase (trim "ada@EXAMPLE.org") = toLowerCase (trim " Ada@Example.org "))
  ∧
  (∃ user w1 w2,
    registerUser demo_clock reliable " Ada Lovelace " " Ada@Example.org " "Secret#1" (fresh_world None) = (Returns (AuthOk user), w1)
    ∧ table_of AUTH_USERS_KEY w1 = (table_of AUTH_USERS_KEY (fresh_world None) ++ [user])%list
    ∧ user !! "role" = Some (VStr "user")
    ∧ user !! "email" = Some (VStr (toLowerCase (trim " Ada@Example.org ")))
    ∧ user !! "fullName" = Some (VStr (trim " Ada Lovelace "))
    ∧ dms_session w1 ≫= (.!! "userId") = user !! "id"
    ∧ loginUser demo_clock reliable "ada@EXAMPLE.org" "Secret#1" w1 = (Returns (AuthOk user), w2)
    ∧ dms_session w2 ≫= (.!! "userId") = user !! "id"
    ∧ table_of AUTH_USERS_KEY w2 = table_of AUTH_USERS_KEY w1).
Proof.
  assert (H1 : Forall (λ u : row, ¬ u !! "email" = Some (VStr (toLowerCase (trim " Ada@Example.org ")))) (table_of AUTH_USERS_KEY (fresh_world None)))
    by decide_by_evaluation.
  assert (H2 : toLowerCase (trim "ada@EXAMPLE.org") = toLowerCase (trim " Ada@Example.org "))
    by by_evaluation.
  exact (conj H1 (conj H2 (register_then_login demo_clock " Ada Lovelace " " Ada@Example.org " "ada@EXAMPLE.org" "Secret#1" (fresh_world None) H1 H2))).
Defined.

Lemma registerUser_rejects_taken_email_witness :
  (registered_user ∈ table_of AUTH_USERS_KEY registered)
  ∧
  (registered_user !! "email" = Some (VStr (toLowerCase (trim "ADA@example.org"))))
  ∧
  (registerUser demo_clock reliable "Ada L." "ADA@example.org" "other" registered
  = (Returns (AuthFail "An account with this email already exists."), registered)).
Proof.
  assert (H1 : registered_user ∈ table_of AUTH_USERS_KEY registered)
    by decide_by_evaluation.
  assert (H2 : registered_user !! "email" = Some (VStr (toLowerCase (trim "ADA@example.org"))))
    by by_evaluation.
  exact (conj H1 (conj H2 (registerUser_rejects_taken_email demo_clock reliable "Ada L." "ADA@example.org" "other" registered_user registered H1 H2))).
Defined.

Lemma registered_session_is_not_admin_witness :
  (Forall (λ u : row, ¬ u !! "email" = Some (VStr (toLowerCase (trim " Ada@Example.org ")))) (table_of AUTH_USERS_KEY (seeded None)))
  ∧
  (∃ user w1,
    registerUser demo_clock reliable " Ada Lovelace " " Ada@Example.org " "Secret#1" (seeded None) = (Returns (AuthOk user), w1)
    ∧ is_admin (dms_session w1) = false
    ∧ approveRecord demo_clock reliable food_id w1
      = (Throws (Error "approveRecord: administrator session required."), w1)
    ∧ rejectRecord demo_clock reliable food_id "mine" w1
      = (Throws (Error "rejectRecord: administrator session required."), w1)).
Proof.
  assert (H1 : Forall (λ u : row, ¬ u !! "email" = Some (VStr (toLowerCase (trim " Ada@Example.org ")))) (table_of AUTH_USERS_KEY (seeded None)))
    by decide_by_evaluation.
  exact (conj H1 (registered_session_is_not_admin demo_clock " Ada Lovelace " " Ada@Example.org " "Secret#1" food_id "mine" (seeded None) H1)).
Defined.

Lemma seeded_admin_can_log_in_witness :
  (Forall (λ u : row, ¬ u !! "role" = Some (VStr "admin")) (table_of AUTH_USERS_KEY (seeded None)))
  ∧
  (Forall (λ u : row, ¬ u !! "email" = Some (VStr "admin@donatehub.com")) (table_of AUTH_USERS_KEY (seeded None)))
  ∧
  (toLowerCase (trim " Admin@DonateHub.com") = "admin@donatehub.com")
  ∧
  (Forall (λ r, ¬ has_id "dr_0_none" r) (table_of RECORDS_KEY (seeded None)))
  ∧
  (∃ admin w1 w2,
    _seedAdminIfNeeded demo_clock reliable (seeded None) = (Returns tt, w1)
    ∧ loginUser demo_clock reliable " Admin@DonateHub.com" "Admin@123" w1 = (Returns (AuthOk admin), w2)
    ∧ admin !! "id" = Some (VStr "u_admin_seed")
    ∧ is_admin (dms_session w2) = true
    ∧ dms_session w2 ≫= (.!! "userId") = Some (VStr "u_admin_seed")
    ∧ approveRecord demo_clock reliable "dr_0_none" w2 = (Returns None, w2)).
Proof.
  assert (H1 : Forall (λ u : row, ¬ u !! "role" = Some (VStr "admin")) (table_of AUTH_USERS_KEY (seeded None)))
    by decide_by_evaluation.
  assert (H2 : Forall (λ u : row, ¬ u !! "email" = Some (VStr "admin@donatehub.com")) (table_of AUTH_USERS_KEY (seeded None)))
    by decide_by_evaluation.
  assert (H3 : toLowerCase (trim " Admin@DonateHub.com") = "admin@donatehub.com")
    by by_evaluation.
  assert (H4 : Forall (λ r, ¬ has_id "dr_0_none" r) (table_of RECORDS_KEY (seeded None)))
    by decide_by_evaluation.
  exact (conj H1 (conj H2 (conj H3 (conj H4 (seeded_admin_can_log_in demo_clock " Admin@DonateHub.com" "dr_0_none" (seeded None) H1 H2 H3 H4))))).
Defined.

Lemma adminDashboard_approve_witness :
  (list_find (has_id food_id) seeded_records = Some ((2%nat), (seeded_master 2)))
  ∧
  ((seeded_master 2) !! "userId" = Some (VStr "u_1"))
  ∧
  (list_find (has_id food_id) (table_of RECORDS_KEY admin_world) = Some ((2%nat), (seeded_master 2)))
  ∧
  (if is_admin (dms_session admin_world)
  then
    ∃ n w',
      adminDashboard_approve demo_clock reliable seeded_records food_id admin_world = (Returns tt, w')
      ∧ master_field food_id "approved" w' = Some (VBool true)
      ∧ master_field food_id "donation_status" w' = Some (VStr "approved")
      ∧ table_of NOTIF_KEY w' = n :: table_of NOTIF_KEY admin_world
      ∧ n !! "userId" = Some (VStr "u_1")
      ∧ n !! "donationId" = Some (VStr food_id)
      ∧ n !! "type" = Some (VStr "approved")
      ∧ n !! "message"
        = Some (VStr ("Your " +:+ show ((seeded_master 2) !! "type")
                      +:+ " donation has been approved!"))
      ∧ n !! "reason" = Some VNull
      ∧ n !! "read" = Some (VBool false)
      ∧ getUnreadCountForUser "u_1" w'
        = (Returns (S (unread "u_1" (table_of NOTIF_KEY admin_world))), w')
  else
    adminDashboard_approve demo_clock reliable seeded_records food_id admin_world
    = (Throws (Error "approveRecord: administrator session required."), admin_world)).
Proof.
  assert (H1 : list_find (has_id food_id) seeded_records = Some ((2%nat), (seeded_master 2)))
    by exact seeded_food_row.
  assert (H2 : (seeded_master 2) !! "userId" = Some (VStr "u_1"))
    by exact seeded_food_owner.
  assert (H3 : list_find (has_id food_id) (table_of RECORDS_KEY admin_world) = Some ((2%nat), (seeded_master 2)))
    by exact admin_world_food_row.
  exact (conj H1 (conj H2 (conj H3 (adminDashboard_approve_notifies_owner demo_clock seeded_records food_id "u_1" (2%nat) (2%nat) (seeded_master 2) (seeded_master 2) admin_world H1 H2 H3)))).
Defined.

Lemma adminDashboard_confirmReject_witness :
  (list_find (has_id food_id) seeded_records = Some ((2%nat), (seeded_master 2)))
  ∧
  ((seeded_master 2) !! "userId" = Some (VStr "u_1"))
  ∧
  (list_find (has_id food_id) (table_of RECORDS_KEY admin_world) = Some ((2%nat), (seeded_master 2)))
  ∧
  (if decide (trim " past its date " = "")
  then
    adminDashboard_confirmReject demo_clock reliable seeded_records food_id " past its date " admin_world
    = (Returns (Some "A reason for rejection is required."), admin_world)
  else if is_admin (dms_session admin_world)
  then
    ∃ n w',
      adminDashboard_confirmReject demo_clock reliable seeded_records food_id " past its date " admin_world
      = (Returns None, w')
      ∧ master_field food_id "approved" w' = Some (VBool false)
      ∧ master_field food_id "donation_status" w' = Some (VStr "rejected")
      ∧ master_field food_id "rejectionReason" w' = Some (VStr (trim " past its date "))
      ∧ trim " past its date " ≠ ""
      ∧ table_of NOTIF_KEY w' = n :: table_of NOTIF_KEY admin_world
      ∧ n !! "userId" = Some (VStr "u_1")
      ∧ n !! "donationId" = Some (VStr food_id)
      ∧ n !! "type" = Some (VStr "rejected")
      ∧ n !! "message"
        = Some (VStr ("Your " +:+ show ((seeded_master 2) !! "type") +:+ " donation was rejected."))
      ∧ n !! "reason" = Some (VStr (trim " past its date "))
      ∧ n !! "read" = Some (VBool false)
      ∧ getUnreadCountForUser "u_1" w'
        = (Returns (S (unread "u_1" (table_of NOTIF_KEY admin_world))), w')
  else
    adminDashboard_confirmReject demo_clock reliable seeded_records food_id " past its date " admin_world
    = (Throws (Error "rejectRecord: administrator session required."), admin_world)).
Proof.
  assert (H1 : list_find (has_id food_id) seeded_records = Some ((2%nat), (seeded_master 2)))
    by exact seeded_food_row.
  assert (H2 : (seeded_master 2) !! "userId" = Some (VStr "u_1"))
    by exact seeded_food_owner.
  assert (H3 : list_find (has_id food_id) (table_of RECORDS_KEY admin_world) = Some ((2%nat), (seeded_master 2)))
    by exact admin_world_food_row.
  exact (conj H1 (conj H2 (conj H3 (adminDashboard_confirmReject_requires_reason demo_clock seeded_records food_id "u_1" " past its date " (2%nat) (2%nat) (seeded_master 2) (seeded_master 2) admin_world H1 H2 H3)))).
Defined.

Lemma adminDashboard_stale_snapshot_witness :
  (is_admin (dms_session (fresh_world (Some admin_session))) = true)
  ∧
  (list_find (has_id food_id) seeded_records = Some ((2%nat), (seeded_master 2)))
  ∧
  (Forall (λ r, ¬ has_id food_id r) (table_of RECORDS_KEY (fresh_world (Some admin_session))))
  ∧
  (∃ n w',
    approveRecord demo_clock reliable food_id (fresh_world (Some admin_session)) = (Returns None, (fresh_world (Some admin_session)))
    ∧ adminDashboard_approve demo_clock reliable seeded_records food_id (fresh_world (Some admin_session)) = (Returns tt, w')
    ∧ (∀ key, key ≠ NOTIF_KEY → table_of key w' = table_of key (fresh_world (Some admin_session)))
    ∧ table_of NOTIF_KEY w' = n :: table_of NOTIF_KEY (fresh_world (Some admin_session))
    ∧ n !! "userId" = (seeded_master 2) !! "userId"
    ∧ n !! "donationId" = Some (VStr food_id)
    ∧ n !! "type" = Some (VStr "approved")).
Proof.
  assert (H1 : is_admin (dms_session (fresh_world (Some admin_session))) = true)
    by by_evaluation.
  assert (H2 : list_find (has_id food_id) seeded_records = Some ((2%nat), (seeded_master 2)))
    by exact seeded_food_row.
  assert (H3 : Forall (λ r, ¬ has_id food_id r) (table_of RECORDS_KEY (fresh_world (Some admin_session))))
    by decide_by_evaluation.
  exact (conj H1 (conj H2 (conj H3 (adminDashboard_approve_notifies_from_stale_snapshot demo_clock seeded_records food_id (2%nat) (seeded_master 2) (fresh_world (Some admin_session)) H1 H2 H3)))).
Defined.

Lemma moneyForm_confirm_witness :
  ("upi://pay?pa=donatehub" ≠ "")
  ∧
  (∃ f1 w1 f2 w2,
    _onQRDetected demo_clock reliable "u_2" "upi://pay?pa=donatehub" (seeded None) = (Returns f1, w1)
    ∧ state f1 = "detected"
    ∧ _pendingRecordId f1 = Some (VStr (pending_id demo_clock (seeded None)))
    ∧ txnRef f1 = Some (VStr (pending_txn demo_clock (seeded None)))
    ∧ confirmTransaction demo_clock reliable f1 w1 = (Returns f2, w2)
    ∧ table_of MONEY_KEY w2
      = <["status" := VBool true]> (pending_money demo_clock "upi://pay?pa=donatehub" (seeded None))
        :: table_of MONEY_KEY (seeded None)
    ∧ table_of RECORDS_KEY w2 = pending_master demo_clock "u_2" (seeded None) :: table_of RECORDS_KEY (seeded None)
    ∧ dispatched w2 = (dispatched (seeded None) ++ [pending_master demo_clock "u_2" (seeded None)])%list
    ∧ _pendingRecordId f2 = None
    ∧ retryScanner reliable f2 w2 = (Returns (resetToIdle f2), w2)
    ∧ confirmTransaction demo_clock reliable f2 w2 = (Returns f2, w2)).
Proof.
  assert (H1 : "upi://pay?pa=donatehub" ≠ "")
    by discriminate.
  exact (conj H1 (moneyForm_confirm_completes_and_disarms demo_clock "u_2" "upi://pay?pa=donatehub" (seeded None) H1)).
Defined.

Lemma referential_integrity_preserved_witness :
  referential_integrity
    (after (saveFoodRecord demo_clock reliable "u_1" (VNum 5) (VNum 3)) (fresh_world None))
  ∧ referential_integrity
      (after (deleteRecord reliable food_id)
         (after (saveFoodRecord demo_clock reliable "u_1" (VNum 5) (VNum 3))
            (fresh_world None))).
Proof.
  assert (H0 : referential_integrity (fresh_world None))
    by (split_and!; apply Forall_nil_2).
  assert (H1 : referential_integrity
                 (after (saveFoodRecord demo_clock reliable "u_1" (VNum 5) (VNum 3))
                    (fresh_world None)))
    by exact (proj1 (referential_integrity_preserved demo_clock "u_1" "upi://pay"
                       food_id (VNum 5) (VNum 3) (VNum 20) (fresh_world None) H0)).
  split; [exact H1|].
  exact (proj2 (proj2 (proj2
           (referential_integrity_preserved demo_clock "u_2" "upi://pay" food_id
              (VNum 1) (VNum 1) (VNum 20) _ H1)))).
Defined.
